(** * Forecaster: the trajectory analyzer and the backtest analyzer

    A shallow embedding of [services/new-trajectory-analyzer.ts]
    (class [NewPipelineTrajectoryAnalyzer]) and of
    [services/backtest-analyzer.ts] (class [BacktestAnalyzer]), together
    with the properties of the specification that concern them.

    Modelling conventions.
    - A JavaScript [Date] is its time value, an integer number of
      milliseconds since the epoch ([Z]); [None] stands for an invalid
      date (time value NaN).
    - [daysBeforeClose] is an integer ([Z]): it is produced by
      [Math.ceil] of a quotient of two integers below 2^53, and for every
      valid pair of dates the rounded quotient lies strictly between the
      same two integers as the exact one.
    - Amounts and rates are JavaScript numbers.  Their arithmetic is kept
      abstract in the class [Number]; the instance [QcNumber] (exact
      rationals) is used to run the code on concrete inputs.
    - A JavaScript object used as a dictionary with string keys is an
      association list in insertion order ([Object.keys] order).
    - Strings are sequences of code units below 256 (the characters of
      Latin-1).  The white space and line terminators among them, which
      [trim] and [parseInt] strip, are the code units 9 to 13, 32 and
      160 (the no-break space).
    - The number NaN is written as the quotient [0 / 0], which it
      is. *)

From Stdlib Require Import ZArith List String Ascii Bool Lia QArith Qabs Qcanon.
From Stdlib Require Import Permutation.
From stdpp Require Import base list gmap sorting.

Open Scope Z_scope.

(* ================================================================== *)
(** ** JavaScript string primitives used by the parser *)

Module JsString.

Definition is_ws (c : ascii) : bool :=
  let n := Z.of_nat (nat_of_ascii c) in
  (n =? 32) || ((9 <=? n) && (n <=? 13)) || (n =? 160).

Fixpoint trimStart (s : string) : string :=
  match s with
  | EmptyString => EmptyString
  | String c r => if is_ws c then trimStart r else s
  end.

Fixpoint trimEnd (s : string) : string :=
  match s with
  | EmptyString => EmptyString
  | String c r =>
      match trimEnd r with
      | EmptyString => if is_ws c then EmptyString else String c EmptyString
      | r' => String c r'
      end
  end.

(** [s.trim()] *)
Definition trim (s : string) : string := trimEnd (trimStart s).

(** [s.includes(c)] for a one-character needle. *)
Fixpoint includes (c : ascii) (s : string) : bool :=
  match s with
  | EmptyString => false
  | String d r => Ascii.eqb d c || includes c r
  end.

(** [s.split(sep)] for a one-character separator. *)
Fixpoint split (sep : ascii) (s : string) : list string :=
  match s with
  | EmptyString => [EmptyString]
  | String c r =>
      if Ascii.eqb c sep then EmptyString :: split sep r
      else match split sep r with
           | [] => [String c EmptyString]
           | h :: t => String c h :: t
           end
  end.

(** [s.substring(a, b)] for [0 <= a <= b]; both ends are clamped to
    the length of [s]. *)
Fixpoint drop (n : nat) (s : string) : string :=
  match n, s with
  | O, _ => s
  | S _, EmptyString => EmptyString
  | S k, String _ r => drop k r
  end.

Fixpoint take (n : nat) (s : string) : string :=
  match n, s with
  | O, _ => EmptyString
  | S _, EmptyString => EmptyString
  | S k, String c r => String c (take k r)
  end.

Definition substring (a b : nat) (s : string) : string :=
  take (b - a) (drop a s).

(** [s.replace(/[,\$]/g, '')] *)
Fixpoint stripMoney (s : string) : string :=
  match s with
  | EmptyString => EmptyString
  | String c r =>
      if Ascii.eqb c ","%char || Ascii.eqb c "$"%char
      then stripMoney r else String c (stripMoney r)
  end.

Definition digit (c : ascii) : option Z :=
  let n := Z.of_nat (nat_of_ascii c) in
  if (48 <=? n) && (n <=? 57) then Some (n - 48) else None.

Definition hexdigit (c : ascii) : option Z :=
  let n := Z.of_nat (nat_of_ascii c) in
  if (48 <=? n) && (n <=? 57) then Some (n - 48)
  else if (65 <=? n) && (n <=? 70) then Some (n - 55)
  else if (97 <=? n) && (n <=? 102) then Some (n - 87)
  else None.

(** The longest prefix of digits of [s], read in the given radix;
    [acc] is [None] until a first digit has been seen. *)
Fixpoint digits (val : ascii -> option Z) (radix : Z) (s : string)
         (acc : option Z) : option Z :=
  match s with
  | EmptyString => acc
  | String c r =>
      match val c with
      | Some d =>
          digits val radix r
                 (Some (radix * match acc with Some a => a | None => 0 end + d))
      | None => acc
      end
  end.

(** [parseInt(s)] with no radix argument: leading white space, an
    optional sign, an optional [0x] prefix, then the longest prefix of
    digits.  [None] is NaN. *)
Definition parseInt (s : string) : option Z :=
  let s1 := trimStart s in
  let '(sign, s2) :=
    match s1 with
    | String "-"%char r => (-1, r)
    | String "+"%char r => (1, r)
    | _ => (1, s1)
    end in
  let r :=
    match s2 with
    | String "0"%char (String x r) =>
        if Ascii.eqb x "x"%char || Ascii.eqb x "X"%char
        then digits hexdigit 16 r None
        else digits digit 10 s2 None
    | _ => digits digit 10 s2 None
    end in
  option_map (Z.mul sign) r.

(** Decimal rendering of [n] on exactly [w] digits (the low ones). *)
Fixpoint pad (w : nat) (n : Z) : string :=
  match w with
  | O => EmptyString
  | S k =>
      append (pad k (n / 10))
             (String (ascii_of_nat (Z.to_nat (48 + n mod 10))) EmptyString)
  end.

(** [a >= b] on strings: comparison of the sequences of code units. *)
Definition geb (a b : string) : bool := String.leb b a.

End JsString.

(* ================================================================== *)
(** ** JavaScript dates (ECMAScript time values, UTC only) *)

Module JsDate.
Import JsString.

Definition msPerDay : Z := 1000 * 60 * 60 * 24.

Definition Day (t : Z) : Z := t / msPerDay.

Definition DayFromYear (y : Z) : Z :=
  365 * (y - 1970) + (y - 1969) / 4 - (y - 1901) / 100 + (y - 1601) / 400.

Definition InLeapYear (y : Z) : bool :=
  (y mod 4 =? 0) && (negb (y mod 100 =? 0) || (y mod 400 =? 0)).

(** Number of days before month [mn] (0-based) in a year. *)
Definition monthOffset (leap : bool) (mn : Z) : Z :=
  let l := if leap then 1 else 0 in
  match mn with
  | 0 => 0 | 1 => 31 | 2 => 59 + l | 3 => 90 + l | 4 => 120 + l
  | 5 => 151 + l | 6 => 181 + l | 7 => 212 + l | 8 => 243 + l
  | 9 => 273 + l | 10 => 304 + l | _ => 334 + l
  end.

Definition DaysInMonth (y mn : Z) : Z :=
  match mn with
  | 1 => if InLeapYear y then 29 else 28
  | 3 | 5 | 8 | 10 => 30
  | _ => 31
  end.

(** [MakeDay(year, month, date)]: the month may lie outside 0..11 and
    the date outside the month; both carry over. *)
Definition MakeDay (year month date : Z) : Z :=
  let ym := year + month / 12 in
  let mn := month mod 12 in
  DayFromYear ym + monthOffset (InLeapYear ym) mn + date - 1.

Definition MakeTime (h mi s ms : Z) : Z :=
  h * 3600000 + mi * 60000 + s * 1000 + ms.

Definition MakeDate (day time : Z) : Z := day * msPerDay + time.

Definition TimeClip (t : Z) : option Z :=
  if Z.abs t >? 8640000000000000 then None else Some t.

(** [Date.UTC(year, month, date, h, mi, s, ms)].  The first three
    arguments may be NaN ([None]); a year in 0..99 means 1900 + year. *)
Definition UTC (year month date : option Z) (h mi s ms : Z) : option Z :=
  match year, month, date with
  | Some y, Some m, Some d =>
      let yr := if (0 <=? y) && (y <=? 99) then 1900 + y else y in
      TimeClip (MakeDate (MakeDay yr m d) (MakeTime h mi s ms))
  | _, _, _ => None
  end.

(** Civil date of a day number: (year, month 0-based, day of month). *)
Definition civil (day : Z) : Z * Z * Z :=
  let z := day + 719468 in
  let era := z / 146097 in
  let doe := z - era * 146097 in
  let yoe := (doe - doe / 1460 + doe / 36524 - doe / 146096) / 365 in
  let doy := doe - (365 * yoe + yoe / 4 - yoe / 100) in
  let mp := (5 * doy + 2) / 153 in
  let d := doy - (153 * mp + 2) / 5 + 1 in
  let m := if mp <? 10 then mp + 3 else mp - 9 in
  let y := yoe + era * 400 + (if m <=? 2 then 1 else 0) in
  (y, m - 1, d).

Definition getUTCFullYear (t : Z) : Z := fst (fst (civil (Day t))).
Definition getUTCMonth (t : Z) : Z := snd (fst (civil (Day t))).
Definition getUTCDate (t : Z) : Z := snd (civil (Day t)).

(** [d.toISOString()]: [YYYY-MM-DDTHH:mm:ss.sssZ], with a sign and six
    digits for a year outside 0..9999. *)
Definition isoYear (y : Z) : string :=
  if (0 <=? y) && (y <=? 9999) then pad 4 y
  else append (if y <? 0 then "-" else "+") (pad 6 (Z.abs y)).

(** The text [YYYY-MM-DD] of a year, a month (1-based) and a day. *)
Definition isoYMD (y m d : Z) : string :=
  append (isoYear y) (append "-" (append (pad 2 m) (append "-" (pad 2 d)))).

Definition isoDate (t : Z) : string :=
  isoYMD (getUTCFullYear t) (getUTCMonth t + 1) (getUTCDate t).

Definition toISOString (t : Z) : string :=
  let r := t mod msPerDay in
  append (isoDate t)
    (append "T" (append (pad 2 (r / 3600000))
      (append ":" (append (pad 2 (r / 60000 mod 60))
        (append ":" (append (pad 2 (r / 1000 mod 60))
          (append "." (append (pad 3 (r mod 1000)) "Z")))))))).

(** Exactly [n] decimal digits at the head of [s]. *)
Fixpoint fixedDigits (n : nat) (acc : Z) (s : string) : option (Z * string) :=
  match n with
  | O => Some (acc, s)
  | S k =>
      match s with
      | String c r =>
          match digit c with
          | Some d => fixedDigits k (10 * acc + d) r
          | None => None
          end
      | EmptyString => None
      end
  end.

Definition isoYearField (s : string) : option (Z * string) :=
  match s with
  | String "+"%char r => fixedDigits 6 0 r
  | String "-"%char r =>
      match fixedDigits 6 0 r with
      | Some (y, r') => if y =? 0 then None else Some (- y, r')
      | None => None
      end
  | _ => fixedDigits 4 0 s
  end.

(** [HH:mm], [HH:mm:ss] or [HH:mm:ss.sss] followed by [Z]. *)
Definition isoTimeZ (s : string) : option Z :=
  match fixedDigits 2 0 s with
  | Some (h, String ":"%char r1) =>
      match fixedDigits 2 0 r1 with
      | Some (mi, r2) =>
          let ok (sec ms : Z) :=
            if (h <=? 23) && (mi <=? 59) && (sec <=? 59)
            then Some (MakeTime h mi sec ms) else None in
          match r2 with
          | String "Z"%char EmptyString => ok 0 0
          | String ":"%char r3 =>
              match fixedDigits 2 0 r3 with
              | Some (sec, String "Z"%char EmptyString) => ok sec 0
              | Some (sec, String "."%char r4) =>
                  match fixedDigits 3 0 r4 with
                  | Some (ms, String "Z"%char EmptyString) => ok sec ms
                  | _ => None
                  end
              | _ => None
              end
          | _ => None
          end
      | None => None
      end
  | _ => None
  end.

(** The part of the ECMAScript date-time string format whose meaning
    does not depend on the host: the date-only forms (UTC) and the
    date-time forms with the [Z] suffix, all fields in range. *)
Definition parseISO (s : string) : option Z :=
  match isoYearField s with
  | None => None
  | Some (y, r0) =>
      let mk (m d time : Z) :=
        if (1 <=? m) && (m <=? 12) && (1 <=? d) && (d <=? DaysInMonth y (m - 1))
        then TimeClip (MakeDate (MakeDay y (m - 1) d) time) else None in
      match r0 with
      | EmptyString => mk 1 1 0
      | String "-"%char r1 =>
          match fixedDigits 2 0 r1 with
          | Some (m, EmptyString) => mk m 1 0
          | Some (m, String "-"%char r2) =>
              match fixedDigits 2 0 r2 with
              | Some (d, EmptyString) => mk m d 0
              | Some (d, String "T"%char r3) =>
                  match isoTimeZ r3 with
                  | Some time => mk m d time
                  | None => None
                  end
              | _ => None
              end
          | _ => None
          end
      | _ => None
      end
  end.

End JsDate.

(** What the host supplies: the implementation-defined part of
    [Date.parse] (strings outside [JsDate.parseISO]) and the clock read by
    [new Date()]. *)
Class Host := {
  host_Date_parse : string -> option Z;
  now : Z
}.

(** [new Date(s).getTime()], [None] for NaN. *)
Definition Date_parse `{Host} (s : string) : option Z :=
  match JsDate.parseISO s with
  | Some t => Some t
  | None => host_Date_parse s
  end.

(* ================================================================== *)
(** ** JavaScript numbers *)

(** The arithmetic of amounts and rates.  Nothing is assumed about it:
    the operations are those of the JavaScript number type, whatever
    their rounding.  [parseFloat] returns [None] for NaN. *)
Class Number := {
  num : Type;
  ofZ : Z -> num;
  nadd : num -> num -> num;
  nsub : num -> num -> num;
  nmul : num -> num -> num;
  ndiv : num -> num -> num;
  nlt : num -> num -> bool;
  nle : num -> num -> bool;
  neq : num -> num -> bool;
  truthy : num -> bool;
  Math_pow : num -> num -> num;
  Math_sqrt : num -> num;
  Math_abs : num -> num;
  parseFloat : string -> option num
}.

Declare Scope num_scope.
Delimit Scope num_scope with num.
Bind Scope num_scope with num.
Notation "a + b" := (nadd a b) : num_scope.
Notation "a - b" := (nsub a b) : num_scope.
Notation "a * b" := (nmul a b) : num_scope.
Notation "a / b" := (ndiv a b) : num_scope.
Notation "a <? b" := (nlt a b) : num_scope.
Notation "a <=? b" := (nle a b) : num_scope.
Notation "a >? b" := (nlt b a) : num_scope.
Notation "a >=? b" := (nle b a) : num_scope.
Notation "a =? b" := (neq a b) : num_scope.

(** A decimal literal [a / b], e.g. [lit 95 100] for [0.95]. *)
Definition lit `{Number} (a b : Z) : num := (ofZ a / ofZ b)%num.

(** The number NaN: [0 / 0]. *)
Definition NaN `{Number} : num := (ofZ 0 / ofZ 0)%num.

(** A growth rate that [calculateGrowthRates] keeps: a number
    [Math.pow(x, y) - 1] that passes the outlier guard
    [-0.5 < g < 0.5]. *)
Definition keptRate `{Number} (g : num) : Prop :=
  (exists x y : num, g = (Math_pow x y - ofZ 1)%num)
  /\ (g >? lit (-1) 2)%num = true /\ (g <? lit 1 2)%num = true.

(** The laws of the comparator [(a, b) => a - b] on the rates that are
    kept.  They hold of the JavaScript numbers: a number that passes
    the guard is not NaN and lies between -0.5 and 0.5; on such numbers
    a difference is positive exactly when its first operand is the
    greater, and it is zero only for equal operands; and a difference
    [p - 1] is never the negative zero, so that equal kept rates are
    the same number.  (None of the three laws holds of all numbers: NaN
    is separated from no number, nor are the two zeros from each
    other.) *)
Class RateOrder (N : Number) : Prop := {
  rate_total : forall a b : num,
    keptRate a -> keptRate b ->
    nlt (ofZ 0) (a - b)%num = true -> nlt (ofZ 0) (b - a)%num = false;
  rate_trans : forall a b c : num,
    keptRate a -> keptRate b -> keptRate c ->
    nlt (ofZ 0) (a - b)%num = false -> nlt (ofZ 0) (b - c)%num = false ->
    nlt (ofZ 0) (a - c)%num = false;
  rate_antisym : forall a b : num,
    keptRate a -> keptRate b ->
    nlt (ofZ 0) (a - b)%num = false -> nlt (ofZ 0) (b - a)%num = false ->
    a = b
}.

(** A number that is [> 0] is truthy (it is neither 0 nor NaN). *)
Class NumberTruthy (N : Number) : Prop := {
  pos_truthy : forall a : num, nlt (ofZ 0) a = true -> truthy a = true
}.

(* ================================================================== *)
(** ** Arrays and dictionaries *)

Section Arrays.
Context {A : Type}.

(** [xs.sort(cmp)], a stable sort; [after a b] is [cmp(a, b) > 0].
    (For a comparator that is not consistent the order is left to the
    implementation by the language.) *)
Fixpoint insert_sorted (after : A -> A -> bool) (x : A) (l : list A) : list A :=
  match l with
  | [] => [x]
  | y :: r => if after x y then y :: insert_sorted after x r else x :: y :: r
  end.

Definition sort (after : A -> A -> bool) (l : list A) : list A :=
  foldr (insert_sorted after) [] l.

(** [a] need not come after [b]: [cmp(a, b) <= 0]. *)
Definition notAfter (after : A -> A -> bool) (a b : A) : Prop :=
  after a b = false.

(** [xs.reduce(f)] without an initial value; [None] for the empty
    array (where JavaScript throws). *)
Definition reduce1 (f : A -> A -> A) (l : list A) : option A :=
  match l with
  | [] => None
  | x :: r => Some (fold_left f r x)
  end.

(** [xs.slice(a, b)] for [0 <= a <= b]. *)
Definition slice (a b : nat) (l : list A) : list A :=
  firstn (b - a) (skipn a l).

(** [xs.findIndex(p)]; [None] is -1. *)
Fixpoint findIndex (p : A -> bool) (l : list A) : option nat :=
  match l with
  | [] => None
  | x :: r => if p x then Some O else option_map S (findIndex p r)
  end.

End Arrays.

(** An object used as a dictionary: keys in insertion order. *)
Definition dict (V : Type) : Type := list (string * V).

Section Dict.
Context {V : Type}.

(** [d[k]], [None] for undefined. *)
Fixpoint dget (k : string) (d : dict V) : option V :=
  match d with
  | [] => None
  | (k', v) :: r => if String.eqb k' k then Some v else dget k r
  end.

(** [d[k] = v]: an existing key keeps its place. *)
Fixpoint dset (k : string) (v : V) (d : dict V) : dict V :=
  match d with
  | [] => [(k, v)]
  | (k', v') :: r =>
      if String.eqb k' k then (k', v) :: r else (k', v') :: dset k v r
  end.

Definition keys (d : dict V) : list string := map fst d.
Definition values (d : dict V) : list V := map snd d.

End Dict.

(* ================================================================== *)
(** ** The data model of [types/new-pipeline.ts] *)

Record RawCSVRow := {
  snapShotTime : string;
  date : string;
  totalAmount : string;
  stage : string
}.

Section Types.
Context `{N : Number}.

Record ProcessedRow := {
  p_snapshotDate : Z;
  p_closingMonth : Z;
  p_daysBeforeClose : Z;
  p_amount : num;
  p_stage : string;
  p_weightedAmount : num
}.

Record AggregatedSnapshot := {
  snapshotDate : Z;
  daysBeforeClose : Z;
  rawPipeline : num;
  weightedPipeline : num
}.

Definition MonthData : Type := dict (list AggregatedSnapshot).

Record DailyGrowthRate := {
  daysBefore : Z;
  rate : num
}.

Record NewTrajectoryPoint := {
  t_snapshotDate : Z;
  t_daysBeforeClose : Z;
  t_weightedAmount : num;
  t_rawAmount : num
}.

Record SimilarityPoint := {
  days_before : Z;
  current_value : num;
  historical_value : num;
  pct_difference : num
}.

Record NewTrajectoryComparison := {
  historical_month : string;
  avg_pct_diff : num;
  variance : num;
  similarities : list SimilarityPoint;
  historical_closing : num;
  score : num
}.

Record NewAnalysisResult := {
  month : string;
  currentRawValue : num;
  currentWeightedValue : num;
  daysToClose : Z;
  totalProjectedGrowth : num;
  forecast : option num;
  trajectory : list NewTrajectoryPoint;
  forecastTrajectory : list NewTrajectoryPoint;
  similarMonths : list NewTrajectoryComparison
}.

Record NewBacktestResult := {
  b_month : string;
  b_daysBefore : Z;
  prediction : num;
  actual : num
}.

(** [peakDate] may be an invalid date and [daysBeforeClosing] NaN. *)
Record NewPeakAnalysis := {
  pk_month : string;
  peakDate : option Z;
  peakRawValue : num;
  peakWeightedValue : num;
  pk_daysBeforeClosing : option Z;
  actualClosingRawValue : num;
  actualClosingWeightedValue : num;
  declinePercentageRaw : num;
  declinePercentageWeighted : num
}.

(** An entry of [actualClosingValues], and of the running sums. *)
Record Totals := {
  raw : num;
  weighted : num
}.

Record ForecastDay := {
  fd_date : string;
  fd_daysBefore : Z;
  fd_startValue : num;
  fd_growthRate : num;
  fd_endValue : num
}.

Record ForecastCalculation := {
  fc_month : string;
  fc_startValue : num;
  fc_endValue : num;
  fc_daysToClose : Z;
  dailyBreakdown : list ForecastDay
}.

Record NewAppendixData := {
  smoothedGrowthRates : list DailyGrowthRate;
  ap_medianGrowthRates : list DailyGrowthRate;
  forecastCalculations : list ForecastCalculation
}.

End Types.

(* ================================================================== *)
(** ** Code shared by the two analyzers *)

Section Shared.
Context `{N : Number}.
Import JsString JsDate.

(** [Math.ceil(a / b)] on integers, [b > 0]. *)
Definition ceilDiv (a b : Z) : Z := - ((- a) / b).

(** [new Date(Date.UTC(year, month + 1, 0, 23, 59, 59, 999))], the last
    instant of month [month] (0-based), for a year outside 0..99 and a
    time value in range (the year is 2025 wherever this is used). *)
Definition lastDayOfMonth (year month : Z) : Z :=
  MakeDate (MakeDay year (month + 1) 0) (MakeTime 23 59 59 999).

(** [Math.ceil((lastDayOfMonth.getTime() - t) / (1000*60*60*24))] *)
Definition daysUntil (lastDay t : Z) : Z := ceilDiv (lastDay - t) msPerDay.

(** [d.toISOString().substring(0, 7)] *)
Definition monthKeyOf (t : Z) : string := substring 0 7 (toISOString t).

(** The running table [dailyRates] of [calculateGrowthRates]. *)
Definition pushRate (day : Z) (growth : num) (dailyRates : gmap Z (list num))
  : gmap Z (list num) :=
  <[ day := default [] (dailyRates !! day) ++ [growth] ]> dailyRates.

(** [for (let d = 0; d < daysDiff; d++)]: the days filled by one pair. *)
Definition fillDays (currentDay daysDiff : Z) (growth : num)
           (dailyRates : gmap Z (list num)) : gmap Z (list num) :=
  fold_left
    (fun acc d =>
       let day := currentDay + Z.of_nat d in
       if (day >=? 0) && (day <=? 89) then pushRate day growth acc else acc)
    (seq 0 (Z.to_nat daysDiff)) dailyRates.

(** The body of the loop over consecutive points. *)
Definition pairRates (previous current : AggregatedSnapshot)
           (dailyRates : gmap Z (list num)) : gmap Z (list num) :=
  let daysDiff := daysBeforeClose previous - daysBeforeClose current in
  if (daysDiff >? 0) && (daysDiff <=? 3) then
    if (weightedPipeline previous >? ofZ 0)%num then
      let growth :=
        (Math_pow (weightedPipeline current / weightedPipeline previous)
                  (ofZ 1 / ofZ daysDiff) - ofZ 1)%num in
      if (growth >? lit (-1) 2)%num && (growth <? lit 1 2)%num
      then fillDays (daysBeforeClose current) daysDiff growth dailyRates
      else dailyRates
    else dailyRates
  else dailyRates.

(** [for (let i = 0; i < monthData.length - 1; i++)] *)
Fixpoint monthRates (monthData : list AggregatedSnapshot)
         (dailyRates : gmap Z (list num)) : gmap Z (list num) :=
  match monthData with
  | previous :: ((current :: _) as rest) =>
      monthRates rest (pairRates previous current dailyRates)
  | _ => dailyRates
  end.

(** [months.forEach(...)] *)
Definition collectRates (data : MonthData) (months : list string)
  : gmap Z (list num) :=
  fold_left
    (fun acc monthKey =>
       match dget monthKey data with
       | Some monthData => monthRates monthData acc
       | None => acc
       end)
    months ∅.

Definition medianOf (rates : list num) : num :=
  let sortedRates := sort (fun a b => (a - b >? ofZ 0)%num) rates in
  let mid := (length sortedRates / 2)%nat in
  if negb (length sortedRates mod 2 =? 0)%nat
  then nth mid sortedRates (ofZ 0)
  else ((nth (mid - 1) sortedRates (ofZ 0) + nth mid sortedRates (ofZ 0))
        / ofZ 2)%num.

(** [for (let day = 0; day <= 89; day++)], then the sort by day. *)
Definition medianRatesOf (dailyRates : gmap Z (list num)) : list DailyGrowthRate :=
  sort (fun a b => daysBefore a - daysBefore b >? 0)
    (map (fun d =>
            let day := Z.of_nat d in
            match dailyRates !! day with
            | Some ((_ :: _) as rates) =>
                {| daysBefore := day; rate := medianOf rates |}
            | _ => {| daysBefore := day; rate := ofZ 0 |}
            end)
         (seq 0 90)).

(** The moving average with [windowRadius = 2]. *)
Definition smoothedRatesOf (medianRates : list DailyGrowthRate)
  : list DailyGrowthRate :=
  let len := length medianRates in
  imap (fun i r =>
          let start := (i - 2)%nat in
          let stop := Nat.min (len - 1) (i + 2) in
          let sum :=
            fold_left (fun s x => (s + rate x)%num)
                      (slice start (stop + 1) medianRates) (ofZ 0) in
          {| daysBefore := daysBefore r;
             rate := (sum / ofZ (Z.of_nat (stop - start + 1)))%num |})
       medianRates.

(** [getTrajectoryAtDaysBefore(monthData, targetDays)], tolerance 3. *)
Definition getTrajectoryAtDaysBefore (monthData : list AggregatedSnapshot)
           (targetDays : Z) : option AggregatedSnapshot :=
  match reduce1 (fun best point =>
                   if Z.abs (daysBeforeClose point - targetDays)
                      <? Z.abs (daysBeforeClose best - targetDays)
                   then point else best) monthData with
  | None => None
  | Some closest =>
      if Z.abs (daysBeforeClose closest - targetDays) <=? 3
      then Some closest else None
  end.

(** [rates.find(r => r.daysBefore === d)?.rate ?? 0] *)
Definition rateAt (rates : list DailyGrowthRate) (d : Z) : num :=
  match find (fun r => daysBefore r =? d) rates with
  | Some r => rate r
  | None => ofZ 0
  end.

(** The days [n - 1, n - 2, ..., 0] of a loop
    [for (let d = n - 1; d >= 0; d--)]. *)
Definition countdown (n : Z) : list Z :=
  map (fun k => n - 1 - Z.of_nat k) (seq 0 (Z.to_nat n)).

(** [historicalMonth => closingDate < today && actualClosingValues[m]
    && actualClosingValues[m].weighted > 0] *)
Definition isHistorical (today : Z) (actualClosingValues : dict Totals)
           (monthKey : string) : bool :=
  let closingDate :=
    UTC (parseInt (substring 0 4 monthKey))
        (parseInt (substring 5 7 monthKey)) (Some 0) 0 0 0 0 in
  match closingDate with
  | Some c =>
      (c <? today) &&
      match dget monthKey actualClosingValues with
      | Some v => (weighted v >? ofZ 0)%num
      | None => false
      end
  | None => false
  end.

End Shared.

(* ================================================================== *)
(** ** [NewPipelineTrajectoryAnalyzer] *)

Section Analyzer.
Context `{N : Number} `{H : Host}.
Import JsString JsDate.

(** The names that every object literal inherits from
    [Object.prototype]. *)
Definition inheritedNames : list string :=
  [ "constructor"; "hasOwnProperty"; "isPrototypeOf";
    "propertyIsEnumerable"; "toLocaleString"; "toString"; "valueOf";
    "__proto__"; "__defineGetter__"; "__defineSetter__";
    "__lookupGetter__"; "__lookupSetter__" ]%string.

(** [STAGE_WEIGHTS[stage] ?? 0], as the number that the product
    [amount * weight] makes of it.  The table is an object literal: a
    stage that is one of its four keys has its weight; a stage that is
    an inherited name finds a function (for [__proto__], the prototype
    object), which is not nullish and as a number is NaN; any other
    stage finds nothing and has the weight 0. *)
Definition STAGE_WEIGHTS (stage : string) : num :=
  if String.eqb stage "FUNDED" then ofZ 1
  else if String.eqb stage "READY_FOR_FUNDING" then lit 95 100
  else if String.eqb stage "CONDITION_FULFILLMENT" then lit 75 100
  else if String.eqb stage "APPROVED" then lit 60 100
  else if existsb (String.eqb stage) inheritedNames then NaN
  else ofZ 0.

(** The private fields of the class. *)
Record Analyzer := {
  allData : list ProcessedRow;
  aggregatedDataByMonth : MonthData;
  allHistoricalMonths : list string;
  currentMonths : list string;
  actualClosingValues : dict Totals;
  forecastGrowthRates : list DailyGrowthRate;
  medianGrowthRates : list DailyGrowthRate;
  peakData : list NewPeakAnalysis
}.

(** [new NewPipelineTrajectoryAnalyzer()] *)
Definition newAnalyzer : Analyzer :=
  {| allData := []; aggregatedDataByMonth := []; allHistoricalMonths := [];
     currentMonths := []; actualClosingValues := [];
     forecastGrowthRates := []; medianGrowthRates := []; peakData := [] |}.

Definition empty (s : string) : bool :=
  match s with EmptyString => true | _ => false end.

(** The closing date of a row: [MM/DD/YYYY] read by position, any
    other text of three parts read the same way, the rest left to
    [new Date]. *)
Definition closingMonthDateOf (dateStr : string) : option Z :=
  let dateParts :=
    if includes "/" dateStr then split "/" dateStr else split "-" dateStr in
  match dateParts with
  | [p0; p1; p2] =>
      UTC (parseInt p2) (option_map (fun m => m - 1) (parseInt p0))
          (parseInt p1) 0 0 0 0
  | _ => Date_parse dateStr
  end.

(** The body of the [map] in [processRawData]; [None] is [null]. *)
Definition processRow (row : RawCSVRow) : option ProcessedRow :=
  if empty (snapShotTime row) || empty (date row)
     || empty (totalAmount row) || empty (stage row) then None
  else
    match Date_parse (trim (snapShotTime row)) with
    | None => None
    | Some snapshotDate =>
        match closingMonthDateOf (trim (date row)) with
        | None => None
        | Some closingMonthDate =>
            let closingYear := getUTCFullYear closingMonthDate in
            if negb (closingYear =? 2025) then None
            else
              let lastDay :=
                lastDayOfMonth closingYear (getUTCMonth closingMonthDate) in
              let daysBeforeClose := daysUntil lastDay snapshotDate in
              if (daysBeforeClose >? 89) || (daysBeforeClose <? -5) then None
              else
                match parseFloat (stripMoney (totalAmount row)) with
                | None => None
                | Some amount =>
                    let stage := trim (stage row) in
                    let weight := STAGE_WEIGHTS stage in
                    Some {| p_snapshotDate := snapshotDate;
                            p_closingMonth := closingMonthDate;
                            p_daysBeforeClose := daysBeforeClose;
                            p_amount := amount;
                            p_stage := stage;
                            p_weightedAmount := (amount * weight)%num |}
                end
        end
    end.

Definition processRawData (rawData : list RawCSVRow) : list ProcessedRow :=
  omap processRow rawData.

(** *** aggregateDataByMonth *)

(** First pass: the sums per [snapshot|month] key. *)
Definition dataBySnapshotAndMonth (rows : list ProcessedRow) : dict Totals :=
  fold_left
    (fun d row =>
       let snapshotKey := toISOString (p_snapshotDate row) in
       let monthKey := monthKeyOf (p_closingMonth row) in
       let key := append snapshotKey (append "|" monthKey) in
       let old :=
         match dget key d with
         | Some v => v
         | None => {| raw := ofZ 0; weighted := ofZ 0 |}
         end in
       dset key {| raw := (raw old + p_amount row)%num;
                   weighted := (weighted old + p_weightedAmount row)%num |} d)
    rows [].

Record DailyAggregate := {
  da_raw : num;
  da_weighted : num;
  da_snapshotDate : Z;
  da_closingMonth : option Z
}.

(** Second pass: the latest snapshot of each day.  [None] is the
    RangeError of [toISOString] on an invalid date. *)
Fixpoint dailyAggregates (entries : dict Totals) (acc : dict DailyAggregate)
  : option (dict DailyAggregate) :=
  match entries with
  | [] => Some acc
  | (key, values) :: rest =>
      let parts := split "|" key in
      let snapshotTimestamp := nth 0 parts "undefined"%string in
      let monthKey := nth 1 parts "undefined"%string in
      match Date_parse snapshotTimestamp with
      | None => None
      | Some snapshotDate =>
          let snapshotDayKey :=
            nth 0 (split "T" (toISOString snapshotDate)) EmptyString in
          let dailyKey := append snapshotDayKey (append "|" monthKey) in
          let replace :=
            match dget dailyKey acc with
            | None => true
            | Some old => snapshotDate >? da_snapshotDate old
            end in
          dailyAggregates rest
            (if replace
             then dset dailyKey
                    {| da_raw := raw values; da_weighted := weighted values;
                       da_snapshotDate := snapshotDate;
                       da_closingMonth :=
                         Date_parse (append monthKey "-01T00:00:00.000Z") |}
                    acc
             else acc)
      end
  end.

(** Third pass: one point per day, appended to its month. *)
Fixpoint pushAggregates (aggregates : list DailyAggregate) (data : MonthData)
  : option MonthData :=
  match aggregates with
  | [] => Some data
  | aggregate :: rest =>
      match da_closingMonth aggregate with
      | None => None
      | Some closingMonth =>
          let monthKey := monthKeyOf closingMonth in
          let lastDay :=
            lastDayOfMonth (getUTCFullYear closingMonth)
                           (getUTCMonth closingMonth) in
          let point :=
            {| snapshotDate := da_snapshotDate aggregate;
               daysBeforeClose := daysUntil lastDay (da_snapshotDate aggregate);
               rawPipeline := da_raw aggregate;
               weightedPipeline := da_weighted aggregate |} in
          pushAggregates rest
            (dset monthKey (default [] (dget monthKey data) ++ [point]) data)
      end
  end.

(** [this.aggregatedDataByMonth] is extended, not reset. *)
Definition aggregateDataByMonth (rows : list ProcessedRow) (data : MonthData)
  : option MonthData :=
  match dailyAggregates (dataBySnapshotAndMonth rows) [] with
  | None => None
  | Some daily =>
      match pushAggregates (values daily) data with
      | None => None
      | Some pushed =>
          Some (map (fun kv =>
                       (fst kv,
                        sort (fun a b =>
                                daysBeforeClose b - daysBeforeClose a >? 0)
                             (snd kv)))
                    pushed)
      end
  end.

(** *** calculateActualClosingValues *)

Definition closingValuePoint (monthData : list AggregatedSnapshot)
  : option AggregatedSnapshot :=
  reduce1 (fun closest point =>
             if Z.abs (daysBeforeClose point) <? Z.abs (daysBeforeClose closest)
             then point else closest) monthData.

(** [this.actualClosingValues] is extended, not reset. *)
Definition calculateActualClosingValues (data : MonthData)
           (closing : dict Totals) : dict Totals :=
  fold_left
    (fun acc monthKey =>
       match dget monthKey data with
       | Some monthData =>
           match closingValuePoint monthData with
           | Some point =>
               if Z.abs (daysBeforeClose point) <=? 5
               then dset monthKey {| raw := rawPipeline point;
                                     weighted := weightedPipeline point |} acc
               else acc
           | None => acc
           end
       | None => acc
       end)
    (keys data) closing.

(** *** categorizeMonths: (allHistoricalMonths, currentMonths) *)

(** [(a, b) => new Date(a).getTime() - new Date(b).getTime()] is > 0 *)
Definition laterMonth (a b : string) : bool :=
  match Date_parse a, Date_parse b with
  | Some x, Some y => x - y >? 0
  | _, _ => false
  end.

Definition categorizeMonths (data : MonthData) (closing : dict Totals)
  : list string * list string :=
  let allMonths := sort (fun a b => String.ltb b a) (keys data) in
  let historical := List.filter (isHistorical now closing) allMonths in
  let current :=
    List.filter (fun m => negb (existsb (String.eqb m) historical)) allMonths in
  (historical, sort laterMonth current).

(** *** calculateGrowthRates: the smoothed curve is returned and the
    median curve is stored in [this.medianGrowthRates]. *)

Definition with_medianGrowthRates (a : Analyzer) (m : list DailyGrowthRate)
  : Analyzer :=
  {| allData := allData a;
     aggregatedDataByMonth := aggregatedDataByMonth a;
     allHistoricalMonths := allHistoricalMonths a;
     currentMonths := currentMonths a;
     actualClosingValues := actualClosingValues a;
     forecastGrowthRates := forecastGrowthRates a;
     medianGrowthRates := m;
     peakData := peakData a |}.

Definition calculateGrowthRates (a : Analyzer) (months : list string)
  : Analyzer * list DailyGrowthRate :=
  let dailyRates := collectRates (aggregatedDataByMonth a) months in
  let medianRates := medianRatesOf dailyRates in
  (with_medianGrowthRates a medianRates, smoothedRatesOf medianRates).

(** *** analyzePeakAndDecline *)

Definition inWindow (windowStart windowEnd : option Z) (t : Z) : bool :=
  match windowStart, windowEnd with
  | Some s, Some e => (t >=? s) && (t <=? e)
  | _, _ => false
  end.

(** [Set.add] on the insertion-ordered set of ISO strings. *)
Definition setAdd (x : string) (s : list string) : list string :=
  if existsb (String.eqb x) s then s else s ++ [x].

Record PeakSnapshot := {
  ps_date : option Z;
  ps_raw : num;
  ps_weighted : num
}.

Definition peakOfMonth (a : Analyzer) (monthKey : string)
  : option NewPeakAnalysis :=
  match Date_parse (append monthKey "-01T00:00:00.000Z") with
  | None => None
  | Some closingMonthDate =>
      let y := getUTCFullYear closingMonthDate in
      let m := getUTCMonth closingMonthDate in
      let windowEndDate := UTC (Some y) (Some (m + 1)) (Some 0) 23 59 59 999 in
      let windowStartDate := UTC (Some y) (Some (m - 1)) (Some 1) 0 0 0 0 in
      let uniqueSnapshotsInWindow :=
        fold_left
          (fun s row =>
             if inWindow windowStartDate windowEndDate (p_snapshotDate row)
             then setAdd (toISOString (p_snapshotDate row)) s else s)
          (allData a) [] in
      match uniqueSnapshotsInWindow with
      | [] => None
      | _ :: _ =>
          let peakSnapshot :=
            fold_left
              (fun peak snapshotISO =>
                 let dealsForThisSnapshot :=
                   List.filter
                     (fun d =>
                        String.eqb (toISOString (p_snapshotDate d)) snapshotISO
                        && String.eqb (monthKeyOf (p_closingMonth d)) monthKey)
                     (allData a) in
                 let totalRaw :=
                   fold_left (fun sum d => (sum + p_amount d)%num)
                             dealsForThisSnapshot (ofZ 0) in
                 let totalWeighted :=
                   fold_left (fun sum d => (sum + p_weightedAmount d)%num)
                             dealsForThisSnapshot (ofZ 0) in
                 if (totalRaw >? ps_raw peak)%num
                 then {| ps_date := Date_parse snapshotISO;
                         ps_raw := totalRaw; ps_weighted := totalWeighted |}
                 else peak)
              uniqueSnapshotsInWindow
              {| ps_date := Some 0; ps_raw := ofZ 0; ps_weighted := ofZ 0 |} in
          match dget monthKey (actualClosingValues a) with
          | None => None
          | Some actuals =>
              if (ps_raw peakSnapshot =? ofZ 0)%num then None
              else
                Some {| pk_month := monthKey;
                        peakDate := ps_date peakSnapshot;
                        peakRawValue := ps_raw peakSnapshot;
                        peakWeightedValue := ps_weighted peakSnapshot;
                        pk_daysBeforeClosing :=
                          match windowEndDate, ps_date peakSnapshot with
                          | Some lastDay, Some t => Some (daysUntil lastDay t)
                          | _, _ => None
                          end;
                        actualClosingRawValue := raw actuals;
                        actualClosingWeightedValue := weighted actuals;
                        declinePercentageRaw :=
                          ((ps_raw peakSnapshot - raw actuals)
                           / ps_raw peakSnapshot * ofZ 100)%num;
                        declinePercentageWeighted :=
                          ((ps_weighted peakSnapshot - weighted actuals)
                           / ps_weighted peakSnapshot * ofZ 100)%num |}
          end
      end
  end.

Definition analyzePeakAndDecline (a : Analyzer) : list NewPeakAnalysis :=
  sort (fun x y => laterMonth (pk_month x) (pk_month y))
       (omap (peakOfMonth a) (allHistoricalMonths a)).

(** *** loadData

    The rows are those delivered by the CSV reader (header row used
    for the field names).  [None] is a rejected promise. *)
Definition loadData (a : Analyzer) (rawData : list RawCSVRow)
  : option Analyzer :=
  let rows := processRawData rawData in
  if (length rows =? 0)%nat then
    Some {| allData := rows;
            aggregatedDataByMonth := aggregatedDataByMonth a;
            allHistoricalMonths := allHistoricalMonths a;
            currentMonths := currentMonths a;
            actualClosingValues := actualClosingValues a;
            forecastGrowthRates := forecastGrowthRates a;
            medianGrowthRates := medianGrowthRates a;
            peakData := peakData a |}
  else
    match aggregateDataByMonth rows (aggregatedDataByMonth a) with
    | None => None
    | Some data =>
        let closing := calculateActualClosingValues data (actualClosingValues a) in
        let '(historical, current) := categorizeMonths data closing in
        let a1 :=
          {| allData := rows;
             aggregatedDataByMonth := data;
             allHistoricalMonths := historical;
             currentMonths := current;
             actualClosingValues := closing;
             forecastGrowthRates := forecastGrowthRates a;
             medianGrowthRates := medianGrowthRates a;
             peakData := peakData a |} in
        let '(a2, smoothed) := calculateGrowthRates a1 historical in
        let a3 :=
          {| allData := allData a2;
             aggregatedDataByMonth := aggregatedDataByMonth a2;
             allHistoricalMonths := allHistoricalMonths a2;
             currentMonths := currentMonths a2;
             actualClosingValues := actualClosingValues a2;
             forecastGrowthRates := smoothed;
             medianGrowthRates := medianGrowthRates a2;
             peakData := peakData a2 |} in
        Some {| allData := allData a3;
                aggregatedDataByMonth := aggregatedDataByMonth a3;
                allHistoricalMonths := allHistoricalMonths a3;
                currentMonths := currentMonths a3;
                actualClosingValues := actualClosingValues a3;
                forecastGrowthRates := forecastGrowthRates a3;
                medianGrowthRates := medianGrowthRates a3;
                peakData := analyzePeakAndDecline a3 |}
    end.

Definition hasData (a : Analyzer) : bool := (0 <? length (allData a))%nat.

Definition getAggregatedDataByMonth (a : Analyzer) : MonthData :=
  aggregatedDataByMonth a.

Definition getActualClosingValues (a : Analyzer) : dict Totals :=
  actualClosingValues a.

Definition getPeakDeclineData (a : Analyzer) : list NewPeakAnalysis :=
  peakData a.

End Analyzer.

Section Forecast.
Context `{N : Number} `{H : Host}.
Import JsString JsDate.

(** *** Similar months *)

Definition calculateTrajectorySimilarity
           (currentTrajectory historicalTrajectory : list AggregatedSnapshot)
           (comparisonDays : list Z) : list SimilarityPoint :=
  fold_left
    (fun similarities daysBefore =>
       match getTrajectoryAtDaysBefore currentTrajectory daysBefore,
             getTrajectoryAtDaysBefore historicalTrajectory daysBefore with
       | Some currentPoint, Some historicalPoint =>
           let currentValue := weightedPipeline currentPoint in
           let historicalValue := weightedPipeline historicalPoint in
           if (historicalValue =? ofZ 0)%num then similarities
           else
             let pctDiff :=
               ((currentValue - historicalValue) / historicalValue * ofZ 100)%num in
             similarities ++
               [{| days_before := daysBefore;
                   current_value := currentValue;
                   historical_value := historicalValue;
                   pct_difference := pctDiff |}]
       | _, _ => similarities
       end)
    comparisonDays [].

Definition comparisonDays : list Z := [85; 75; 60; 45; 30; 15].

(** [new Date(month) >= new Date('2025-01-01T00:00:00.000Z')] *)
Definition sinceJanuary (month : string) : bool :=
  match Date_parse month, Date_parse "2025-01-01T00:00:00.000Z" with
  | Some t, Some c => t >=? c
  | _, _ => false
  end.

Definition compareTo (a : Analyzer) (currentTrajectory : list AggregatedSnapshot)
           (forecastValue : num) (historicalMonth : string)
  : option NewTrajectoryComparison :=
  match dget historicalMonth (aggregatedDataByMonth a) with
  | None | Some [] => None
  | Some historicalTrajectory =>
      let similarities :=
        calculateTrajectorySimilarity currentTrajectory historicalTrajectory
                                      comparisonDays in
      if (0 <? length similarities)%nat then
        let n := ofZ (Z.of_nat (length similarities)) in
        let avgPctDiff :=
          (fold_left (fun sum s => sum + pct_difference s) similarities (ofZ 0)
           / n)%num in
        let variance :=
          Math_sqrt
            (fold_left
               (fun sum s =>
                  sum + Math_pow (pct_difference s - avgPctDiff) (ofZ 2))
               similarities (ofZ 0) / n)%num in
        let trajectoryScore := (Math_abs avgPctDiff + variance)%num in
        let historicalClosing :=
          match dget historicalMonth (actualClosingValues a) with
          | Some v => weighted v
          | None => ofZ 0
          end in
        let forecastDiff :=
          if (forecastValue >? ofZ 0)%num
          then (Math_abs (historicalClosing - forecastValue) / forecastValue)%num
          else ofZ 1 in
        Some {| historical_month := historicalMonth;
                avg_pct_diff := avgPctDiff;
                variance := variance;
                similarities := similarities;
                historical_closing := historicalClosing;
                score := (trajectoryScore * lit 7 10 + forecastDiff * lit 3 10)%num |}
      else None
  end.

Definition findSimilarHistoricalMonths (a : Analyzer) (currentMonth : string)
           (forecastValue : num) : list NewTrajectoryComparison :=
  match dget currentMonth (aggregatedDataByMonth a) with
  | None | Some [] => []
  | Some currentTrajectory =>
      let historicalMonthsForComparison :=
        List.filter sinceJanuary (allHistoricalMonths a) in
      let comparisons :=
        omap (compareTo a currentTrajectory forecastValue)
             historicalMonthsForComparison in
      slice 0 3 (sort (fun x y => (score x - score y >? ofZ 0)%num) comparisons)
  end.

(** *** getForecast *)

Definition toTrajectoryPoint (d : AggregatedSnapshot) : NewTrajectoryPoint :=
  {| t_snapshotDate := snapshotDate d;
     t_daysBeforeClose := daysBeforeClose d;
     t_weightedAmount := weightedPipeline d;
     t_rawAmount := rawPipeline d |}.

Definition latestSnapshotOf (monthData : list AggregatedSnapshot)
  : option AggregatedSnapshot :=
  reduce1 (fun latest current =>
             if snapshotDate current >? snapshotDate latest
             then current else latest) monthData.

(** The state of a projection loop: value, date, points pushed. *)
Definition projectStep (rateOf : Z -> num)
           (st : num * Z * list NewTrajectoryPoint) (d : Z)
  : num * Z * list NewTrajectoryPoint :=
  let '(currentValue, currentDate, points) := st in
  let currentValue' := (currentValue * (ofZ 1 + rateOf d))%num in
  let currentDate' := currentDate + msPerDay in
  (currentValue', currentDate',
   points ++ [{| t_snapshotDate := currentDate';
                 t_daysBeforeClose := d;
                 t_weightedAmount := currentValue';
                 t_rawAmount := ofZ 0 |}]).

(** The body of the [map] over [currentMonths]. *)
Definition forecastMonth (a : Analyzer) (monthKey : string) : NewAnalysisResult :=
  match dget monthKey (aggregatedDataByMonth a) with
  | Some ((_ :: _) as monthData) =>
      match latestSnapshotOf monthData with
      | Some latestSnapshot =>
          let daysToClose := daysBeforeClose latestSnapshot in
          let trajectory := map toTrajectoryPoint monthData in
          if daysToClose >? 89 then
            {| month := monthKey;
               currentRawValue := rawPipeline latestSnapshot;
               currentWeightedValue := weightedPipeline latestSnapshot;
               daysToClose := daysToClose;
               totalProjectedGrowth := ofZ 0;
               forecast := None;
               trajectory := trajectory;
               forecastTrajectory := [];
               similarMonths := [] |}
          else
            let '(finalForecast, _, forecastTrajectory) :=
              fold_left (projectStep (rateAt (forecastGrowthRates a)))
                        (countdown daysToClose)
                        (weightedPipeline latestSnapshot,
                         snapshotDate latestSnapshot, []) in
            {| month := monthKey;
               currentRawValue := rawPipeline latestSnapshot;
               currentWeightedValue := weightedPipeline latestSnapshot;
               daysToClose := daysToClose;
               totalProjectedGrowth :=
                 (finalForecast / weightedPipeline latestSnapshot - ofZ 1)%num;
               forecast := Some finalForecast;
               trajectory := trajectory;
               forecastTrajectory := forecastTrajectory;
               similarMonths :=
                 findSimilarHistoricalMonths a monthKey finalForecast |}
      | None =>
          {| month := monthKey; currentRawValue := ofZ 0;
             currentWeightedValue := ofZ 0; daysToClose := 0;
             totalProjectedGrowth := ofZ 0; forecast := None;
             trajectory := []; forecastTrajectory := []; similarMonths := [] |}
      end
  | _ =>
      {| month := monthKey; currentRawValue := ofZ 0;
         currentWeightedValue := ofZ 0; daysToClose := 0;
         totalProjectedGrowth := ofZ 0; forecast := None;
         trajectory := []; forecastTrajectory := []; similarMonths := [] |}
  end.

Definition getForecast (a : Analyzer) : list NewAnalysisResult :=
  map (forecastMonth a) (currentMonths a).

(** *** getAppendixData *)

Definition breakdownStep (rateOf : Z -> num)
           (st : num * Z * list ForecastDay) (d : Z)
  : num * Z * list ForecastDay :=
  let '(currentValue, currentDate, days) := st in
  let growthRate := rateOf d in
  let startValue := currentValue in
  let endValue := (startValue * (ofZ 1 + growthRate))%num in
  let currentDate' := currentDate + msPerDay in
  (endValue, currentDate',
   days ++ [{| fd_date := nth 0 (split "T" (toISOString currentDate')) EmptyString;
               fd_daysBefore := d;
               fd_startValue := startValue;
               fd_growthRate := growthRate;
               fd_endValue := endValue |}]).

Definition forecastCalculationOf (a : Analyzer) (r : NewAnalysisResult)
  : option ForecastCalculation :=
  match forecast r with
  | None => None
  | Some f =>
      if negb (truthy f) then None
      else
        let currentDate :=
          match trajectory r with
          | p :: _ => t_snapshotDate p
          | [] => now
          end in
        let '(_, _, days) :=
          fold_left (breakdownStep (rateAt (forecastGrowthRates a)))
                    (countdown (daysToClose r))
                    (currentWeightedValue r, currentDate, []) in
        Some {| fc_month := month r;
                fc_startValue := currentWeightedValue r;
                fc_endValue := f;
                fc_daysToClose := daysToClose r;
                dailyBreakdown := rev days |}
  end.

Definition getAppendixData (a : Analyzer) : NewAppendixData :=
  {| smoothedGrowthRates := forecastGrowthRates a;
     ap_medianGrowthRates := medianGrowthRates a;
     forecastCalculations :=
       List.filter (fun f => (0 <? length (dailyBreakdown f))%nat)
                   (omap (forecastCalculationOf a) (getForecast a)) |}.

(** *** getHistoricalData *)

Definition getHistoricalData (a : Analyzer) : dict (list NewTrajectoryPoint) :=
  fold_left
    (fun acc monthKey =>
       match dget monthKey (aggregatedDataByMonth a) with
       | Some monthData => dset monthKey (map toTrajectoryPoint monthData) acc
       | None => acc
       end)
    (allHistoricalMonths a) [].

(** *** generateGoalSeekTrajectory *)

Definition latestPointOf (trajectory : list NewTrajectoryPoint)
  : option NewTrajectoryPoint :=
  reduce1 (fun latest p =>
             if t_snapshotDate p >? t_snapshotDate latest then p else latest)
          trajectory.

(** [forecastGrowthRates.filter(r => r.daysBefore < daysToClose)
      .reduce((acc, r) => acc * (1 + r.rate), startingValue)] *)
Definition baseForecastOf (a : Analyzer) (startingValue : num) (daysToClose : Z)
  : num :=
  fold_left (fun acc r => (acc * (ofZ 1 + rate r))%num)
            (List.filter (fun r => daysBefore r <? daysToClose)
                         (forecastGrowthRates a))
            startingValue.

Definition requiredDailyLiftOf (goalValue baseForecast : num) (daysToClose : Z)
  : num :=
  let requiredTotalGrowth := (goalValue / baseForecast)%num in
  (Math_pow requiredTotalGrowth (ofZ 1 / ofZ daysToClose) - ofZ 1)%num.

Definition generateGoalSeekTrajectory (a : Analyzer)
           (originalTrajectory : list NewTrajectoryPoint) (goalValue : num)
  : list NewTrajectoryPoint :=
  match latestPointOf originalTrajectory with
  | None => []
  | Some latestPoint =>
      let startingValue := t_weightedAmount latestPoint in
      let daysToClose := t_daysBeforeClose latestPoint in
      if (startingValue <=? ofZ 0)%num || (daysToClose <=? 0)
      then originalTrajectory
      else
        let baseForecast := baseForecastOf a startingValue daysToClose in
        if (baseForecast <=? ofZ 0)%num then originalTrajectory
        else
          let requiredDailyLift :=
            requiredDailyLiftOf goalValue baseForecast daysToClose in
          let '(_, _, projectedTrajectory) :=
            fold_left
              (projectStep
                 (fun d => (rateAt (forecastGrowthRates a) d + requiredDailyLift)%num))
              (countdown daysToClose)
              (startingValue, t_snapshotDate latestPoint, [latestPoint]) in
          originalTrajectory ++
            List.filter
              (fun p => t_daysBeforeClose p <? t_daysBeforeClose latestPoint)
              projectedTrajectory
  end.

End Forecast.

(* ================================================================== *)
(** ** [BacktestAnalyzer] *)

Module Backtest.
Section Backtest.
Context `{N : Number} `{H : Host}.
Import JsString JsDate.

Definition startMonth : string := "2025-04".

Record BacktestAnalyzer := {
  aggregatedDataByMonth : MonthData;
  actualClosingValues : dict Totals;
  allHistoricalMonths : list string
}.

(** [categorizeMonths], called by the constructor. *)
Definition categorizeMonths (data : MonthData) (closing : dict Totals)
  : list string :=
  sort laterMonth (List.filter (isHistorical now closing) (keys data)).

(** [new BacktestAnalyzer(aggregatedDataByMonth, actualClosingValues)] *)
Definition new (data : MonthData) (closing : dict Totals) : BacktestAnalyzer :=
  {| aggregatedDataByMonth := data;
     actualClosingValues := closing;
     allHistoricalMonths := categorizeMonths data closing |}.

(** [calculateGrowthRates]: only the smoothed curve, nothing stored. *)
Definition calculateGrowthRates (b : BacktestAnalyzer) (months : list string)
  : list DailyGrowthRate :=
  smoothedRatesOf (medianRatesOf (collectRates (aggregatedDataByMonth b) months)).

Definition testPoints : list Z := [60; 45; 30; 15; 7; 1].

(** [xs.slice(a, b)] with a start that may be negative (counted from
    the end of the array). *)
Definition sliceFrom {A} (a : Z) (b : nat) (l : list A) : list A :=
  let len := Z.of_nat (length l) in
  let start := if a <? 0 then Z.max (len + a) 0 else Z.min a len in
  slice (Z.to_nat start) b l.

(** The predictions of one test month: [testPoints.forEach(...)]. *)
Definition predictions (backtestGrowthRates : list DailyGrowthRate)
           (testMonth : string) (monthData : option (list AggregatedSnapshot))
           (actual : num) : list NewBacktestResult :=
  omap
    (fun day =>
       match getTrajectoryAtDaysBefore (default [] monthData) day with
       | Some startPoint =>
           Some {| b_month := testMonth;
                   b_daysBefore := daysBeforeClose startPoint;
                   prediction :=
                     fold_left
                       (fun p d => (p * (ofZ 1 + rateAt backtestGrowthRates d))%num)
                       (countdown (daysBeforeClose startPoint))
                       (weightedPipeline startPoint);
                   actual := actual |}
       | None => None
       end)
    testPoints.

Record DetailedResult := {
  testMonth : string;
  trainingMonths : list string;
  results : list NewBacktestResult
}.

(** The body of the loop over [i]; [None] is [continue]. *)
Definition backtestAt (b : BacktestAnalyzer) (i : nat) : option DetailedResult :=
  match nth_error (allHistoricalMonths b) i with
  | None => None
  | Some testMonth =>
      let trainingStartIndex := Z.of_nat i - 3 in
      let trainingMonths :=
        sliceFrom trainingStartIndex i (allHistoricalMonths b) in
      if negb (length trainingMonths =? 3)%nat then None
      else
        let backtestGrowthRates := calculateGrowthRates b trainingMonths in
        let monthData := dget testMonth (aggregatedDataByMonth b) in
        match dget testMonth (actualClosingValues b) with
        | None => None
        | Some v =>
            let actual := weighted v in
            if negb (truthy actual) then None
            else
              Some {| testMonth := testMonth;
                      trainingMonths := trainingMonths;
                      results :=
                        predictions backtestGrowthRates testMonth monthData actual |}
        end
  end.

Definition getDetailedBacktestResults (b : BacktestAnalyzer)
  : list DetailedResult :=
  match findIndex (fun month => geb month startMonth) (allHistoricalMonths b) with
  | None => []
  | Some startIndex =>
      if (startIndex <? 3)%nat then []
      else
        omap (backtestAt b)
             (seq startIndex (length (allHistoricalMonths b) - startIndex))
  end.

Definition getBacktestResults (b : BacktestAnalyzer) : list NewBacktestResult :=
  match findIndex (fun month => geb month startMonth) (allHistoricalMonths b) with
  | None => []
  | Some startIndex =>
      if (startIndex <? 3)%nat then []
      else
        concat
          (map (fun i =>
                  match backtestAt b i with
                  | Some r => results r
                  | None => []
                  end)
               (seq startIndex (length (allHistoricalMonths b) - startIndex)))
  end.

End Backtest.
End Backtest.

(* ================================================================== *)
(** ** An executable instance: exact rational arithmetic

    Used to run the analyzers on concrete inputs.  Sums, products and
    quotients are exact; a power with an integer exponent is exact, and
    roots are rounded down to twelve decimal places. *)

Module QcArith.
Import JsString.

Definition ltb (a b : Qc) : bool := negb (Qle_bool (this b) (this a)).
Definition leb (a b : Qc) : bool := Qle_bool (this a) (this b).
Definition eqb (a b : Qc) : bool := Qeq_bool (this a) (this b).

(** The integer part of the [q]-th root of [v >= 0], by bisection. *)
Fixpoint bisect (fuel : nat) (q : positive) (v lo hi : Z) : Z :=
  match fuel with
  | O => lo
  | S k =>
      if hi - lo <=? 1 then lo
      else
        let mid := (lo + hi) / 2 in
        if Z.pow mid (Zpos q) <=? v then bisect k q v mid hi
        else bisect k q v lo mid
  end.

Definition iroot (q : positive) (v : Z) : Z :=
  let hi := Z.pow 2 (Z.log2 v / Zpos q + 1) in
  bisect (Z.to_nat (Z.log2 v + 2)) q v 0 hi.

Definition scale : Z := 10 ^ 12.

(** [x ^ (1 / q)] for [x > 0]. *)
Definition root (q : positive) (x : Qc) : Qc :=
  let a := Qnum (this x) in
  let b := Zpos (Qden (this x)) in
  let r := iroot q (a * Z.pow b (Zpos q - 1) * Z.pow scale (Zpos q)) in
  Q2Qc (Qmake r (Z.to_pos (b * scale))).

Definition ipow (x : Qc) (p : Z) : Qc :=
  match p with
  | Z0 => Q2Qc 1
  | Zpos n => Qcpower x (Pos.to_nat n)
  | Zneg n => Qcinv (Qcpower x (Pos.to_nat n))
  end.

Definition pow (x y : Qc) : Qc :=
  let p := Qnum (this y) in
  let q := Qden (this y) in
  match q with
  | xH => ipow x p
  | _ => if Qle_bool (this x) 0 then Q2Qc 0 else ipow (root q x) p
  end.

Definition sqrt (x : Qc) : Qc :=
  if Qle_bool (this x) 0 then Q2Qc 0 else root 2 x.

Definition abs (x : Qc) : Qc := Q2Qc (Qabs (this x)).

(** The longest prefix of digits, with the number of digits read. *)
Fixpoint decimal (s : string) (acc : Z) (n : nat) : Z * nat * string :=
  match s with
  | String c r =>
      match digit c with
      | Some d => decimal r (10 * acc + d) (S n)
      | None => (acc, n, s)
      end
  | EmptyString => (acc, n, s)
  end.

(** [parseFloat] on decimal numerals: sign, digits, fraction,
    exponent.  (The word [Infinity] is not read.) *)
Definition parseFloat (s : string) : option Qc :=
  let s1 := trimStart s in
  let '(sign, s2) :=
    match s1 with
    | String "-"%char r => (-1, r)
    | String "+"%char r => (1, r)
    | _ => (1, s1)
    end in
  let '(ip, ni, s3) := decimal s2 0 0 in
  let '(fp, nf, s4) :=
    match s3 with
    | String "."%char r => decimal r 0 0
    | _ => (0, O, s3)
    end in
  if (ni + nf =? 0)%nat then None
  else
    let mant := Qmake (sign * (ip * 10 ^ Z.of_nat nf + fp))
                      (Z.to_pos (10 ^ Z.of_nat nf)) in
    let ex :=
      match s4 with
      | String e r =>
          if Ascii.eqb e "e"%char || Ascii.eqb e "E"%char then
            let '(es, r') :=
              match r with
              | String "-"%char r' => (-1, r')
              | String "+"%char r' => (1, r')
              | _ => (1, r)
              end in
            let '(ev, ne, _) := decimal r' 0 0 in
            if (ne =? 0)%nat then 0 else es * ev
          else 0
      | EmptyString => 0
      end in
    Some (Q2Qc mant * ipow (Q2Qc 10) ex)%Qc.

End QcArith.

#[export] Instance QcNumber : Number := {|
  num := Qc;
  ofZ := fun z => Q2Qc (inject_Z z);
  nadd := Qcplus;
  nsub := Qcminus;
  nmul := Qcmult;
  ndiv := Qcdiv;
  nlt := QcArith.ltb;
  nle := QcArith.leb;
  neq := QcArith.eqb;
  truthy := fun x => negb (QcArith.eqb x (Q2Qc 0));
  Math_pow := QcArith.pow;
  Math_sqrt := QcArith.sqrt;
  Math_abs := QcArith.abs;
  parseFloat := QcArith.parseFloat
|}.

(** A host that reads nothing but the ISO formats, with a fixed clock. *)
Definition isoHost (today : Z) : Host :=
  {| host_Date_parse := fun _ => None; now := today |}.

(* ================================================================== *)
(** ** Vocabulary of the properties *)

Section Vocabulary.
Context `{N : Number} `{H : Host}.
Import JsString JsDate.

(** Every ISO date of 2025 is read by position, as if it were
    [MM/DD/YYYY]. *)
Definition misread (m d : Z) : bool :=
  match closingMonthDateOf (isoYMD 2025 m d) with
  | Some c => (2069 <=? getUTCFullYear c) && (getUTCFullYear c <=? 2099)
  | None => false
  end.

(** The rates attributed to a day so far. *)
Definition ratesAt (dailyRates : gmap Z (list num)) (day : Z) : list num :=
  default [] (dailyRates !! day).

(** A step that only appends rates, the same ones whatever the table. *)
Definition appends (f : gmap Z (list num) -> gmap Z (list num)) : Prop :=
  forall day, exists l, forall m, ratesAt (f m) day = ratesAt m day ++ l.

(** The rates that one month contributes to a day. *)
Definition monthContribution (data : MonthData) (monthKey : string) (day : Z)
  : list num :=
  match dget monthKey data with
  | Some monthData => ratesAt (monthRates monthData ∅) day
  | None => []
  end.


(** The claim that every month from the cutoff on that has three
    predecessors is tested, in the words of the specification. *)
Definition testsEveryEligibleMonth (b : Backtest.BacktestAnalyzer) : Prop :=
  forall (i : nat) (m : string),
    nth_error (Backtest.allHistoricalMonths b) i = Some m ->
    geb m Backtest.startMonth = true ->
    (3 <= i)%nat ->
    exists r, In r (Backtest.getDetailedBacktestResults b)
              /\ Backtest.testMonth r = m.

End Vocabulary.

(* ================================================================== *)
(** ** Concrete inputs *)

Definition row (snapShotTime date totalAmount stage : string) : RawCSVRow :=
  {| snapShotTime := snapShotTime; date := date;
     totalAmount := totalAmount; stage := stage |}.

(** The clock reads 2025-02-28T00:00:00.000Z. *)
Definition februaryHost : Host := isoHost 1740700800000.

(** The clock reads 2025-08-01T00:00:00.000Z. *)
Definition augustHost : Host := isoHost 1754006400000.

(** January 2025, closed, growing by a quarter a day over its last
    week, and one snapshot of February 2025, one day before its close. *)
Definition januaryRows : list RawCSVRow :=
  [ row "2025-01-25T12:00:00.000Z" "1/31/2025" "64" "FUNDED";
    row "2025-01-26T12:00:00.000Z" "1/31/2025" "80" "FUNDED";
    row "2025-01-27T12:00:00.000Z" "1/31/2025" "100" "FUNDED";
    row "2025-01-28T12:00:00.000Z" "1/31/2025" "125" "FUNDED";
    row "2025-01-29T12:00:00.000Z" "1/31/2025" "156.25" "FUNDED";
    row "2025-01-30T12:00:00.000Z" "1/31/2025" "195.3125" "FUNDED";
    row "2025-01-31T12:00:00.000Z" "1/31/2025" "244.140625" "FUNDED";
    row "2025-02-01T12:00:00.000Z" "1/31/2025" "305.17578125" "FUNDED" ].

Definition februaryRow : RawCSVRow :=
  row "2025-02-28T00:00:00.000Z" "2/28/2025" "64" "FUNDED".

Definition pipelineRows : list RawCSVRow := januaryRows ++ [februaryRow].

(** The same February observation with its closing date in ISO form. *)
Definition februaryIsoRow : RawCSVRow :=
  row "2025-02-28T00:00:00.000Z" "2025-02-28" "64" "FUNDED".

(** A row with no amount: no valid observation. *)
Definition brokenRows : list RawCSVRow :=
  [ row "2025-02-28T00:00:00.000Z" "2/28/2025" EmptyString "FUNDED" ].

(** One snapshot of March 2025. *)
Definition marchRows : list RawCSVRow :=
  [ row "2025-03-30T12:00:00.000Z" "3/31/2025" "10" "APPROVED" ].

(** Rows 89, 90 and -6 days before the close of March 2025. *)
Definition row89 : RawCSVRow :=
  row "2025-01-02T12:00:00.000Z" "3/31/2025" "$1,000.50" "APPROVED".
Definition row90 : RawCSVRow :=
  row "2025-01-01T12:00:00.000Z" "3/31/2025" "$1,000.50" "APPROVED".
Definition rowMinus6 : RawCSVRow :=
  row "2025-04-07T12:00:00.000Z" "3/31/2025" "$1,000.50" "APPROVED".

(** A row whose stage is the name of an inherited property. *)
Definition constructorRow : RawCSVRow :=
  row "2025-01-02T12:00:00.000Z" "3/31/2025" "$1,000.50" " constructor ".

(** The analyzer after [loadData(pipelineRows)] on 2025-02-28. *)
Definition pipelineAnalyzer : @Analyzer QcNumber :=
  default newAnalyzer (@loadData QcNumber februaryHost newAnalyzer pipelineRows).

(** The analyzer after [loadData(marchRows)] on 2025-02-28. *)
Definition marchAnalyzer : @Analyzer QcNumber :=
  default newAnalyzer (@loadData QcNumber februaryHost newAnalyzer marchRows).

Definition februaryTrajectory : list (@NewTrajectoryPoint QcNumber) :=
  [ {| t_snapshotDate := 1740700800000; t_daysBeforeClose := 1;
       t_weightedAmount := Q2Qc 64; t_rawAmount := Q2Qc 64 |} ].

Definition point (days : Z) (value : Q) : @AggregatedSnapshot QcNumber :=
  {| snapshotDate := 0; daysBeforeClose := days;
     rawPipeline := Q2Qc value; weightedPipeline := Q2Qc value |}.

(** The one point of February in [pipelineAnalyzer]. *)
Definition februaryPoint : @AggregatedSnapshot QcNumber :=
  {| snapshotDate := 1740700800000; daysBeforeClose := 1;
     rawPipeline := Q2Qc 64; weightedPipeline := Q2Qc 64 |}.

(** A point on the closing day itself. *)
Definition closingDayPoint : @NewTrajectoryPoint QcNumber :=
  {| t_snapshotDate := 5; t_daysBeforeClose := 0;
     t_weightedAmount := Q2Qc 64; t_rawAmount := Q2Qc 64 |}.

Definition lastThreeDays : list (@AggregatedSnapshot QcNumber) :=
  [point 3 64; point 2 80; point 1 100].

Definition closed (value : Q) : @Totals QcNumber :=
  {| raw := Q2Qc value; weighted := Q2Qc value |}.

(** Five closed months, January to May. *)
Definition fiveMonths : @MonthData QcNumber :=
  map (fun k => (k, lastThreeDays))
      ["2025-01"; "2025-02"; "2025-03"; "2025-04"; "2025-05"]%string.

Definition fiveClosings : dict (@Totals QcNumber) :=
  map (fun k => (k, closed 100))
      ["2025-01"; "2025-02"; "2025-03"; "2025-04"; "2025-05"]%string.

(** The same with another May and another closing value for April. *)
Definition fiveMonthsOtherMay : @MonthData QcNumber :=
  map (fun k => (k, lastThreeDays))
      ["2025-01"; "2025-02"; "2025-03"; "2025-04"]%string
  ++ [("2025-05"%string, [point 3 1; point 2 7; point 1 5])].

Definition fiveClosingsOtherApril : dict (@Totals QcNumber) :=
  map (fun k => (k, closed 100)) ["2025-01"; "2025-02"; "2025-03"]%string
  ++ [("2025-04"%string, closed 999); ("2025-05"%string, closed 5)].

(** Five closed months, February to June: April is the third. *)
Definition fromFebruary : @MonthData QcNumber :=
  map (fun k => (k, lastThreeDays))
      ["2025-02"; "2025-03"; "2025-04"; "2025-05"; "2025-06"]%string.

Definition fromFebruaryClosings : dict (@Totals QcNumber) :=
  map (fun k => (k, closed 100))
      ["2025-02"; "2025-03"; "2025-04"; "2025-05"; "2025-06"]%string.

(** What is read off a trajectory point: its day and weighted amount. *)
Definition toPair (p : @NewTrajectoryPoint QcNumber) : Z * Q :=
  (t_daysBeforeClose p, this (t_weightedAmount p)).

Definition noResult : @Backtest.DetailedResult QcNumber :=
  {| Backtest.testMonth := EmptyString; Backtest.trainingMonths := [];
     Backtest.results := [] |}.

(* ================================================================== *)
(** ** Further vocabulary *)

Section FurtherVocabulary.
Context `{N : Number} `{H : Host}.
Import JsString JsDate.

(** A day or month number as it is usually typed: on two digits when
    [padded], else without a leading zero. *)
Definition dayText (padded : bool) (n : Z) : string :=
  if padded || (10 <=? n) then pad 2 n else pad 1 n.

(** The text [MM/DD/2025], or [MM-DD-2025] when [sep] is a hyphen. *)
Definition usDate (sep : ascii) (padded : bool) (m d : Z) : string :=
  append (dayText padded m)
    (String sep (append (dayText padded d) (String sep "2025"))).

(** Both separators, padded or not, are read as that day of 2025. *)
Definition readsUsDate (m d : Z) : bool :=
  forallb
    (fun sep =>
       forallb
         (fun padded =>
            match closingMonthDateOf (usDate sep padded m d) with
            | Some t =>
                (t =? MakeDate (MakeDay 2025 (m - 1) d) 0)
                && (getUTCFullYear t =? 2025)
                && (getUTCMonth t =? m - 1)
                && String.eqb (monthKeyOf t) (append "2025-" (pad 2 m))
            | None => false
            end)
         [true; false])
    ["/"%char; "-"%char].

(** What the parser guarantees of an observation [p] emitted for a
    row: the four fields are present, the snapshot time and the closing
    date are those read from the row, the closing year is 2025, the days
    are counted from the snapshot to the last instant of the closing
    month and lie in [-5, 89], the amount is read from the text without
    [$] and [,], the stage is trimmed and weighs the amount. *)
Definition observationOf (row : RawCSVRow) (p : ProcessedRow) : Prop :=
  empty (snapShotTime row) = false /\ empty (date row) = false
  /\ empty (totalAmount row) = false /\ empty (stage row) = false
  /\ Date_parse (trim (snapShotTime row)) = Some (p_snapshotDate p)
  /\ closingMonthDateOf (trim (date row)) = Some (p_closingMonth p)
  /\ getUTCFullYear (p_closingMonth p) = 2025
  /\ p_daysBeforeClose p
     = daysUntil (lastDayOfMonth 2025 (getUTCMonth (p_closingMonth p)))
                 (p_snapshotDate p)
  /\ -5 <= p_daysBeforeClose p <= 89
  /\ parseFloat (stripMoney (totalAmount row)) = Some (p_amount p)
  /\ p_stage p = trim (stage row)
  /\ p_weightedAmount p = (p_amount p * STAGE_WEIGHTS (p_stage p))%num.

End FurtherVocabulary.

Section GrowthVocabulary.
Context `{N : Number}.

(** The outlier guard of [calculateGrowthRates]: [-0.5 < g < 0.5]. *)
Definition withinGuard (g : num) : Prop :=
  (g >? lit (-1) 2)%num = true /\ (g <? lit 1 2)%num = true.

(** [previous] and [current] are consecutive points of a trajectory. *)
Definition consecutive (previous current : AggregatedSnapshot)
           (monthData : list AggregatedSnapshot) : Prop :=
  exists before after, monthData = before ++ previous :: current :: after.

(** Where a rate attributed to a day comes from: a pair of consecutive
    points of a training month, one to three days apart, the earlier
    one with a positive weighted value, whose implied daily growth
    passes the guard and whose gap covers the day. *)
Definition rateSource (data : MonthData) (months : list string)
           (day : Z) (g : num) : Prop :=
  exists monthKey monthData previous current,
    In monthKey months
    /\ dget monthKey data = Some monthData
    /\ consecutive previous current monthData
    /\ 0 < daysBeforeClose previous - daysBeforeClose current <= 3
    /\ (weightedPipeline previous >? ofZ 0)%num = true
    /\ g = (Math_pow (weightedPipeline current / weightedPipeline previous)
                     (ofZ 1 / ofZ (daysBeforeClose previous
                                   - daysBeforeClose current)) - ofZ 1)%num
    /\ withinGuard g
    /\ daysBeforeClose current <= day < daysBeforeClose previous
    /\ 0 <= day <= 89.

(** The days of a curve. *)
Definition curveDays : list Z := map Z.of_nat (seq 0 90).

End GrowthVocabulary.

Section ProjectionVocabulary.
Context `{N : Number}.
Import JsDate.

(** Compounding a value through the rates of a list of days, in the
    order of the list: [value *= (1 + rate(d))] for each day. *)
Definition compound (rateOf : Z -> num) (value : num) (days : list Z) : num :=
  fold_left (fun v d => (v * (ofZ 1 + rateOf d))%num) days value.

(** The instants that follow [t] by 1, 2, ..., [n] whole days. *)
Definition daysAfter (t : Z) (n : nat) : list Z :=
  map (fun i => t + (Z.of_nat i + 1) * msPerDay) (seq 0 n).

(** The values reached after each day of a compounding. *)
Fixpoint compoundSteps (rateOf : Z -> num) (value : num) (days : list Z)
  : list num :=
  match days with
  | [] => []
  | d :: rest =>
      let value' := (value * (ofZ 1 + rateOf d))%num in
      value' :: compoundSteps rateOf value' rest
  end.

End ProjectionVocabulary.

(** Defaults for the heads of the lists of the concrete inputs. *)
Definition noObservation : @ProcessedRow QcNumber :=
  {| p_snapshotDate := 0; p_closingMonth := 0; p_daysBeforeClose := 0;
     p_amount := Q2Qc 0; p_stage := EmptyString; p_weightedAmount := Q2Qc 0 |}.

Definition noCalculation : @ForecastCalculation QcNumber :=
  {| fc_month := EmptyString; fc_startValue := Q2Qc 0; fc_endValue := Q2Qc 0;
     fc_daysToClose := 0; dailyBreakdown := [] |}.

(** The observations of [pipelineRows] and their aggregation. *)
Definition pipelineObservations : list (@ProcessedRow QcNumber) :=
  @processRawData QcNumber februaryHost pipelineRows.

Definition pipelineTrajectories : @MonthData QcNumber :=
  default [] (@aggregateDataByMonth QcNumber februaryHost
                pipelineObservations []).

(** Two months whose last two days grow at different rates, a tenth
    and a fifth a day, and an analyzer that holds them. *)
Definition twoRateMonths : @MonthData QcNumber :=
  [ ("2025-01"%string, [point 2 100; point 1 110]);
    ("2025-02"%string, [point 2 100; point 1 120]) ].

Definition twoRateAnalyzer : @Analyzer QcNumber :=
  {| allData := []; aggregatedDataByMonth := twoRateMonths;
     allHistoricalMonths := []; currentMonths := [];
     actualClosingValues := []; forecastGrowthRates := [];
     medianGrowthRates := []; peakData := [] |}.


(* ================================================================== *)
(** ** Vocabulary of the order of months *)

Section MonthOrderVocabulary.
Context `{N : Number} `{H : Host}.
Import JsString JsDate.

(** The key of month [m] of 2025, as [aggregateDataByMonth] writes
    it. *)
Definition monthKey2025 (m : Z) : string := append "2025-" (pad 2 m).

(** The keys of a data set are months of 2025, each one once (the
    keys of an object are distinct). *)
Definition monthsOf2025 (data : MonthData) : Prop :=
  List.NoDup (keys data)
  /\ forall k, In k (keys data) ->
               exists m, 1 <= m <= 12 /\ k = monthKey2025 m.


(** [new Date(k) < new Date(k')]: the month [k] is earlier than
    [k']. *)
Definition datedBefore (k k' : string) : bool :=
  match Date_parse k, Date_parse k' with
  | Some t, Some t' => t <? t'
  | _, _ => false
  end.


End MonthOrderVocabulary.


(* ================================================================== *)
(** ** Vocabulary of the aggregation *)

Section CalendarVocabulary.
Import JsDate.

(** One day of the 400-year cycle: its civil date is a date of the
    calendar and [MakeDay] gives the day back. *)
Definition civilInverts (day : Z) : bool :=
  let '(y, mn, d) := civil day in
  (0 <=? mn) && (mn <=? 11) && (1 <=? d) && (d <=? DaysInMonth y mn)
  && (MakeDay y mn d =? day).

Fixpoint civilInvertsFrom (n : nat) (doe : Z) : bool :=
  match n with
  | O => true
  | S k => civilInverts (doe - 719468) && civilInvertsFrom k (doe + 1)
  end.

(** The first instant of month [m] (1-based) of 2025. *)
Definition firstOfMonth (m : Z) : Z := MakeDate (MakeDay 2025 (m - 1) 1) 0.

End CalendarVocabulary.

Section AggregationVocabulary.
Context `{N : Number} `{H : Host}.
Import JsString JsDate.

(** The host's [Date.parse] returns time values only (ECMAScript
    TimeClip: at most 8.64e15 ms from the epoch). *)
Definition hostTimeValues : Prop :=
  forall s t, host_Date_parse s = Some t -> Z.abs t <= 8640000000000000.

(** What the aggregation relies on in an observation: a snapshot that
    is a time value, a closing date of 2025, and the days counted as
    [processRawData] counts them. *)
Definition wellFormed (p : ProcessedRow) : Prop :=
  Z.abs (p_snapshotDate p) <= 8640000000000000
  /\ getUTCFullYear (p_closingMonth p) = 2025
  /\ p_daysBeforeClose p
     = daysUntil (lastDayOfMonth 2025 (getUTCMonth (p_closingMonth p)))
                 (p_snapshotDate p)
  /\ -5 <= p_daysBeforeClose p <= 89.

(** The key [snapshot|month] of an observation. *)
Definition keyOf (p : ProcessedRow) : string :=
  append (toISOString (p_snapshotDate p))
         (append "|" (monthKeyOf (p_closingMonth p))).

(** [dataBySnapshotAndMonth[key].raw += row.amount] and the same for the
    weighted amount. *)
Definition addRow (acc : Totals) (row : ProcessedRow) : Totals :=
  {| raw := (raw acc + p_amount row)%num;
     weighted := (weighted acc + p_weightedAmount row)%num |}.

(** The sums of the amounts of a list of observations, from 0, in the
    order of the list. *)
Definition totalsOf (rows : list ProcessedRow) : Totals :=
  fold_left addRow rows {| raw := ofZ 0; weighted := ofZ 0 |}.

(** The observations of one snapshot for one closing month. *)
Definition sameSnapshot (s : Z) (k : string) (p : ProcessedRow) : bool :=
  (p_snapshotDate p =? s) && String.eqb (monthKeyOf (p_closingMonth p)) k.

(** The two parts of a key, as the second pass reads them. *)
Definition entrySnapshot (key : string) : option Z :=
  Date_parse (nth 0 (split "|" key) "undefined"%string).

Definition entryMonth (key : string) : string :=
  nth 1 (split "|" key) "undefined"%string.

(** The key [day|month] of the second pass. *)
Definition dailyKeyOf (s : Z) (monthKey : string) : string :=
  append (nth 0 (split "T" (toISOString s)) EmptyString)
         (append "|" monthKey).

Definition aggregateOf (values : Totals) (s : Z) (monthKey : string)
  : DailyAggregate :=
  {| da_raw := raw values; da_weighted := weighted values;
     da_snapshotDate := s;
     da_closingMonth := Date_parse (append monthKey "-01T00:00:00.000Z") |}.

(** What one entry of the first table does to the entry [dk] of the
    second. *)
Definition dailyView (dk : string) (o : option DailyAggregate)
           (e : string * Totals) : option DailyAggregate :=
  match entrySnapshot (fst e) with
  | Some s =>
      if String.eqb (dailyKeyOf s (entryMonth (fst e))) dk then
        match o with
        | None => Some (aggregateOf (snd e) s (entryMonth (fst e)))
        | Some old =>
            if s >? da_snapshotDate old
            then Some (aggregateOf (snd e) s (entryMonth (fst e)))
            else o
        end
      else o
  | None => o
  end.

(** The point pushed for a daily aggregate with closing month [c]. *)
Definition pointOf (aggregate : DailyAggregate) (c : Z) : AggregatedSnapshot :=
  {| snapshotDate := da_snapshotDate aggregate;
     daysBeforeClose :=
       daysUntil (lastDayOfMonth (getUTCFullYear c) (getUTCMonth c))
                 (da_snapshotDate aggregate);
     rawPipeline := da_raw aggregate;
     weightedPipeline := da_weighted aggregate |}.

(** The point of a daily aggregate if it belongs to month [k]. *)
Definition pointFor (k : string) (aggregate : DailyAggregate)
  : option AggregatedSnapshot :=
  match da_closingMonth aggregate with
  | Some c => if String.eqb (monthKeyOf c) k
              then Some (pointOf aggregate c) else None
  | None => None
  end.

(** [pt] is the point that the observations [rows] give to month [k]
    for one calendar day: it stands for an observation [p] of that
    month which is the latest snapshot of its day, it has the days
    before close of [p], and its values are the sums over the
    observations of that very snapshot for the month. *)
Definition pointOfRows (rows : list ProcessedRow) (k : string)
           (pt : AggregatedSnapshot) : Prop :=
  exists p,
    In p rows
    /\ monthKeyOf (p_closingMonth p) = k
    /\ snapshotDate pt = p_snapshotDate p
    /\ daysBeforeClose pt = p_daysBeforeClose p
    /\ (forall q, In q rows ->
                  monthKeyOf (p_closingMonth q) = k ->
                  isoDate (p_snapshotDate q) = isoDate (p_snapshotDate p) ->
                  p_snapshotDate q <= p_snapshotDate p)
    /\ rawPipeline pt
       = raw (totalsOf (List.filter (sameSnapshot (p_snapshotDate p) k) rows))
    /\ weightedPipeline pt
       = weighted (totalsOf (List.filter (sameSnapshot (p_snapshotDate p) k)
                                         rows)).

End AggregationVocabulary.

(* ================================================================== *)
(** ** Vocabulary of the peak analysis *)

(** The laws of [<] and [===] that the search for a peak relies on.
    They hold of the JavaScript numbers (a comparison with NaN is
    false). *)
Class NumberCompare (N : Number) : Prop := {
  lt_irrefl : forall a : num, nlt a a = false;
  lt_trans : forall a b c : num,
    nlt a b = true -> nlt b c = true -> nlt a c = true;
  zero_eq : neq (ofZ 0) (ofZ 0) = true
}.

Section PeakVocabulary.
Context `{N : Number} `{H : Host}.
Import JsString JsDate.

(** The two-month window of a closing month [c]: from the first day of
    the month before to the last instant of the month. *)
Definition peakWindowStart (c : Z) : option Z :=
  UTC (Some (getUTCFullYear c)) (Some (getUTCMonth c - 1)) (Some 1) 0 0 0 0.

Definition peakWindowEnd (c : Z) : option Z :=
  UTC (Some (getUTCFullYear c)) (Some (getUTCMonth c + 1)) (Some 0)
      23 59 59 999.

Definition inPeakWindow (c t : Z) : bool :=
  inWindow (peakWindowStart c) (peakWindowEnd c) t.

(** [uniqueSnapshotsInWindow], in order of first appearance, for a
    window given by its two ends. *)
Definition snapshotsBetween (windowStart windowEnd : option Z)
           (rows : list ProcessedRow) : list string :=
  fold_left
    (fun s row =>
       if inWindow windowStart windowEnd (p_snapshotDate row)
       then setAdd (toISOString (p_snapshotDate row)) s else s)
    rows [].

Definition dealsOf (rows : list ProcessedRow) (monthKey snapshotISO : string)
  : list ProcessedRow :=
  List.filter
    (fun d =>
       String.eqb (toISOString (p_snapshotDate d)) snapshotISO
       && String.eqb (monthKeyOf (p_closingMonth d)) monthKey)
    rows.

(** The candidate peak of one snapshot. *)
Definition peakOfSnapshot (rows : list ProcessedRow)
           (monthKey snapshotISO : string) : PeakSnapshot :=
  {| ps_date := Date_parse snapshotISO;
     ps_raw := fold_left (fun sum d => (sum + p_amount d)%num)
                         (dealsOf rows monthKey snapshotISO) (ofZ 0);
     ps_weighted := fold_left (fun sum d => (sum + p_weightedAmount d)%num)
                              (dealsOf rows monthKey snapshotISO) (ofZ 0) |}.

Definition peakStep (rows : list ProcessedRow) (monthKey : string)
           (peak : PeakSnapshot) (snapshotISO : string) : PeakSnapshot :=
  if (ps_raw (peakOfSnapshot rows monthKey snapshotISO) >? ps_raw peak)%num
  then peakOfSnapshot rows monthKey snapshotISO else peak.

(** [{ date: new Date(0), raw: 0, weighted: 0 }] *)
Definition noPeak : PeakSnapshot :=
  {| ps_date := Some 0; ps_raw := ofZ 0; ps_weighted := ofZ 0 |}.

(** The raw total of the observations of snapshot [s] for month [k]. *)
Definition rawTotal (rows : list ProcessedRow) (k : string) (s : Z) : num :=
  raw (totalsOf (List.filter (sameSnapshot s k) rows)).

Definition weightedTotal (rows : list ProcessedRow) (k : string) (s : Z) : num :=
  weighted (totalsOf (List.filter (sameSnapshot s k) rows)).

End PeakVocabulary.

(* ================================================================== *)
(** ** AnomalyAnalyzer ([services/anomaly-analyzer.ts]): the load *)

Module Anomaly.
Section Anomaly.
Context `{N : Number} `{H : Host}.
Import JsString JsDate.

(** The private fields of the class. *)
Record AnomalyAnalyzer := {
  allData : list ProcessedRow;
  currentMonths : list string
}.

(** [new AnomalyAnalyzer()] *)
Definition new : AnomalyAnalyzer := {| allData := []; currentMonths := [] |}.

(** [new Set(this.allData.map(row => row.closingMonth.toISOString()
    .substring(0, 7)))], in order of first appearance. *)
Definition monthKeysOf (rows : list ProcessedRow) : list string :=
  fold_left (fun s row => setAdd (monthKeyOf (p_closingMonth row)) s) rows [].

(** [new Date(Date.UTC(closingDate.getUTCFullYear(),
    closingDate.getUTCMonth() + 1, 0))] for
    [closingDate = new Date(monthKey + '-01T12:00:00.000Z')]. *)
Definition lastDayOfClosingMonth (monthKey : string) : option Z :=
  match Date_parse (append monthKey "-01T12:00:00.000Z") with
  | Some closingDate =>
      UTC (Some (getUTCFullYear closingDate))
          (Some (getUTCMonth closingDate + 1)) (Some 0) 0 0 0 0
  | None => None
  end.

(** [lastDayOfClosingMonth >= today]; false for an invalid date. *)
Definition isCurrent (today : Z) (monthKey : string) : bool :=
  match lastDayOfClosingMonth monthKey with
  | Some lastDay => lastDay >=? today
  | None => false
  end.

Definition categorizeMonths (rows : list ProcessedRow) : list string :=
  let allMonths := sort (fun a b => String.ltb b a) (monthKeysOf rows) in
  sort laterMonth (List.filter (isCurrent now) allMonths).

(** [loadData], on the rows delivered by the CSV reader. *)
Definition loadData (a : AnomalyAnalyzer) (rawData : list RawCSVRow)
  : AnomalyAnalyzer :=
  let rows := processRawData rawData in
  if (length rows =? 0)%nat
  then {| allData := rows; currentMonths := currentMonths a |}
  else {| allData := rows; currentMonths := categorizeMonths rows |}.

End Anomaly.
End Anomaly.

(* ================================================================== *)
(** ** findSimilarHistoricalMonthsForGoalSeek *)

Section GoalSeekSimilar.
Context `{N : Number} `{H : Host}.

(** The days before closing of a peak as a number: NaN when the date of
    the peak is invalid. *)
Definition ofDays (days : option Z) : num :=
  match days with
  | Some d => ofZ d
  | None => NaN
  end.

(** The body of the loop over the historical months; [None] is
    [continue]. *)
Definition goalSeekCandidate (a : Analyzer) (goalValue peakValue daysAtPeak : num)
           (historicalMonth : string) : option NewTrajectoryComparison :=
  match List.find (fun p => String.eqb (pk_month p) historicalMonth)
                  (peakData a) with
  | None => None
  | Some peak =>
      if negb (truthy (actualClosingWeightedValue peak)) then None
      else
        let histClosing := actualClosingWeightedValue peak in
        let closingDiff :=
          Math_abs ((histClosing - goalValue) / goalValue)%num in
        let peakDiff :=
          Math_abs ((peakWeightedValue peak - peakValue) / peakValue)%num in
        let timingDiff :=
          Math_abs ((ofDays (pk_daysBeforeClosing peak) - daysAtPeak)
                    / daysAtPeak)%num in
        Some {| historical_month := historicalMonth;
                avg_pct_diff := ofZ 0;
                variance := ofZ 0;
                similarities := [];
                historical_closing := histClosing;
                score := (closingDiff * lit 6 10 + peakDiff * lit 3 10
                          + timingDiff * lit 1 10)%num |}
  end.

Definition findSimilarHistoricalMonthsForGoalSeek (a : Analyzer)
           (goalValue peakValue daysAtPeak : num)
  : list NewTrajectoryComparison :=
  let historicalMonthsForComparison :=
    List.filter sinceJanuary (allHistoricalMonths a) in
  let comparisonsWithScores :=
    omap (goalSeekCandidate a goalValue peakValue daysAtPeak)
         historicalMonthsForComparison in
  slice 0 2 (sort (fun x y => (score x - score y >? ofZ 0)%num)
                  comparisonsWithScores).

End GoalSeekSimilar.


(* ================================================================== *)
(** ** Further concrete inputs *)

Definition noAnalysis : @NewAnalysisResult QcNumber :=
  {| month := EmptyString; currentRawValue := Q2Qc 0;
     currentWeightedValue := Q2Qc 0; daysToClose := 0;
     totalProjectedGrowth := Q2Qc 0; forecast := None; trajectory := [];
     forecastTrajectory := []; similarMonths := [] |}.

Definition noPeakAnalysis : @NewPeakAnalysis QcNumber :=
  {| pk_month := EmptyString; peakDate := None; peakRawValue := Q2Qc 0;
     peakWeightedValue := Q2Qc 0; pk_daysBeforeClosing := None;
     actualClosingRawValue := Q2Qc 0; actualClosingWeightedValue := Q2Qc 0;
     declinePercentageRaw := Q2Qc 0; declinePercentageWeighted := Q2Qc 0 |}.

(* ================================================================== *)
(** * Properties *)

(** ** Facts about [sort] *)

Section SortFacts.
Context {A : Type} (after : A -> A -> bool).

Lemma insert_sorted_perm (x : A) (l : list A) :
  Permutation (insert_sorted after x l) (x :: l).
Proof.
  induction l as [|y r IH]; simpl.
  - reflexivity.
  - destruct (after x y).
    + rewrite IH. apply perm_swap.
    + reflexivity.
Qed.

Lemma sort_perm (l : list A) : Permutation (sort after l) l.
Proof.
  induction l as [|x r IH]; simpl.
  - reflexivity.
  - unfold sort in *. simpl. rewrite insert_sorted_perm. now constructor.
Qed.

Lemma sort_length (l : list A) : length (sort after l) = length l.
Proof. apply Permutation_length, sort_perm. Qed.

Lemma sort_nil_inv (l : list A) : sort after l = [] -> l = [].
Proof.
  intros E. pose proof (sort_perm l) as P. rewrite E in P.
  destruct l as [|x r]; [reflexivity|].
  apply Permutation_length in P. discriminate P.
Qed.

Hypothesis total : forall a b, after a b = true -> after b a = false.

Lemma insert_sorted_Sorted (x : A) (l : list A) :
  Sorted (notAfter after) l -> Sorted (notAfter after) (insert_sorted after x l).
Proof.
  induction 1 as [|y r Hs IH Hd]; simpl.
  - repeat constructor.
  - destruct (after x y) eqn:E.
    + constructor; [exact IH|].
      destruct Hd as [|z r' Hz]; simpl.
      * constructor. apply total, E.
      * destruct (after x z); constructor; [exact Hz | apply total, E].
    + constructor; [constructor; assumption|]. constructor. exact E.
Qed.

Lemma sort_Sorted (l : list A) : Sorted (notAfter after) (sort after l).
Proof.
  induction l as [|x r IH]; [constructor|].
  apply insert_sorted_Sorted, IH.
Qed.

End SortFacts.

(* ================================================================== *)
(** ** The record parser *)

Section ParserProperties.
Context `{N : Number} `{H : Host}.
Import JsString JsDate.

(** C6.  A row that passes every other step of the parser (four
    fields present, snapshot time parsed, closing date parsed and in
    2025, amount parsed) is kept exactly when its [daysBeforeClose]
    lies in [-5, 89]: it is kept, with that value, inside the range
    (89 included) and dropped outside it (90 and -6 included). *)
Theorem processRow_days_range
        (row : RawCSVRow) (snapshot closing : Z) (amount : num) :
  empty (snapShotTime row) = false ->
  empty (date row) = false ->
  empty (totalAmount row) = false ->
  empty (stage row) = false ->
  Date_parse (trim (snapShotTime row)) = Some snapshot ->
  closingMonthDateOf (trim (date row)) = Some closing ->
  getUTCFullYear closing = 2025 ->
  parseFloat (stripMoney (totalAmount row)) = Some amount ->
  let days := daysUntil (lastDayOfMonth 2025 (getUTCMonth closing)) snapshot in
  (-5 <= days <= 89 ->
   exists p, processRow row = Some p /\ p_daysBeforeClose p = days)
  /\ (days < -5 \/ 89 < days -> processRow row = None).
Proof.
  intros E1 E2 E3 E4 Hs Hc Hy Ha days.
  unfold processRow.
  rewrite E1, E2, E3, E4, Hs, Hc, Hy, Ha.
  change (false || false || false || false) with false.
  change (negb (2025 =? 2025)) with false.
  cbv iota. fold days. split.
  - intros [Hlo Hhi].
    destruct (days >? 89) eqn:G; [lia|].
    destruct (days <? -5) eqn:L; [lia|].
    cbv [orb]. eexists. split; reflexivity.
  - intros [Hlo | Hhi].
    + destruct (days <? -5) eqn:L; [|lia].
      now rewrite orb_true_r.
    + destruct (days >? 89) eqn:G; [|lia].
      reflexivity.
Qed.

Lemma misread_all :
  forallb (fun m => forallb (fun d => misread (Z.of_nat m) (Z.of_nat d))
                            (seq 1 31))
          (seq 1 12) = true.
Proof. vm_compute. reflexivity. Qed.

Lemma misread_each (m d : Z) :
  1 <= m <= 12 -> 1 <= d <= 31 -> misread m d = true.
Proof.
  intros Hm Hd.
  pose proof misread_all as Hall.
  rewrite forallb_forall in Hall.
  specialize (Hall (Z.to_nat m)).
  rewrite forallb_forall in Hall.
  specialize (fun P => Hall P (Z.to_nat d)).
  rewrite !Z2Nat.id in Hall by lia.
  apply Hall; apply in_seq; lia.
Qed.

(** C2 (as the code behaves).  A row whose closing date is written
    [2025-MM-DD] is never kept: the three parts are read as month, day
    and year, the closing year comes out between 2069 and 2099, and
    the row is dropped by the test on the year, whatever its other
    fields. *)
Theorem iso_closing_date_dropped (row : RawCSVRow) (m d : Z) :
  1 <= m <= 12 ->
  1 <= d <= 31 ->
  trim (date row) = isoYMD 2025 m d ->
  (exists c, closingMonthDateOf (trim (date row)) = Some c
             /\ 2069 <= getUTCFullYear c <= 2099)
  /\ processRow row = None.
Proof.
  intros Hm Hd E.
  pose proof (misread_each m d Hm Hd) as M. unfold misread in M.
  rewrite <- E in M.
  destruct (closingMonthDateOf (trim (date row))) as [c|] eqn:C;
    [|discriminate M].
  apply andb_prop in M. destruct M as [M1 M2].
  apply Z.leb_le in M1. apply Z.leb_le in M2.
  split; [exists c; auto|].
  unfold processRow.
  destruct (empty (snapShotTime row) || empty (date row)
            || empty (totalAmount row) || empty (stage row));
    [reflexivity|].
  destruct (Date_parse (trim (snapShotTime row))); [|reflexivity].
  rewrite C.
  destruct (getUTCFullYear c =? 2025) eqn:Y; [lia|]. reflexivity.
Qed.

End ParserProperties.

(* ================================================================== *)
(** ** The forecast engine, the similarity finder and goal-seek *)

Section ForecastProperties.
Context `{N : Number} `{H : Host}.
Import JsString JsDate.

Lemma latestSnapshotOf_nonempty (monthData : list AggregatedSnapshot)
      (latest : AggregatedSnapshot) :
  latestSnapshotOf monthData = Some latest -> exists p r, monthData = p :: r.
Proof. destruct monthData as [|p r]; [discriminate|]. eauto. Qed.

(** C9.  For a current month with a non-empty trajectory, the month is
    always reported with the raw value, the weighted value and the
    days to close of its latest point.  With more than 89 days to
    close there is no forecast and no forecast trajectory; with 0 to
    89 days to close there is a forecast; with 0 days to close the
    forecast is the latest weighted value itself, no step of
    compounding being applied. *)
Theorem forecast_by_days_to_close
        (a : Analyzer) (monthKey : string)
        (monthData : list AggregatedSnapshot) (latest : AggregatedSnapshot) :
  In monthKey (currentMonths a) ->
  dget monthKey (aggregatedDataByMonth a) = Some monthData ->
  latestSnapshotOf monthData = Some latest ->
  let r := forecastMonth a monthKey in
  In r (getForecast a)
  /\ month r = monthKey
  /\ currentRawValue r = rawPipeline latest
  /\ currentWeightedValue r = weightedPipeline latest
  /\ daysToClose r = daysBeforeClose latest
  /\ (89 < daysBeforeClose latest ->
      forecast r = None /\ forecastTrajectory r = [])
  /\ (0 <= daysBeforeClose latest <= 89 -> exists f, forecast r = Some f)
  /\ (daysBeforeClose latest = 0 ->
      forecast r = Some (weightedPipeline latest)
      /\ forecastTrajectory r = []).
Proof.
  intros Hin Hd Hl r.
  split; [apply in_map, Hin|].
  subst r. unfold forecastMonth. rewrite Hd.
  destruct (latestSnapshotOf_nonempty _ _ Hl) as (p & rest & ->).
  rewrite Hl.
  destruct (daysBeforeClose latest >? 89) eqn:G.
  - cbn. do 4 (split; [reflexivity|]).
    split; [auto|]. split; intros; lia.
  - destruct (fold_left _ _ _) as [[v t] pts] eqn:F. cbn.
    do 4 (split; [reflexivity|]).
    split; [intros; lia|]. split; [eauto|].
    intros E0. rewrite E0 in F. cbn in F.
    injection F as <- _ <-. auto.
Qed.

(** The points pushed by [calculateTrajectorySimilarity]. *)
Lemma similarity_points
      (cur hist : list AggregatedSnapshot) (days : list Z)
      (acc : list SimilarityPoint) (s : SimilarityPoint) :
  In s (fold_left
          (fun similarities daysBefore =>
             match getTrajectoryAtDaysBefore cur daysBefore,
                   getTrajectoryAtDaysBefore hist daysBefore with
             | Some currentPoint, Some historicalPoint =>
                 let currentValue := weightedPipeline currentPoint in
                 let historicalValue := weightedPipeline historicalPoint in
                 if (historicalValue =? ofZ 0)%num then similarities
                 else
                   similarities ++
                     [{| days_before := daysBefore;
                         current_value := currentValue;
                         historical_value := historicalValue;
                         pct_difference :=
                           ((currentValue - historicalValue)
                            / historicalValue * ofZ 100)%num |}]
             | _, _ => similarities
             end) days acc) ->
  In s acc
  \/ exists cp hp,
      In (days_before s) days
      /\ getTrajectoryAtDaysBefore cur (days_before s) = Some cp
      /\ getTrajectoryAtDaysBefore hist (days_before s) = Some hp
      /\ historical_value s = weightedPipeline hp
      /\ current_value s = weightedPipeline cp
      /\ (weightedPipeline hp =? ofZ 0)%num = false
      /\ pct_difference s =
         ((weightedPipeline cp - weightedPipeline hp)
          / weightedPipeline hp * ofZ 100)%num.
Proof.
  revert acc. induction days as [|d days IH]; intros acc Hs; cbn in Hs.
  - now left.
  - apply IH in Hs. destruct Hs as [Hs | (cp & hp & Hin & Hrest)].
    + destruct (getTrajectoryAtDaysBefore cur d) as [cp|] eqn:C;
        [|now left].
      destruct (getTrajectoryAtDaysBefore hist d) as [hp|] eqn:Hh;
        [|now left].
      cbn in Hs.
      destruct (weightedPipeline hp =? ofZ 0)%num eqn:Z0; [now left|].
      apply in_app_or in Hs. destruct Hs as [Hs | [<- | []]]; [now left|].
      right. exists cp, hp. cbn. repeat split; auto.
    + right. exists cp, hp. split; [now right | exact Hrest].
Qed.

(** C10.  At a checkpoint where both trajectories have a point within
    the tolerance and the weighted value of the historical point is
    [=== 0], no similarity point is produced; and every similarity
    point that is produced carries a historical value that is not
    [=== 0], which is the divisor of its percent difference. *)
Theorem similarity_never_divides_by_zero
        (cur hist : list AggregatedSnapshot) (days : list Z) :
  (forall d cp hp,
      getTrajectoryAtDaysBefore cur d = Some cp ->
      getTrajectoryAtDaysBefore hist d = Some hp ->
      (weightedPipeline hp =? ofZ 0)%num = true ->
      forall s, In s (calculateTrajectorySimilarity cur hist days) ->
                days_before s <> d)
  /\ (forall s, In s (calculateTrajectorySimilarity cur hist days) ->
        (historical_value s =? ofZ 0)%num = false
        /\ pct_difference s =
           ((current_value s - historical_value s)
            / historical_value s * ofZ 100)%num).
Proof.
  split.
  - intros d cp hp Hc Hh Hz s Hs E.
    apply similarity_points in Hs.
    destruct Hs as [[] | (cp' & hp' & _ & Hc' & Hh' & _ & _ & Hnz & _)].
    rewrite E in Hc', Hh'. congruence.
  - intros s Hs. apply similarity_points in Hs.
    destruct Hs as [[] | (cp & hp & _ & _ & _ & E1 & E2 & Hnz & E3)].
    rewrite E1, E2. auto.
Qed.

(** C8.  Goal-seek refuses, returning the trajectory it was given with
    nothing appended, when the latest point has a weighted value
    [<= 0], or a [daysBeforeClose <= 0], or when the compounded base
    forecast is [<= 0]. *)
Theorem goalSeek_refuses
        (a : Analyzer) (originalTrajectory : list NewTrajectoryPoint)
        (goalValue : num) (latestPoint : NewTrajectoryPoint) :
  latestPointOf originalTrajectory = Some latestPoint ->
  (t_weightedAmount latestPoint <=? ofZ 0)%num = true
  \/ t_daysBeforeClose latestPoint <= 0
  \/ (baseForecastOf a (t_weightedAmount latestPoint)
                     (t_daysBeforeClose latestPoint) <=? ofZ 0)%num = true ->
  generateGoalSeekTrajectory a originalTrajectory goalValue
  = originalTrajectory.
Proof.
  intros Hl Hc. unfold generateGoalSeekTrajectory. rewrite Hl.
  destruct (t_weightedAmount latestPoint <=? ofZ 0)%num eqn:V;
    [reflexivity|].
  destruct (t_daysBeforeClose latestPoint <=? 0) eqn:D; [reflexivity|].
  cbv [orb].
  destruct (baseForecastOf a _ _ <=? ofZ 0)%num eqn:B; [reflexivity|].
  destruct Hc as [Hc | [Hc | Hc]]; [discriminate | lia | discriminate].
Qed.

End ForecastProperties.

(* ================================================================== *)
(** ** The growth-rate model *)

Section GrowthRateProperties.
Context `{N : Number}.

Lemma appends_id : appends (fun m => m).
Proof. intros day. exists []. intros m. now rewrite app_nil_r. Qed.

Lemma appends_compose f g : appends f -> appends g -> appends (fun m => g (f m)).
Proof.
  intros Hf Hg day. destruct (Hf day) as [lf Ef]. destruct (Hg day) as [lg Eg].
  exists (lf ++ lg). intros m. now rewrite Eg, Ef, app_assoc.
Qed.

Lemma appends_pushRate d g : appends (pushRate d g).
Proof.
  intros day. destruct (decide (d = day)) as [->|Hne].
  - exists [g]. intros m. unfold ratesAt, pushRate.
    now rewrite lookup_insert_eq.
  - exists []. intros m. unfold ratesAt, pushRate.
    rewrite lookup_insert_ne by exact Hne. now rewrite app_nil_r.
Qed.

Lemma appends_fold {B} (step : gmap Z (list num) -> B -> gmap Z (list num))
      (l : list B) :
  (forall b, appends (fun m => step m b)) ->
  appends (fun m => fold_left step l m).
Proof.
  intros Hs. induction l as [|b l IH]; cbn.
  - apply appends_id.
  - apply (appends_compose (fun m => step m b) (fun m => fold_left step l m));
      auto.
Qed.

Lemma appends_fillDays c n g : appends (fillDays c n g).
Proof.
  unfold fillDays. apply appends_fold. intros d.
  destruct ((c + Z.of_nat d >=? 0) && (c + Z.of_nat d <=? 89)).
  - apply appends_pushRate.
  - apply appends_id.
Qed.

Lemma appends_pairRates p c : appends (pairRates p c).
Proof.
  unfold pairRates.
  destruct (_ && _); [|apply appends_id].
  destruct (_ >? _)%num; [|apply appends_id].
  destruct (_ && _); [|apply appends_id].
  apply appends_fillDays.
Qed.

Lemma appends_monthRates monthData : appends (monthRates monthData).
Proof.
  induction monthData as [|p rest IH]; [apply appends_id|].
  destruct rest as [|c rest']; [apply appends_id|].
  change (appends (fun m => monthRates (c :: rest') (pairRates p c m))).
  apply (appends_compose (pairRates p c) (monthRates (c :: rest'))).
  - apply appends_pairRates.
  - exact IH.
Qed.

Lemma ratesAt_month (data : MonthData) (monthKey : string)
      (m : gmap Z (list num)) (day : Z) :
  ratesAt match dget monthKey data with
          | Some monthData => monthRates monthData m
          | None => m
          end day
  = ratesAt m day ++ monthContribution data monthKey day.
Proof.
  unfold monthContribution. destruct (dget monthKey data) as [md|].
  - destruct (appends_monthRates md day) as [l El].
    rewrite (El m), (El ∅). reflexivity.
  - now rewrite app_nil_r.
Qed.

Lemma ratesAt_fold (data : MonthData) (months : list string)
      (m : gmap Z (list num)) (day : Z) :
  ratesAt (fold_left
             (fun acc monthKey =>
                match dget monthKey data with
                | Some monthData => monthRates monthData acc
                | None => acc
                end) months m) day
  = ratesAt m day
      ++ concat (map (fun k => monthContribution data k day) months).
Proof.
  revert m. induction months as [|k months IH]; intros m; cbn.
  - now rewrite app_nil_r.
  - rewrite IH, ratesAt_month, app_assoc. reflexivity.
Qed.

(** The rates collected for a day are the contributions of the
    months, in the order of the months. *)
Lemma ratesAt_collectRates (data : MonthData) (months : list string) (day : Z) :
  ratesAt (collectRates data months) day
  = concat (map (fun k => monthContribution data k day) months).
Proof. unfold collectRates. now rewrite ratesAt_fold. Qed.

Lemma collectRates_perm (data : MonthData) (months1 months2 : list string)
      (day : Z) :
  Permutation months1 months2 ->
  Permutation (ratesAt (collectRates data months1) day)
              (ratesAt (collectRates data months2) day).
Proof.
  intros P. rewrite !ratesAt_collectRates.
  induction P; cbn.
  - reflexivity.
  - now apply Permutation_app_head.
  - rewrite !app_assoc. apply Permutation_app_tail, Permutation_app_comm.
  - etransitivity; eassumption.
Qed.

End GrowthRateProperties.

(* ================================================================== *)
(** ** The backtest runner *)

Section BacktestProperties.
Context `{N : Number} `{H : Host}.
Import JsString.

Lemma In_omap {A B} (f : A -> option B) (l : list A) (y : B) :
  In y (omap f l) <-> exists x, In x l /\ f x = Some y.
Proof.
  induction l as [|a l IH]; cbn.
  - split; [intros [] | intros (x & [] & _)].
  - destruct (f a) as [b|] eqn:E; cbn; rewrite IH; split.
    + intros [<- | (x & Hx & Ex)]; eauto.
    + intros (x & [<- | Hx] & Ex); [left; congruence | eauto].
    + intros (x & Hx & Ex); eauto.
    + intros (x & [<- | Hx] & Ex); [congruence | eauto].
Qed.

Lemma In_hd {A} (d : A) (l : list A) :
  (length l =? 0)%nat = false -> In (hd d l) l.
Proof. destruct l; [discriminate | now left]. Qed.

(** The two result methods run the same loop. *)
Lemma getBacktestResults_detailed (b : Backtest.BacktestAnalyzer) :
  Backtest.getBacktestResults b
  = concat (map Backtest.results (Backtest.getDetailedBacktestResults b)).
Proof.
  unfold Backtest.getBacktestResults, Backtest.getDetailedBacktestResults.
  destruct (findIndex _ _) as [s|]; [|reflexivity].
  destruct (s <? 3)%nat; [reflexivity|].
  induction (seq s _) as [|i l IH]; cbn; [reflexivity|].
  destruct (Backtest.backtestAt b i) as [r|]; cbn; now rewrite IH.
Qed.




Lemma historical_truthy `{!NumberTruthy N} (data : MonthData)
      (closing : dict Totals) (m : string) :
  In m (Backtest.categorizeMonths data closing) ->
  exists v, dget m closing = Some v /\ truthy (weighted v) = true.
Proof.
  unfold Backtest.categorizeMonths. intros Hin.
  apply (Permutation_in _ (sort_perm _ _)) in Hin.
  apply filter_In in Hin. destruct Hin as [_ Hh].
  unfold isHistorical in Hh.
  destruct (JsDate.UTC _ _ _ _ _ _ _); [|discriminate].
  apply andb_prop in Hh. destruct Hh as [_ Hh].
  destruct (dget m closing) as [v|]; [|discriminate].
  exists v. split; [reflexivity|]. now apply pos_truthy.
Qed.

Lemma sliceFrom_three {A} (l : list A) (i : nat) :
  (3 <= i <= length l)%nat ->
  Backtest.sliceFrom (Z.of_nat i - 3) i l = firstn 3 (skipn (i - 3) l)
  /\ length (firstn 3 (skipn (i - 3) l)) = 3%nat.
Proof.
  intros Hi. unfold Backtest.sliceFrom, slice.
  destruct (Z.of_nat i - 3 <? 0) eqn:E; [lia|].
  rewrite Z.min_l by lia.
  replace (Z.to_nat (Z.of_nat i - 3)) with (i - 3)%nat by lia.
  replace (i - (i - 3))%nat with 3%nat by lia.
  split; [reflexivity|].
  rewrite length_firstn, length_skipn. lia.
Qed.

Lemma backtestAt_tested (b : Backtest.BacktestAnalyzer) (i : nat) :
  (forall m, In m (Backtest.allHistoricalMonths b) ->
             exists v, dget m (Backtest.actualClosingValues b) = Some v
                       /\ truthy (weighted v) = true) ->
  (3 <= i < length (Backtest.allHistoricalMonths b))%nat ->
  exists r, Backtest.backtestAt b i = Some r
            /\ Backtest.testMonth r
               = nth i (Backtest.allHistoricalMonths b) EmptyString
            /\ Backtest.trainingMonths r
               = firstn 3 (skipn (i - 3) (Backtest.allHistoricalMonths b)).
Proof.
  intros Ht Hi. unfold Backtest.backtestAt.
  destruct (nth_error (Backtest.allHistoricalMonths b) i) as [tm|] eqn:En.
  2:{ apply nth_error_None in En. lia. }
  destruct (sliceFrom_three (Backtest.allHistoricalMonths b) i) as [Es El];
    [lia|].
  rewrite Es, El. cbn [Nat.eqb negb].
  destruct (Ht tm) as (v & Ev & Tv); [eapply nth_error_In, En|].
  rewrite Ev, Tv. cbn [negb].
  eexists. split; [reflexivity|]. cbn.
  split; [|reflexivity].
  symmetry. now apply nth_error_nth.
Qed.

Lemma omap_tested (b : Backtest.BacktestAnalyzer) (l : list nat) :
  (forall i, In i l ->
             exists r, Backtest.backtestAt b i = Some r
                       /\ Backtest.testMonth r
                          = nth i (Backtest.allHistoricalMonths b) EmptyString
                       /\ Backtest.trainingMonths r
                          = firstn 3 (skipn (i - 3)
                                            (Backtest.allHistoricalMonths b))) ->
  map (fun r => (Backtest.testMonth r, Backtest.trainingMonths r))
      (omap (Backtest.backtestAt b) l)
  = map (fun i => (nth i (Backtest.allHistoricalMonths b) EmptyString,
                   firstn 3 (skipn (i - 3) (Backtest.allHistoricalMonths b))))
        l.
Proof.
  induction l as [|i l IH]; intros Hl; cbn; [reflexivity|].
  destruct (Hl i) as (r & -> & E1 & E2); [now left|].
  cbn. rewrite E1, E2, IH; [reflexivity|].
  intros j Hj. apply Hl. now right.
Qed.

(** C4 (as the code behaves).  The backtest is gated on the first
    historical month that reaches the cutoff: if there is none, or if
    it has fewer than three predecessors, nothing at all is tested;
    otherwise every historical month from that one to the last is
    tested, each on the three months just before it. *)
Theorem backtest_gated_on_first_month `{!NumberTruthy N}
        (data : MonthData) (closing : dict Totals) :
  let b := Backtest.new data closing in
  let months := Backtest.allHistoricalMonths b in
  Backtest.getBacktestResults b
  = concat (map Backtest.results (Backtest.getDetailedBacktestResults b))
  /\ match findIndex (fun month => geb month Backtest.startMonth) months with
     | None => Backtest.getDetailedBacktestResults b = []
     | Some startIndex =>
         if (startIndex <? 3)%nat
         then Backtest.getDetailedBacktestResults b = []
         else
           map (fun r => (Backtest.testMonth r, Backtest.trainingMonths r))
               (Backtest.getDetailedBacktestResults b)
           = map (fun i => (nth i months EmptyString,
                            firstn 3 (skipn (i - 3) months)))
                 (seq startIndex (length months - startIndex))
     end.
Proof.
  intros b months. split; [apply getBacktestResults_detailed|].
  unfold Backtest.getDetailedBacktestResults. fold months.
  destruct (findIndex _ months) as [s|]; [|reflexivity].
  destruct (s <? 3)%nat eqn:E3; [reflexivity|].
  apply Nat.ltb_ge in E3.
  apply omap_tested. intros i Hi. apply in_seq in Hi.
  apply backtestAt_tested.
  - intros m Hm. apply (historical_truthy data closing m Hm).
  - fold months. lia.
Qed.

End BacktestProperties.

(* ================================================================== *)
(** ** Loading *)

Section LoadProperties.
Context `{N : Number} `{H : Host}.

Lemma loadData_allData (a a' : Analyzer) (c : list RawCSVRow) :
  loadData a c = Some a' -> allData a' = processRawData c.
Proof.
  unfold loadData.
  destruct (length (processRawData c) =? 0)%nat.
  - intros E. injection E as <-. reflexivity.
  - destruct (aggregateDataByMonth _ _) as [data|]; [|discriminate].
    destruct (categorizeMonths _ _) as [historical current].
    intros E. injection E as <-. reflexivity.
Qed.

Lemma loadData_no_rows (a : Analyzer) (c : list RawCSVRow) :
  processRawData c = [] ->
  exists a', loadData a c = Some a' /\ allData a' = []
             /\ aggregatedDataByMonth a' = aggregatedDataByMonth a
             /\ currentMonths a' = currentMonths a.
Proof.
  intros E. unfold loadData. rewrite E. eexists.
  split; [reflexivity|]. split; [reflexivity|]. split; reflexivity.
Qed.

(** C1 (as the code behaves).  After any successful load, a second
    load leaves the parsed rows, and so the answer of [hasData], equal
    to those of a fresh analyzer given the second input alone.  When
    the second input has no valid observation the load returns with
    [hasData] false, and on a fresh analyzer that is the "no data"
    state: every derived structure is empty and the computations that
    depend on them return empty results. *)
Theorem loadData_rows_replaced_fresh_empty
        (a a1 : Analyzer) (c1 c2 : list RawCSVRow) :
  loadData a c1 = Some a1 ->
  (forall a2 f,
      loadData a1 c2 = Some a2 -> loadData newAnalyzer c2 = Some f ->
      allData a2 = allData f /\ hasData a2 = hasData f)
  /\ (processRawData c2 = [] ->
      (exists a2, loadData a1 c2 = Some a2 /\ hasData a2 = false)
      /\ loadData newAnalyzer c2 = Some newAnalyzer
      /\ hasData newAnalyzer = false
      /\ getAggregatedDataByMonth newAnalyzer = []
      /\ getActualClosingValues newAnalyzer = []
      /\ getForecast newAnalyzer = []
      /\ getHistoricalData newAnalyzer = []
      /\ getPeakDeclineData newAnalyzer = []
      /\ analyzePeakAndDecline newAnalyzer = []
      /\ getAppendixData newAnalyzer
         = {| smoothedGrowthRates := []; ap_medianGrowthRates := [];
              forecastCalculations := [] |}).
Proof.
  intros _. split.
  - intros a2 f L2 Lf.
    apply loadData_allData in L2. apply loadData_allData in Lf.
    unfold hasData. rewrite L2, Lf. auto.
  - intros E. split.
    + destruct (loadData_no_rows a1 c2 E) as (a2 & L & Ea & _).
      exists a2. split; [exact L|]. unfold hasData. now rewrite Ea.
    + split.
      * unfold loadData. rewrite E. reflexivity.
      * repeat split.
Qed.

End LoadProperties.

(* ================================================================== *)
(** ** The laws of the rational instance *)

Lemma QcArith_ltb_lt (a b : Qc) : QcArith.ltb a b = true <-> (a < b)%Qc.
Proof.
  unfold QcArith.ltb, Qclt. rewrite negb_true_iff.
  split.
  - intros E. apply Qnot_le_lt. intros L. apply Qle_bool_iff in L. congruence.
  - intros L. destruct (Qle_bool (this b) (this a)) eqn:E; [|reflexivity].
    apply Qle_bool_iff in E. exfalso. exact (Qlt_not_le _ _ L E).
Qed.

Lemma QcArith_pos_sub (a b : Qc) :
  QcArith.ltb (Q2Qc (inject_Z 0)) (a - b)%Qc = true <-> (b < a)%Qc.
Proof.
  rewrite QcArith_ltb_lt. change (Q2Qc (inject_Z 0)) with 0%Qc.
  rewrite (Qclt_minus_iff b a). reflexivity.
Qed.

Lemma QcArith_not_pos_sub (a b : Qc) :
  QcArith.ltb (Q2Qc (inject_Z 0)) (a - b)%Qc = false <-> (a <= b)%Qc.
Proof.
  split.
  - intros E. apply Qcnot_lt_le. intros L. apply QcArith_pos_sub in L. congruence.
  - intros L. destruct (QcArith.ltb _ _) eqn:E; [|reflexivity].
    apply QcArith_pos_sub in E. exfalso. exact (Qclt_not_le _ _ E L).
Qed.

#[export] Instance QcTruthy : NumberTruthy QcNumber.
Proof.
  split; cbn. intros a E. apply QcArith_ltb_lt in E.
  apply negb_true_iff. unfold QcArith.eqb.
  destruct (Qeq_bool (this a) (this (Q2Qc 0))) eqn:Z0; [|reflexivity].
  apply Qeq_bool_iff in Z0. exfalso.
  change (Q2Qc (inject_Z 0)) with 0%Qc in E. unfold Qclt in E.
  change (this (Q2Qc 0)) with (this 0%Qc) in Z0.
  rewrite Z0 in E. exact (Qlt_irrefl _ E).
Qed.

(* ================================================================== *)
(** ** The properties on the concrete inputs *)

Lemma pipelineAnalyzer_loaded :
  @loadData QcNumber februaryHost newAnalyzer pipelineRows
  = Some pipelineAnalyzer.
Proof.
  unfold pipelineAnalyzer.
  assert (L : match @loadData QcNumber februaryHost newAnalyzer pipelineRows
                with Some _ => true | None => false end = true)
    by (vm_compute; reflexivity).
  destruct (@loadData QcNumber februaryHost newAnalyzer pipelineRows);
    [reflexivity | discriminate L].
Qed.

(** The properties of the parser at [row89]: the row is kept, 89 days
    before the close. *)
Lemma processRow_days_range_witness :
  exists p, @processRow QcNumber februaryHost row89 = Some p
            /\ p_daysBeforeClose p = 89.
Proof.
  refine (proj1 (@processRow_days_range QcNumber februaryHost row89
                   1735819200000 1743379200000
                   (Q2Qc (2001 # 2)) _ _ _ _ _ _ _ _) _);
    try reflexivity.
  vm_compute. split; discriminate.
Defined.

Example row90_dropped : @processRow QcNumber februaryHost row90 = None.
Proof. reflexivity. Qed.

Example rowMinus6_dropped : @processRow QcNumber februaryHost rowMinus6 = None.
Proof. reflexivity. Qed.

(** The ISO closing date of [februaryIsoRow] is read as 2 September
    2096 and the row is dropped. *)
Lemma iso_closing_date_dropped_witness :
  (exists c, @closingMonthDateOf februaryHost
               (JsString.trim (date februaryIsoRow)) = Some c
             /\ 2069 <= JsDate.getUTCFullYear c <= 2099)
  /\ @processRow QcNumber februaryHost februaryIsoRow = None.
Proof.
  apply (@iso_closing_date_dropped QcNumber februaryHost februaryIsoRow 2 28);
    [lia | lia | vm_compute; reflexivity].
Defined.

(** The same observation with its date written [2/28/2025] is kept, in
    the month of February. *)
Example februaryRow_kept :
  option_map (fun p => (monthKeyOf (p_closingMonth p), p_daysBeforeClose p))
             (@processRow QcNumber februaryHost februaryRow)
  = Some ("2025-02"%string, 1).
Proof. vm_compute. reflexivity. Qed.

(** C1, counterexample.  After [loadData(marchRows)], a load of rows
    with no valid observation leaves the trajectories and the forecast
    of March in place, where a fresh analyzer has none; and a load of
    [pipelineRows] gives trajectories for three months, where a fresh
    analyzer has two. *)
Lemma loadData_reload_counterexample :
  @loadData QcNumber februaryHost newAnalyzer marchRows = Some marchAnalyzer
  /\ (exists a2 f2 : @Analyzer QcNumber,
         @loadData QcNumber februaryHost marchAnalyzer brokenRows = Some a2
         /\ @loadData QcNumber februaryHost newAnalyzer brokenRows = Some f2
         /\ hasData a2 = false
         /\ keys (aggregatedDataByMonth a2) = ["2025-03"%string]
         /\ keys (aggregatedDataByMonth f2) = []
         /\ map month (@getForecast QcNumber februaryHost a2)
            = ["2025-03"%string]
         /\ map month (@getForecast QcNumber februaryHost f2) = [])
  /\ (exists a3 f3 : @Analyzer QcNumber,
         @loadData QcNumber februaryHost marchAnalyzer pipelineRows = Some a3
         /\ @loadData QcNumber februaryHost newAnalyzer pipelineRows = Some f3
         /\ keys (aggregatedDataByMonth a3)
            = ["2025-03"; "2025-01"; "2025-02"]%string
         /\ keys (aggregatedDataByMonth f3) = ["2025-01"; "2025-02"]%string).
Proof.
  split.
  { unfold marchAnalyzer.
    assert (L : match @loadData QcNumber februaryHost newAnalyzer marchRows
                  with Some _ => true | None => false end = true)
      by (vm_compute; reflexivity).
    destruct (@loadData QcNumber februaryHost newAnalyzer marchRows);
      [reflexivity | discriminate L]. }
  split.
  - do 2 eexists.
    split; [reflexivity|]. split; [reflexivity|].
    repeat split; vm_compute; reflexivity.
  - exists (default newAnalyzer
              (@loadData QcNumber februaryHost marchAnalyzer pipelineRows)),
           pipelineAnalyzer.
    split.
    { assert (L : match @loadData QcNumber februaryHost marchAnalyzer
                          pipelineRows
                    with Some _ => true | None => false end = true)
        by (vm_compute; reflexivity).
      destruct (@loadData QcNumber februaryHost marchAnalyzer pipelineRows);
        [reflexivity | discriminate L]. }
    split; [apply pipelineAnalyzer_loaded|].
    split; vm_compute; reflexivity.
Qed.

(** The amended property at [marchRows] and [brokenRows]. *)
Lemma loadData_rows_replaced_fresh_empty_witness :
  (exists a2, @loadData QcNumber februaryHost
                (default newAnalyzer
                   (@loadData QcNumber februaryHost newAnalyzer marchRows))
                brokenRows = Some a2
              /\ hasData a2 = false)
  /\ @getForecast QcNumber februaryHost newAnalyzer = [].
Proof.
  destruct (@loadData_rows_replaced_fresh_empty QcNumber februaryHost
              newAnalyzer
              (default newAnalyzer
                 (@loadData QcNumber februaryHost newAnalyzer marchRows))
              marchRows brokenRows)
    as [_ K]; [reflexivity|].
  destruct K as (K1 & _ & _ & _ & _ & K2 & _); [reflexivity|].
  exact (conj K1 K2).
Defined.

(** C9 at the February of [pipelineAnalyzer]: one day to close. *)
Lemma forecast_by_days_to_close_witness :
  exists f, forecast (@forecastMonth QcNumber februaryHost
                        pipelineAnalyzer "2025-02") = Some f.
Proof.
  refine (proj1 (proj2 (proj2 (proj2 (proj2 (proj2 (proj2
           (@forecast_by_days_to_close QcNumber februaryHost
              pipelineAnalyzer "2025-02" [februaryPoint] februaryPoint
              _ _ _))))))) _).
  - vm_compute. left. reflexivity.
  - reflexivity.
  - reflexivity.
  - vm_compute. split; discriminate.
Defined.

(** C10 on a historical trajectory that is zero near day 15. *)
Lemma similarity_never_divides_by_zero_witness :
  Forall (fun s => days_before s <> 15)
         (@calculateTrajectorySimilarity QcNumber
            [point 30 8; point 15 4] [point 30 2; point 15 0] comparisonDays).
Proof.
  apply Stdlib.Lists.List.Forall_forall.
  exact (proj1 (@similarity_never_divides_by_zero QcNumber
                  [point 30 8; point 15 4] [point 30 2; point 15 0]
                  comparisonDays)
               15 (point 15 4) (point 15 0) eq_refl eq_refl eq_refl).
Defined.

Example similarity_at_day_30 :
  map (fun s => (days_before s, this (pct_difference s)))
      (@calculateTrajectorySimilarity QcNumber
         [point 30 8; point 15 4] [point 30 2; point 15 0] comparisonDays)
  = [(30, 300%Q)].
Proof. vm_compute. reflexivity. Qed.

(** C8 at a trajectory whose latest point is on the closing day. *)
Lemma goalSeek_refuses_witness :
  @generateGoalSeekTrajectory QcNumber pipelineAnalyzer
    [closingDayPoint] (Q2Qc 160)
  = [closingDayPoint].
Proof.
  apply (@goalSeek_refuses QcNumber pipelineAnalyzer [closingDayPoint]
           (Q2Qc 160) closingDayPoint).
  - reflexivity.
  - right. left. vm_compute. discriminate.
Defined.

(** C3, on the code.  With the curve learned from January (a quarter a
    day), February stands at 64 one day before its close; its base
    forecast is 80.  For the goal 160 the required lift is 1, and the
    projection ends at 64 * (1 + 1/4 + 1) = 144, a tenth short of the
    goal. *)
Lemma goalSeek_misses_goal :
  map (fun r => (month r, map toPair (trajectory r)))
      (@getForecast QcNumber februaryHost pipelineAnalyzer)
  = [("2025-02"%string, map toPair februaryTrajectory)]
  /\ this (@baseForecastOf QcNumber pipelineAnalyzer (Q2Qc 64) 1) = 80%Q
  /\ this (@requiredDailyLiftOf QcNumber (Q2Qc 160) (Q2Qc 80) 1) = 1%Q
  /\ map toPair
         (@generateGoalSeekTrajectory QcNumber pipelineAnalyzer
            februaryTrajectory (Q2Qc 160))
     = [(1, 64%Q); (0, 144%Q)].
Proof. repeat split; vm_compute; reflexivity. Qed.

(** C4, counterexample.  With the historical months February to June,
    May is past the cutoff and has three predecessors, yet it is not
    tested: April, the first month past the cutoff, has only two, and
    the whole backtest is empty. *)
Lemma backtest_gate_counterexample :
  let b := @Backtest.new QcNumber augustHost fromFebruary fromFebruaryClosings in
  nth_error (Backtest.allHistoricalMonths b) 3 = Some "2025-05"%string
  /\ JsString.geb "2025-05" Backtest.startMonth = true
  /\ Backtest.getBacktestResults b = []
  /\ ~ testsEveryEligibleMonth b.
Proof.
  intros b. split; [vm_compute; reflexivity|].
  split; [vm_compute; reflexivity|].
  split; [reflexivity|].
  intros T.
  destruct (T 3%nat "2025-05"%string) as (r & Hr & _);
    [vm_compute; reflexivity | vm_compute; reflexivity | lia |].
  change (In r []) in Hr. exact Hr.
Qed.

(** The gate on January to May: April has three predecessors, and April
    and May are tested. *)
Lemma backtest_gated_on_first_month_witness :
  map (fun r => (Backtest.testMonth r, Backtest.trainingMonths r))
      (Backtest.getDetailedBacktestResults
         (@Backtest.new QcNumber augustHost fiveMonths fiveClosings))
  = [("2025-04", ["2025-01"; "2025-02"; "2025-03"]);
     ("2025-05", ["2025-02"; "2025-03"; "2025-04"])]%string.
Proof.
  pose proof (proj2 (@backtest_gated_on_first_month QcNumber augustHost
                       QcTruthy fiveMonths fiveClosings)) as K.
  vm_compute in K. vm_compute. exact K.
Defined.

Example april_prediction :
  map (fun r => (Backtest.testMonth r,
                 map (fun x => (b_daysBefore x, this (prediction x),
                                this (actual x)))
                     (Backtest.results r)))
      (Backtest.getDetailedBacktestResults
         (@Backtest.new QcNumber augustHost
                        fiveMonthsOtherMay fiveClosingsOtherApril))
  = [("2025-04"%string, [(1, 350 # 3, 999%Q)]);
     ("2025-05"%string, [(1, 35 # 6, 5%Q)])].
Proof. vm_compute. reflexivity. Qed.

(* ================================================================== *)
(** ** Further properties of the parser *)

Section ParserFurther.
Context `{N : Number} `{H : Host}.
Import JsString JsDate.

(** X1.  [daysBeforeClose] is [k] exactly for the snapshots taken more
    than [k - 1] and at most [k] whole days before the last instant of
    the closing month: a snapshot at that instant is 0 days before the
    close, one exactly a day earlier is 1 day before it, and one taken a
    millisecond after the close is still at day 0. *)
Theorem daysUntil_window (lastDay t k : Z) :
  (daysUntil lastDay t = k
   <-> (k - 1) * msPerDay < lastDay - t <= k * msPerDay)
  /\ daysUntil lastDay lastDay = 0
  /\ daysUntil lastDay (lastDay - msPerDay) = 1
  /\ daysUntil lastDay (lastDay + 1) = 0.
Proof.
  assert (W : forall a k', ceilDiv a msPerDay = k'
                           <-> (k' - 1) * msPerDay < a <= k' * msPerDay).
  { intros a k'. unfold ceilDiv, msPerDay.
    change (1000 * 60 * 60 * 24) with 86400000.
    pose proof (Z.div_mod (- a) 86400000 ltac:(lia)) as D.
    pose proof (Z.mod_pos_bound (- a) 86400000 ltac:(lia)) as B.
    split; intros; lia. }
  unfold daysUntil. split; [apply W|].
  split; [apply W; unfold msPerDay; lia|].
  split; apply W; unfold msPerDay; lia.
Qed.

Lemma processRow_inv (row : RawCSVRow) :
  match processRow row with
  | Some p => observationOf row p
  | None => True
  end.
Proof.
  unfold processRow.
  destruct (empty (snapShotTime row)) eqn:E1; [exact I|].
  destruct (empty (date row)) eqn:E2; [exact I|].
  destruct (empty (totalAmount row)) eqn:E3; [exact I|].
  destruct (empty (stage row)) eqn:E4; [exact I|].
  cbv [orb].
  destruct (Date_parse (trim (snapShotTime row))) as [s|] eqn:Es; [|exact I].
  destruct (closingMonthDateOf (trim (date row))) as [c|] eqn:Ec; [|exact I].
  destruct (getUTCFullYear c =? 2025) eqn:Y; [|exact I].
  apply Z.eqb_eq in Y. cbv [negb]. rewrite Y.
  set (days := daysUntil (lastDayOfMonth 2025 (getUTCMonth c)) s).
  destruct (days >? 89) eqn:G; [exact I|].
  destruct (days <? -5) eqn:L; [exact I|].
  cbv [orb].
  destruct (parseFloat (stripMoney (totalAmount row))) as [amt|] eqn:Ea;
    [|exact I].
  rewrite Z.gtb_ltb in G. apply Z.ltb_ge in G. apply Z.ltb_ge in L.
  unfold observationOf.
  cbn [p_snapshotDate p_closingMonth p_daysBeforeClose p_amount p_stage
       p_weightedAmount].
  do 4 (split; [assumption|]).
  split; [assumption|]. split; [assumption|]. split; [exact Y|].
  split; [reflexivity|]. split; [split; assumption|].
  split; [assumption|]. split; reflexivity.
Qed.

(** X2.  Every observation that the parser emits comes from a row of
    the input with its four fields present, has a closing date in 2025,
    lies between -5 and 89 days before the last instant of its closing
    month (the days being counted from its own snapshot), carries the
    trimmed stage and the amount read from the text with [$] and [,]
    removed, and has [weightedAmount = amount * weight(stage)], where
    the weight is that of the table for its four keys, not a number for
    a stage named like a property that the table inherits (the weighted
    amount is then [amount * NaN]), and 0 for any other stage; there
    are never more observations than rows. *)
Theorem processRawData_observation
        (rawData : list RawCSVRow) (p : ProcessedRow) :
  In p (processRawData rawData) ->
  (exists row, In row rawData /\ processRow row = Some p
               /\ observationOf row p)
  /\ (In (p_stage p) inheritedNames ->
      p_weightedAmount p = (p_amount p * NaN)%num)
  /\ (~ In (p_stage p) inheritedNames ->
      ~ In (p_stage p) ["FUNDED"; "READY_FOR_FUNDING";
                        "CONDITION_FULFILLMENT"; "APPROVED"]%string ->
      p_weightedAmount p = (p_amount p * ofZ 0)%num)
  /\ (length (processRawData rawData) <= length rawData)%nat.
Proof.
  intros Hin.
  assert (O : exists row, In row rawData /\ processRow row = Some p
                          /\ observationOf row p).
  { unfold processRawData in Hin.
    apply In_omap in Hin. destruct Hin as (row & Hrow & E).
    exists row. split; [exact Hrow|]. split; [exact E|].
    pose proof (processRow_inv row) as K. rewrite E in K. exact K. }
  assert (W : p_weightedAmount p = (p_amount p * STAGE_WEIGHTS (p_stage p))%num).
  { destruct O as (row & _ & _ & K). apply K. }
  split; [exact O|]. split; [|split].
  - intros Hs. rewrite W. f_equal. cbv [inheritedNames] in Hs.
    repeat (destruct Hs as [<- | Hs]; [reflexivity|]). destruct Hs.
  - intros Hi Hk. rewrite W. f_equal. unfold STAGE_WEIGHTS.
    destruct (String.eqb_spec (p_stage p) "FUNDED") as [E | _];
      [exfalso; apply Hk; rewrite E; now left|].
    destruct (String.eqb_spec (p_stage p) "READY_FOR_FUNDING") as [E | _];
      [exfalso; apply Hk; rewrite E; right; now left|].
    destruct (String.eqb_spec (p_stage p) "CONDITION_FULFILLMENT") as [E | _];
      [exfalso; apply Hk; rewrite E; right; right; now left|].
    destruct (String.eqb_spec (p_stage p) "APPROVED") as [E | _];
      [exfalso; apply Hk; rewrite E; right; right; right; now left|].
    destruct (existsb (String.eqb (p_stage p)) inheritedNames) eqn:Ee;
      [|reflexivity].
    exfalso. apply Hi. apply existsb_exists in Ee.
    destruct Ee as (x & Hx & Ex). apply String.eqb_eq in Ex. now subst x.
  - unfold processRawData. clear Hin O W.
    induction rawData as [|r l IH]; cbn; [lia|].
    destruct (processRow r); cbn; lia.
Qed.

Lemma readsUsDate_all :
  forallb (fun m => forallb (fun d => readsUsDate (Z.of_nat m) (Z.of_nat d))
                            (seq 1 (Z.to_nat (DaysInMonth 2025 (Z.of_nat m - 1)))))
          (seq 1 12) = true.
Proof. vm_compute. reflexivity. Qed.

(** X3.  A closing date of 2025 written month first, [MM/DD/2025] or
    [MM-DD-2025], with or without leading zeros, is read as that day:
    the closing month is the month written, with the key [2025-MM]. *)
Theorem closingMonthDateOf_month_first
        (sep : ascii) (padded : bool) (m d : Z) :
  sep = "/"%char \/ sep = "-"%char ->
  1 <= m <= 12 ->
  1 <= d <= DaysInMonth 2025 (m - 1) ->
  exists t,
    closingMonthDateOf (usDate sep padded m d) = Some t
    /\ t = MakeDate (MakeDay 2025 (m - 1) d) 0
    /\ getUTCFullYear t = 2025
    /\ getUTCMonth t = m - 1
    /\ monthKeyOf t = append "2025-" (pad 2 m).
Proof.
  intros Hsep Hm Hd.
  pose proof readsUsDate_all as Hall.
  rewrite forallb_forall in Hall.
  specialize (Hall (Z.to_nat m) ltac:(apply in_seq; lia)).
  rewrite forallb_forall in Hall.
  specialize (Hall (Z.to_nat d)).
  rewrite !Z2Nat.id in Hall by lia.
  specialize (Hall ltac:(apply in_seq; lia)).
  unfold readsUsDate in Hall.
  rewrite forallb_forall in Hall.
  specialize (Hall sep ltac:(destruct Hsep as [-> | ->]; cbn; auto)).
  rewrite forallb_forall in Hall.
  specialize (Hall padded ltac:(destruct padded; cbn; auto)).
  destruct (closingMonthDateOf (usDate sep padded m d)) as [t|];
    [|discriminate].
  exists t. split; [reflexivity|].
  apply andb_prop in Hall. destruct Hall as [Hall E4].
  apply andb_prop in Hall. destruct Hall as [Hall E3].
  apply andb_prop in Hall. destruct Hall as [E1 E2].
  apply Z.eqb_eq in E1, E2, E3. apply String.eqb_eq in E4. auto.
Qed.

End ParserFurther.

(* ================================================================== *)
(** ** Further properties of the growth-rate model *)

Section SortFurther.
Context {A : Type} (after : A -> A -> bool).

Lemma sort_sorted (l : list A) :
  Sorted (notAfter after) l -> sort after l = l.
Proof.
  induction 1 as [|x r Hs IH Hd]; [reflexivity|].
  unfold sort in *. cbn. rewrite IH.
  destruct Hd as [|y r' Hy]; [reflexivity|].
  cbn. unfold notAfter in Hy. now rewrite Hy.
Qed.

End SortFurther.

Section GrowthFurther.
Context `{N : Number}.

Lemma In_ratesAt_pushRate d g0 m day g :
  In g (ratesAt (pushRate d g0 m) day) ->
  In g (ratesAt m day) \/ (g = g0 /\ d = day).
Proof.
  unfold ratesAt, pushRate. destruct (decide (d = day)) as [->|Hne].
  - rewrite lookup_insert_eq. cbn. intros Hin.
    apply in_app_or in Hin. destruct Hin as [Hin | [<- | []]]; auto.
  - rewrite lookup_insert_ne by exact Hne. auto.
Qed.

Lemma In_ratesAt_fillDays c n g0 m day g :
  In g (ratesAt (fillDays c n g0 m) day) ->
  In g (ratesAt m day)
  \/ (g = g0 /\ c <= day < c + n /\ 0 <= day <= 89).
Proof.
  unfold fillDays.
  assert (G : forall ds m0,
             (forall d, In d ds -> (d < Z.to_nat n)%nat) ->
             In g (ratesAt
                     (fold_left
                        (fun acc d =>
                           let day := c + Z.of_nat d in
                           if (day >=? 0) && (day <=? 89)
                           then pushRate day g0 acc else acc) ds m0) day) ->
             In g (ratesAt m0 day)
             \/ (g = g0 /\ c <= day < c + n /\ 0 <= day <= 89)).
  { induction ds as [|d ds IH]; intros m0 Hds Hin; cbn in Hin; [now left|].
    apply IH in Hin; [|intros d' Hd'; apply Hds; now right].
    destruct Hin as [Hin | Hin]; [|now right].
    destruct ((c + Z.of_nat d >=? 0) && (c + Z.of_nat d <=? 89)) eqn:B;
      [|now left].
    apply In_ratesAt_pushRate in Hin. destruct Hin as [Hin | [-> <-]];
      [now left|].
    right. apply andb_prop in B. destruct B as [B1 B2].
    apply Z.geb_le in B1. apply Z.leb_le in B2.
    specialize (Hds d ltac:(now left)). split; [reflexivity|]. lia. }
  apply G. intros d Hd. apply in_seq in Hd. lia.
Qed.

Lemma In_ratesAt_pairRates p c m day g :
  In g (ratesAt (pairRates p c m) day) ->
  In g (ratesAt m day)
  \/ (0 < daysBeforeClose p - daysBeforeClose c <= 3
      /\ (weightedPipeline p >? ofZ 0)%num = true
      /\ g = (Math_pow (weightedPipeline c / weightedPipeline p)
                       (ofZ 1 / ofZ (daysBeforeClose p - daysBeforeClose c))
              - ofZ 1)%num
      /\ withinGuard g
      /\ daysBeforeClose c <= day < daysBeforeClose p
      /\ 0 <= day <= 89).
Proof.
  unfold pairRates.
  destruct ((daysBeforeClose p - daysBeforeClose c >? 0)
            && (daysBeforeClose p - daysBeforeClose c <=? 3)) eqn:D;
    [|now left].
  destruct (weightedPipeline p >? ofZ 0)%num eqn:W; [|now left].
  destruct ((_ >? lit (-1) 2)%num && (_ <? lit 1 2)%num) eqn:G; [|now left].
  intros Hin. apply In_ratesAt_fillDays in Hin.
  destruct Hin as [Hin | (-> & Hd & Hr)]; [now left|].
  right. apply andb_prop in D. destruct D as [D1 D2].
  rewrite Z.gtb_ltb in D1. apply Z.ltb_lt in D1. apply Z.leb_le in D2.
  apply andb_prop in G.
  split; [lia|]. split; [reflexivity|]. split; [reflexivity|].
  split; [exact G|]. split; [lia | exact Hr].
Qed.

Lemma In_ratesAt_monthRates monthData m day g :
  In g (ratesAt (monthRates monthData m) day) ->
  In g (ratesAt m day)
  \/ exists p c,
      consecutive p c monthData
      /\ 0 < daysBeforeClose p - daysBeforeClose c <= 3
      /\ (weightedPipeline p >? ofZ 0)%num = true
      /\ g = (Math_pow (weightedPipeline c / weightedPipeline p)
                       (ofZ 1 / ofZ (daysBeforeClose p - daysBeforeClose c))
              - ofZ 1)%num
      /\ withinGuard g
      /\ daysBeforeClose c <= day < daysBeforeClose p
      /\ 0 <= day <= 89.
Proof.
  revert m. induction monthData as [|p rest IH]; intros m Hin; [now left|].
  destruct rest as [|c rest']; [now left|].
  change (In g (ratesAt (monthRates (c :: rest') (pairRates p c m)) day))
    in Hin.
  apply IH in Hin. destruct Hin as [Hin | (p' & c' & (b & a & E) & K)].
  - apply In_ratesAt_pairRates in Hin. destruct Hin as [Hin | K]; [now left|].
    right. exists p, c. split; [|exact K]. exists [], rest'. reflexivity.
  - right. exists p', c'. split; [|exact K].
    exists (p :: b), a. cbn. now rewrite E.
Qed.

Lemma collected_rate_month
      (data : MonthData) (months : list string) (day : Z) (g : num) :
  In g (ratesAt (collectRates data months) day) ->
  exists k, In k months /\ dget k data <> None.
Proof.
  rewrite ratesAt_collectRates. intros Hin.
  apply in_concat in Hin. destruct Hin as (l & Hl & Hg).
  apply in_map_iff in Hl. destruct Hl as (k & <- & Hk).
  exists k. split; [exact Hk|].
  unfold monthContribution in Hg.
  destruct (dget k data); [discriminate | destruct Hg].
Qed.

(** X4.  Every rate collected for a day comes from two consecutive
    points of a training month that has data, one to three days apart,
    the earlier one with a weighted value [> 0]; it is the daily growth
    implied by the pair, it passes the outlier guard [-0.5 < g < 0.5],
    and the day lies in the gap of the pair and in 0..89.  A month that
    is not in the data, or has fewer than two points, contributes
    nothing. *)
Theorem collected_rate_source
        (data : MonthData) (months : list string) (day : Z) (g : num) :
  In g (ratesAt (collectRates data months) day) ->
  rateSource data months day g.
Proof.
  rewrite ratesAt_collectRates. intros Hin.
  apply in_concat in Hin. destruct Hin as (l & Hl & Hg).
  apply in_map_iff in Hl. destruct Hl as (k & <- & Hk).
  unfold monthContribution in Hg.
  destruct (dget k data) as [md|] eqn:Ed; [|destruct Hg].
  apply In_ratesAt_monthRates in Hg.
  destruct Hg as [[] | (p & c & Hc & K)].
  exists k, md, p, c. split; [exact Hk|]. split; [exact Ed|].
  split; [exact Hc | exact K].
Qed.

Lemma medianRates_sorted (f : nat -> num) (s n : nat) :
  Sorted (notAfter (fun a b => daysBefore a - daysBefore b >? 0))
         (map (fun d => {| daysBefore := Z.of_nat d; rate := f d |}) (seq s n)).
Proof.
  revert s. induction n as [|n IH]; intros s; cbn [seq map]; constructor.
  - apply IH.
  - destruct n; cbn [seq map]; constructor.
    unfold notAfter. cbn [daysBefore].
    rewrite Z.gtb_ltb. apply Z.ltb_ge. lia.
Qed.

Lemma medianRatesOf_entries (m : gmap Z (list num)) :
  medianRatesOf m
  = map (fun d =>
           {| daysBefore := Z.of_nat d;
              rate := match ratesAt m (Z.of_nat d) with
                      | [] => ofZ 0
                      | rates => medianOf rates
                      end |})
        (seq 0 90).
Proof.
  unfold medianRatesOf.
  rewrite (map_ext
             (fun d =>
                match m !! Z.of_nat d with
                | Some ((_ :: _) as rates) =>
                    {| daysBefore := Z.of_nat d; rate := medianOf rates |}
                | _ => {| daysBefore := Z.of_nat d; rate := ofZ 0 |}
                end)
             (fun d =>
                {| daysBefore := Z.of_nat d;
                   rate := match ratesAt m (Z.of_nat d) with
                           | [] => ofZ 0
                           | rates => medianOf rates
                           end |})).
  - apply sort_sorted, medianRates_sorted.
  - intros d. unfold ratesAt. destruct (m !! Z.of_nat d) as [[|x r]|];
      reflexivity.
Qed.

Lemma imap_daysBefore (g : nat -> DailyGrowthRate -> DailyGrowthRate)
      (l : list DailyGrowthRate) :
  (forall i x, daysBefore (g i x) = daysBefore x) ->
  map daysBefore (imap g l) = map daysBefore l.
Proof.
  revert g. induction l as [|x l IH]; intros g Hg; cbn; [reflexivity|].
  rewrite Hg. f_equal. apply IH. intros i y. apply Hg.
Qed.

Lemma smoothedRatesOf_days (medianRates : list DailyGrowthRate) :
  map daysBefore (smoothedRatesOf medianRates) = map daysBefore medianRates.
Proof. unfold smoothedRatesOf. apply imap_daysBefore. reflexivity. Qed.

Lemma rateAt_outside (curve : list DailyGrowthRate) (d : Z) :
  ~ In d (map daysBefore curve) -> rateAt curve d = ofZ 0.
Proof.
  unfold rateAt. intros Hn.
  destruct (find _ curve) as [r|] eqn:F; [|reflexivity].
  apply find_some in F. destruct F as [Hr E]. apply Z.eqb_eq in E.
  exfalso. apply Hn. rewrite <- E. now apply in_map.
Qed.

Lemma In_curveDays (d : Z) : In d curveDays <-> 0 <= d <= 89.
Proof.
  unfold curveDays. rewrite in_map_iff. split.
  - intros (n & <- & Hn). apply in_seq in Hn. lia.
  - intros Hd. exists (Z.to_nat d). split; [lia|]. apply in_seq. lia.
Qed.

(** X5.  Both curves of [calculateGrowthRates] have exactly one entry
    for each day 0, 1, ..., 89, in that order, whatever the training
    months; the backtest's curve likewise.  So the rate looked up for a
    day outside 0..89 is 0 in every curve: compounding over such days
    changes nothing. *)
Theorem growth_curves_days
        (a : Analyzer) (b : Backtest.BacktestAnalyzer)
        (months : list string) (d : Z) :
  map daysBefore (snd (calculateGrowthRates a months)) = curveDays
  /\ map daysBefore (medianGrowthRates (fst (calculateGrowthRates a months)))
     = curveDays
  /\ map daysBefore (Backtest.calculateGrowthRates b months) = curveDays
  /\ (~ 0 <= d <= 89 ->
      rateAt (snd (calculateGrowthRates a months)) d = ofZ 0
      /\ rateAt (medianGrowthRates (fst (calculateGrowthRates a months))) d
         = ofZ 0
      /\ rateAt (Backtest.calculateGrowthRates b months) d = ofZ 0).
Proof.
  assert (M : forall m, map daysBefore (medianRatesOf m) = curveDays).
  { intros m. rewrite medianRatesOf_entries, map_map. reflexivity. }
  assert (S1 : map daysBefore (snd (calculateGrowthRates a months)) = curveDays).
  { unfold calculateGrowthRates. cbn [snd].
    now rewrite smoothedRatesOf_days, M. }
  assert (S2 : map daysBefore
                   (medianGrowthRates (fst (calculateGrowthRates a months)))
               = curveDays).
  { unfold calculateGrowthRates. cbn [fst].
    unfold with_medianGrowthRates. cbn [medianGrowthRates]. apply M. }
  assert (S3 : map daysBefore (Backtest.calculateGrowthRates b months)
               = curveDays).
  { unfold Backtest.calculateGrowthRates.
    now rewrite smoothedRatesOf_days, M. }
  repeat split; auto;
    apply rateAt_outside; rewrite ?S1, ?S2, ?S3, In_curveDays; assumption.
Qed.

Lemma find_seq_day (f : nat -> num) (d s n : nat) :
  (s <= d < s + n)%nat ->
  find (fun r => daysBefore r =? Z.of_nat d)
       (map (fun k => {| daysBefore := Z.of_nat k; rate := f k |}) (seq s n))
  = Some {| daysBefore := Z.of_nat d; rate := f d |}.
Proof.
  revert s. induction n as [|n IH]; intros s Hd; [lia|]. cbn.
  destruct (Z.of_nat s =? Z.of_nat d) eqn:E.
  - apply Z.eqb_eq in E. apply Nat2Z.inj in E. now subst.
  - apply Z.eqb_neq in E. apply IH. lia.
Qed.

(** X6.  The median curve at a day of 0..89 is the median of the rates
    collected for that day, and exactly 0 when none was collected; with
    no training month, or with training months that are not in the
    data, it is 0 on every day. *)
Theorem median_curve_lookup
        (data : MonthData) (months : list string) (day : Z) :
  0 <= day <= 89 ->
  rateAt (medianRatesOf (collectRates data months)) day
  = match ratesAt (collectRates data months) day with
    | [] => ofZ 0
    | rates => medianOf rates
    end
  /\ ((forall k, In k months -> dget k data = None) ->
      rateAt (medianRatesOf (collectRates data months)) day = ofZ 0).
Proof.
  intros Hd.
  assert (E : rateAt (medianRatesOf (collectRates data months)) day
              = match ratesAt (collectRates data months) day with
                | [] => ofZ 0
                | rates => medianOf rates
                end).
  { assert (Ed : exists d, day = Z.of_nat d /\ (d < 90)%nat).
    { exists (Z.to_nat day). lia. }
    destruct Ed as (d & -> & Hlt).
    rewrite medianRatesOf_entries. unfold rateAt.
    rewrite (find_seq_day
               (fun k => match ratesAt (collectRates data months) (Z.of_nat k)
                         with [] => ofZ 0 | rates => medianOf rates end)
               d 0 90) by lia.
    reflexivity. }
  split; [exact E|].
  intros Hnone. rewrite E.
  destruct (ratesAt (collectRates data months) day) as [|g l] eqn:R;
    [reflexivity|].
  exfalso.
  destruct (collected_rate_month data months day g) as (k & Hk & Ek).
  { rewrite R. now left. }
  apply Ek, Hnone, Hk.
Qed.

End GrowthFurther.

(* ================================================================== *)
(** ** Facts about dictionaries *)

Section DictFacts.
Context {V : Type}.

Lemma dget_dset_eq (k : string) (v : V) (d : dict V) :
  dget k (dset k v d) = Some v.
Proof.
  induction d as [|[k' v'] r IH]; cbn.
  - now rewrite String.eqb_refl.
  - destruct (String.eqb k' k) eqn:E; cbn; rewrite E; [reflexivity | exact IH].
Qed.

Lemma dget_dset_ne (k k' : string) (v : V) (d : dict V) :
  k <> k' -> dget k' (dset k v d) = dget k' d.
Proof.
  intros Hne. induction d as [|[k0 v0] r IH]; cbn.
  - destruct (String.eqb k k') eqn:E; [|reflexivity].
    apply String.eqb_eq in E. contradiction.
  - destruct (String.eqb k0 k) eqn:E; cbn.
    + apply String.eqb_eq in E. subst k0.
      destruct (String.eqb k k') eqn:E'; [|reflexivity].
      apply String.eqb_eq in E'. contradiction.
    + destruct (String.eqb k0 k'); [reflexivity | exact IH].
Qed.

Lemma dget_In_keys (k : string) (d : dict V) :
  In k (keys d) <-> exists v, dget k d = Some v.
Proof.
  induction d as [|[k' v'] r IH]; cbn.
  - split; [intros [] | intros [v E]; discriminate].
  - destruct (String.eqb k' k) eqn:E.
    + apply String.eqb_eq in E. split; eauto.
    + apply String.eqb_neq in E. rewrite <- IH. split; [|auto].
      intros [C | C]; [contradiction | exact C].
Qed.

Lemma dget_map {W} (f : V -> W) (k : string) (d : dict V) :
  dget k (map (fun kv => (fst kv, f (snd kv))) d) = option_map f (dget k d).
Proof.
  induction d as [|[k' v'] r IH]; cbn; [reflexivity|].
  destruct (String.eqb k' k); [reflexivity | exact IH].
Qed.

End DictFacts.

(* ================================================================== *)
(** ** Further properties of the trajectories *)

Section TrajectoryFurther.
Context `{N : Number} `{H : Host}.
Import JsString JsDate.

(** X7.  After [aggregateDataByMonth], whatever the rows and whatever
    the analyzer held before, every month's trajectory is in descending
    order of [daysBeforeClose], that is, chronological. *)
Theorem aggregated_trajectories_descending
        (rows : list ProcessedRow) (data out : MonthData)
        (k : string) (traj : list AggregatedSnapshot) :
  aggregateDataByMonth rows data = Some out ->
  dget k out = Some traj ->
  StronglySorted (fun p q => daysBeforeClose q <= daysBeforeClose p) traj.
Proof.
  unfold aggregateDataByMonth. intros E Hk.
  destruct (dailyAggregates _ _) as [daily|]; [|discriminate].
  destruct (pushAggregates _ _) as [pushed|]; [|discriminate].
  injection E as <-. rewrite dget_map in Hk.
  destruct (dget k pushed) as [l|]; [|discriminate].
  injection Hk as <-.
  apply Sorted_StronglySorted; [intros x y z; lia|].
  pose proof (sort_Sorted
                (fun a b : AggregatedSnapshot =>
                   daysBeforeClose b - daysBeforeClose a >? 0)) as S.
  eapply Sorted_ind with (P := fun l0 => Sorted _ l0);
    [constructor | | apply S].
  - intros a l0 _ IH Hd. constructor; [exact IH|].
    destruct Hd as [|b l1 Hb]; constructor.
    unfold notAfter in Hb. rewrite Z.gtb_ltb in Hb. apply Z.ltb_ge in Hb. lia.
  - intros a b Hab. rewrite Z.gtb_ltb in Hab. apply Z.ltb_lt in Hab.
    rewrite Z.gtb_ltb. apply Z.ltb_ge. lia.
Qed.

Lemma nearest_fold (key : AggregatedSnapshot -> Z)
      (l : list AggregatedSnapshot) (x : AggregatedSnapshot) :
  let b := fold_left
             (fun best point => if key point <? key best then point else best)
             l x in
  In b (x :: l) /\ forall q, In q (x :: l) -> key b <= key q.
Proof.
  revert x. induction l as [|y l IH]; intros x; cbn.
  - split; [now left|]. intros q [<- | []]. lia.
  - destruct (key y <? key x) eqn:E.
    + apply Z.ltb_lt in E. destruct (IH y) as [I1 I2]. cbn in I1.
      split; [now right|].
      intros q [<- | Hq]; [|now apply I2].
      specialize (I2 y ltac:(now left)). lia.
    + apply Z.ltb_ge in E. destruct (IH x) as [I1 I2]. cbn in I1.
      split; [destruct I1; auto|].
      intros q [<- | [<- | Hq]].
      * apply I2. now left.
      * specialize (I2 x ltac:(now left)). lia.
      * apply I2. now right.
Qed.

Lemma getTrajectoryAtDaysBefore_within
      (monthData : list AggregatedSnapshot) (targetDays : Z)
      (p : AggregatedSnapshot) :
  getTrajectoryAtDaysBefore monthData targetDays = Some p ->
  Z.abs (daysBeforeClose p - targetDays) <= 3.
Proof.
  unfold getTrajectoryAtDaysBefore.
  destruct (reduce1 _ monthData) as [b|]; [|discriminate].
  destruct (Z.abs (daysBeforeClose b - targetDays) <=? 3) eqn:E;
    [|discriminate].
  intros [= <-]. now apply Z.leb_le.
Qed.

(** X8.  [getTrajectoryAtDaysBefore] returns a point of the trajectory
    that is nearest to the target day, and only if it is within 3 days
    of it; it returns nothing exactly when the trajectory is empty or
    every point is more than 3 days from the target. *)
Theorem getTrajectoryAtDaysBefore_nearest
        (monthData : list AggregatedSnapshot) (targetDays : Z) :
  match getTrajectoryAtDaysBefore monthData targetDays with
  | Some p =>
      In p monthData
      /\ Z.abs (daysBeforeClose p - targetDays) <= 3
      /\ forall q, In q monthData ->
                   Z.abs (daysBeforeClose p - targetDays)
                   <= Z.abs (daysBeforeClose q - targetDays)
  | None =>
      forall q, In q monthData -> 3 < Z.abs (daysBeforeClose q - targetDays)
  end.
Proof.
  unfold getTrajectoryAtDaysBefore, reduce1.
  destruct monthData as [|x l]; [intros q []|].
  destruct (nearest_fold (fun p => Z.abs (daysBeforeClose p - targetDays))
                         l x) as [I1 I2].
  cbv beta in I1, I2.
  set (b := fold_left _ l x) in *.
  destruct (Z.abs (daysBeforeClose b - targetDays) <=? 3) eqn:E.
  - apply Z.leb_le in E. auto.
  - apply Z.leb_gt in E. intros q Hq. specialize (I2 q Hq). lia.
Qed.

Lemma closing_fold (data : MonthData) (ks : list string)
      (closing : dict Totals) (k : string) :
  dget k
    (fold_left
       (fun acc monthKey =>
          match dget monthKey data with
          | Some monthData =>
              match closingValuePoint monthData with
              | Some point =>
                  if Z.abs (daysBeforeClose point) <=? 5
                  then dset monthKey {| raw := rawPipeline point;
                                        weighted := weightedPipeline point |} acc
                  else acc
              | None => acc
              end
          | None => acc
          end) ks closing)
  = if existsb (String.eqb k) ks then
      match dget k data with
      | Some monthData =>
          match closingValuePoint monthData with
          | Some point =>
              if Z.abs (daysBeforeClose point) <=? 5
              then Some {| raw := rawPipeline point;
                           weighted := weightedPipeline point |}
              else dget k closing
          | None => dget k closing
          end
      | None => dget k closing
      end
    else dget k closing.
Proof.
  revert closing. induction ks as [|k0 ks IH]; intros closing; cbn;
    [reflexivity|].
  rewrite IH. clear IH.
  destruct (String.eqb k k0) eqn:E.
  - apply String.eqb_eq in E. subst k0. cbn.
    destruct (dget k data) as [md|]; [|now destruct (existsb _ ks)].
    destruct (closingValuePoint md) as [pt|]; [|now destruct (existsb _ ks)].
    destruct (Z.abs (daysBeforeClose pt) <=? 5);
      [|now destruct (existsb _ ks)].
    rewrite dget_dset_eq. now destruct (existsb _ ks).
  - apply String.eqb_neq in E. cbn.
    assert (K : dget k
                  match dget k0 data with
                  | Some monthData =>
                      match closingValuePoint monthData with
                      | Some point =>
                          if Z.abs (daysBeforeClose point) <=? 5
                          then dset k0 {| raw := rawPipeline point;
                                          weighted := weightedPipeline point |}
                                    closing
                          else closing
                      | None => closing
                      end
                  | None => closing
                  end = dget k closing).
    { destruct (dget k0 data) as [md|]; [|reflexivity].
      destruct (closingValuePoint md) as [pt|]; [|reflexivity].
      destruct (Z.abs (daysBeforeClose pt) <=? 5); [|reflexivity].
      apply dget_dset_ne. congruence. }
    rewrite K. reflexivity.
Qed.

Lemma existsb_keys {V} (k : string) (d : dict V) :
  existsb (String.eqb k) (keys d) = true <-> exists v, dget k d = Some v.
Proof.
  rewrite <- dget_In_keys, existsb_exists. split.
  - intros (x & Hx & E). apply String.eqb_eq in E. now subst.
  - intros Hk. exists k. split; [exact Hk | apply String.eqb_refl].
Qed.

(** X9.  The actual closing value of a month is taken from a point of
    its trajectory that is nearest to day 0, and only if that point is
    within 5 days of it; a month whose trajectory is empty or has no
    point within 5 days of the close gets no closing value (an entry
    already present is left as it is), and months that are not in the
    data are not touched. *)
Theorem actual_closing_value
        (data : MonthData) (closing : dict Totals) (k : string) :
  match dget k data with
  | Some monthData =>
      match closingValuePoint monthData with
      | Some point =>
          In point monthData
          /\ (forall q, In q monthData ->
                        Z.abs (daysBeforeClose point)
                        <= Z.abs (daysBeforeClose q))
          /\ dget k (calculateActualClosingValues data closing)
             = if Z.abs (daysBeforeClose point) <=? 5
               then Some {| raw := rawPipeline point;
                            weighted := weightedPipeline point |}
               else dget k closing
      | None =>
          monthData = []
          /\ dget k (calculateActualClosingValues data closing)
             = dget k closing
      end
  | None =>
      dget k (calculateActualClosingValues data closing) = dget k closing
  end.
Proof.
  unfold calculateActualClosingValues. rewrite closing_fold.
  destruct (dget k data) as [md|] eqn:Ed.
  - assert (Ek : existsb (String.eqb k) (keys data) = true)
      by (apply existsb_keys; eauto).
    rewrite Ek.
    destruct (closingValuePoint md) as [pt|] eqn:Ep.
    + unfold closingValuePoint, reduce1 in Ep.
      destruct md as [|x l]; [discriminate|]. injection Ep as Ep.
      destruct (nearest_fold (fun p => Z.abs (daysBeforeClose p)) l x)
        as [K1 K2].
      cbv beta in K1, K2. rewrite Ep in K1, K2.
      split; [exact K1|]. split; [exact K2 | reflexivity].
    + destruct md; [auto | discriminate].
  - now destruct (existsb _ _).
Qed.

End TrajectoryFurther.

(* ================================================================== *)
(** ** Further properties of the classification of months *)

Section ClassifierFurther.
Context `{N : Number} `{H : Host}.
Import JsString JsDate.

Lemma existsb_eqb_In (m : string) (l : list string) :
  existsb (String.eqb m) l = true <-> In m l.
Proof.
  rewrite existsb_exists. split.
  - intros (x & Hx & E). apply String.eqb_eq in E. now subst.
  - intros Hm. exists m. split; [exact Hm | apply String.eqb_refl].
Qed.

Lemma filter_perm {A} (f : A -> bool) (l l' : list A) :
  Permutation l l' -> Permutation (List.filter f l) (List.filter f l').
Proof.
  induction 1 as [| x l l' _ IH | x y l | l l' l'' _ IH1 _ IH2]; cbn.
  - reflexivity.
  - destruct (f x); [now constructor | exact IH].
  - destruct (f x), (f y); try reflexivity. apply perm_swap.
  - etransitivity; eassumption.
Qed.

Lemma categorizeMonths_historical
      (data : MonthData) (closing : dict Totals) (m : string) :
  In m (fst (categorizeMonths data closing))
  <-> In m (keys data) /\ isHistorical now closing m = true.
Proof.
  unfold categorizeMonths. cbn [fst].
  rewrite filter_In. split; intros [Hin E]; (split; [|exact E]);
    revert Hin; apply Permutation_in;
    [apply sort_perm | symmetry; apply sort_perm].
Qed.

Lemma categorizeMonths_current
      (data : MonthData) (closing : dict Totals) (m : string) :
  In m (snd (categorizeMonths data closing))
  <-> In m (keys data) /\ isHistorical now closing m = false.
Proof.
  pose proof (categorizeMonths_historical data closing m) as Hh.
  unfold categorizeMonths in *. cbn [fst snd] in *.
  set (allMonths := sort (fun a b => String.ltb b a) (keys data)) in *.
  set (historical := List.filter (isHistorical now closing) allMonths) in *.
  assert (A : In m allMonths <-> In m (keys data)).
  { split; apply Permutation_in;
      [apply sort_perm | symmetry; apply sort_perm]. }
  split.
  - intros Hin. apply (Permutation_in _ (sort_perm _ _)) in Hin.
    apply filter_In in Hin. destruct Hin as [Hin Hn].
    apply A in Hin. split; [exact Hin|].
    destruct (isHistorical now closing m) eqn:E; [|reflexivity].
    apply negb_true_iff in Hn.
    assert (Hm : In m historical) by (apply Hh; auto).
    apply existsb_eqb_In in Hm. congruence.
  - intros [Hin Hf].
    apply (Permutation_in _ (Permutation_sym (sort_perm _ _))).
    apply filter_In. split; [now apply A|].
    apply negb_true_iff.
    destruct (existsb (String.eqb m) historical) eqn:E; [|reflexivity].
    apply existsb_eqb_In in E. apply Hh in E. destruct E. congruence.
Qed.

(** X10.  [categorizeMonths] splits the months of the data in two:
    every month key is historical or current and none is both; the
    historical ones are exactly those whose closing day is before
    today and that have an actual closing value with weighted value
    [> 0]. *)
Theorem categorizeMonths_partition
        (data : MonthData) (closing : dict Totals) (m : string) :
  let historical := fst (categorizeMonths data closing) in
  let current := snd (categorizeMonths data closing) in
  (In m (keys data) <-> In m historical \/ In m current)
  /\ ~ (In m historical /\ In m current)
  /\ (In m historical
      <-> In m (keys data) /\ isHistorical now closing m = true)
  /\ (In m current
      <-> In m (keys data) /\ isHistorical now closing m = false).
Proof.
  intros historical current.
  pose proof (categorizeMonths_historical data closing m) as Hh.
  pose proof (categorizeMonths_current data closing m) as Hc.
  fold historical in Hh. fold current in Hc.
  split; [|split; [|split; [exact Hh | exact Hc]]].
  - rewrite Hh, Hc. split.
    + intros Hin. destruct (isHistorical now closing m); auto.
    + intros [[Hin _] | [Hin _]]; exact Hin.
  - rewrite Hh, Hc. intros [[_ E1] [_ E2]]. congruence.
Qed.

(** X11.  The two analyzers agree on which months are historical: the
    list computed by [BacktestAnalyzer] from the aggregated data and the
    closing values is a reordering of the one computed by
    [NewPipelineTrajectoryAnalyzer] (the first is ordered by date, the
    second by key). *)
Theorem analyzers_agree_on_historical_months
        (data : MonthData) (closing : dict Totals) :
  Permutation (fst (categorizeMonths data closing))
              (Backtest.categorizeMonths data closing).
Proof.
  unfold categorizeMonths, Backtest.categorizeMonths. cbn [fst].
  etransitivity; [apply filter_perm, sort_perm|].
  symmetry. apply sort_perm.
Qed.

End ClassifierFurther.

(* ================================================================== *)
(** ** Further properties of the projections *)

Section ProjectionFurther.
Context `{N : Number} `{H : Host}.
Import JsString JsDate.

Lemma latest_fold {A} (key : A -> Z) (l : list A) (x : A) :
  let b := fold_left
             (fun latest current =>
                if key current >? key latest then current else latest) l x in
  In b (x :: l) /\ forall q, In q (x :: l) -> key q <= key b.
Proof.
  revert x. induction l as [|y l IH]; intros x; cbn.
  - split; [now left|]. intros q [<- | []]. lia.
  - destruct (key y >? key x) eqn:E; rewrite Z.gtb_ltb in E.
    + apply Z.ltb_lt in E. destruct (IH y) as [I1 I2]. cbn in I1.
      split; [now right|].
      intros q [<- | Hq]; [|now apply I2].
      specialize (I2 y ltac:(now left)). lia.
    + apply Z.ltb_ge in E. destruct (IH x) as [I1 I2]. cbn in I1.
      split; [destruct I1; auto|].
      intros q [<- | [<- | Hq]].
      * apply I2. now left.
      * specialize (I2 x ltac:(now left)). lia.
      * apply I2. now right.
Qed.

Lemma compoundSteps_length rateOf v ds :
  length (compoundSteps rateOf v ds) = length ds.
Proof. revert v. induction ds; intros v; cbn; [reflexivity | now rewrite IHds]. Qed.

Lemma compoundSteps_last_cons rateOf v d ds dflt :
  List.last (compoundSteps rateOf v (d :: ds)) dflt
  = compound rateOf v (d :: ds).
Proof.
  revert v d. induction ds as [|d' ds IH]; intros v d; [reflexivity|].
  change (compound rateOf v (d :: d' :: ds))
    with (compound rateOf (v * (ofZ 1 + rateOf d))%num (d' :: ds)).
  rewrite <- (IH (v * (ofZ 1 + rateOf d))%num d'). reflexivity.
Qed.

Lemma compoundSteps_last rateOf v ds :
  List.last (compoundSteps rateOf v ds) v = compound rateOf v ds.
Proof.
  destruct ds as [|d ds]; [reflexivity | apply compoundSteps_last_cons].
Qed.

Lemma daysAfter_shift (t : Z) (n : nat) :
  daysAfter t (S n) = (t + msPerDay) :: daysAfter (t + msPerDay) n.
Proof.
  unfold daysAfter. cbn [seq map]. rewrite <- seq_shift, map_map.
  replace (t + (Z.of_nat 0 + 1) * msPerDay) with (t + msPerDay) by lia.
  f_equal. apply map_ext. intros i. lia.
Qed.

(** The loop of [getForecast] and of [generateGoalSeekTrajectory]. *)
Lemma projectStep_fold (rateOf : Z -> num) (ds : list Z) (v : num) (t : Z)
      (pts : list NewTrajectoryPoint) :
  exists news,
    fold_left (projectStep rateOf) ds (v, t, pts)
    = (compound rateOf v ds, t + Z.of_nat (length ds) * msPerDay, pts ++ news)
    /\ map t_daysBeforeClose news = ds
    /\ map t_snapshotDate news = daysAfter t (length ds)
    /\ map t_weightedAmount news = compoundSteps rateOf v ds
    /\ Forall (fun p => t_rawAmount p = ofZ 0) news.
Proof.
  revert v t pts. induction ds as [|d ds IH]; intros v t pts.
  - exists []. cbn. rewrite app_nil_r, Z.add_0_r. repeat split. constructor.
  - cbn [fold_left projectStep].
    destruct (IH (v * (ofZ 1 + rateOf d))%num (t + msPerDay)
                 (pts ++ [{| t_snapshotDate := t + msPerDay;
                             t_daysBeforeClose := d;
                             t_weightedAmount := (v * (ofZ 1 + rateOf d))%num;
                             t_rawAmount := ofZ 0 |}]))
      as (news & E & D & S & W & R).
    eexists (_ :: news). rewrite E. split; [|split; [|split; [|split]]].
    + rewrite <- app_assoc. cbn [app length]. f_equal. f_equal. lia.
    + cbn. now rewrite D.
    + cbn [map t_snapshotDate length]. now rewrite daysAfter_shift, S.
    + cbn. now rewrite W.
    + constructor; [reflexivity | exact R].
Qed.

Lemma countdown_length (n : Z) : length (countdown n) = Z.to_nat n.
Proof. unfold countdown. now rewrite length_map, length_seq. Qed.

Lemma countdown_In (n d : Z) : In d (countdown n) <-> 0 <= d < n.
Proof.
  unfold countdown. rewrite in_map_iff. split.
  - intros (k & <- & Hk). apply in_seq in Hk. lia.
  - intros Hd. exists (Z.to_nat (n - 1 - d)). split; [lia|]. apply in_seq. lia.
Qed.

(** X12.  For a current month with data, the latest snapshot is a point
    of the trajectory with the greatest snapshot date.  With at most 89
    days to close, the forecast is the latest weighted value compounded
    through the smoothed rates of the days [daysToClose - 1, ..., 0], in
    that order; the forecast trajectory has one point for each of these
    days, dated 1, 2, ... days after the latest snapshot, with raw
    amount 0, its weighted amounts being the values reached day after
    day, the last one the forecast.  After the closing day
    ([daysToClose <= 0]) the forecast is the latest weighted value. *)
Theorem forecast_projection
        (a : Analyzer) (monthKey : string)
        (monthData : list AggregatedSnapshot) (latest : AggregatedSnapshot) :
  dget monthKey (aggregatedDataByMonth a) = Some monthData ->
  latestSnapshotOf monthData = Some latest ->
  daysBeforeClose latest <= 89 ->
  let r := forecastMonth a monthKey in
  let days := countdown (daysBeforeClose latest) in
  let rateOf := rateAt (forecastGrowthRates a) in
  In latest monthData
  /\ (forall q, In q monthData -> snapshotDate q <= snapshotDate latest)
  /\ trajectory r = map toTrajectoryPoint monthData
  /\ forecast r = Some (compound rateOf (weightedPipeline latest) days)
  /\ map t_daysBeforeClose (forecastTrajectory r) = days
  /\ map t_snapshotDate (forecastTrajectory r)
     = daysAfter (snapshotDate latest) (length days)
  /\ map t_weightedAmount (forecastTrajectory r)
     = compoundSteps rateOf (weightedPipeline latest) days
  /\ Forall (fun p => t_rawAmount p = ofZ 0) (forecastTrajectory r)
  /\ forecast r
     = Some (List.last (map t_weightedAmount (forecastTrajectory r))
                       (weightedPipeline latest))
  /\ (daysBeforeClose latest <= 0 ->
      forecast r = Some (weightedPipeline latest)).
Proof.
  intros Hd Hl Hdays r days rateOf.
  assert (L : In latest monthData
              /\ forall q, In q monthData -> snapshotDate q <= snapshotDate latest).
  { unfold latestSnapshotOf, reduce1 in Hl.
    destruct monthData as [|x l]; [discriminate|]. injection Hl as Hl.
    destruct (latest_fold snapshotDate l x) as [K1 K2].
    cbv beta in K1, K2. rewrite Hl in K1, K2. auto. }
  destruct L as [L1 L2]. split; [exact L1|]. split; [exact L2|].
  subst r. unfold forecastMonth. rewrite Hd.
  destruct monthData as [|p rest]; [destruct L1|].
  rewrite Hl.
  destruct (daysBeforeClose latest >? 89) eqn:G; [lia|].
  destruct (projectStep_fold rateOf days (weightedPipeline latest)
                             (snapshotDate latest) [])
    as (news & E & D & S & W & R).
  fold rateOf. fold days. rewrite E.
  cbn [trajectory forecast forecastTrajectory app].
  split; [reflexivity|]. split; [reflexivity|]. split; [exact D|].
  split; [exact S|]. split; [exact W|]. split; [exact R|].
  split.
  - rewrite W, compoundSteps_last. reflexivity.
  - intros Hz. subst days. unfold countdown.
    replace (Z.to_nat (daysBeforeClose latest)) with 0%nat by lia.
    reflexivity.
Qed.

(** X13.  Goal-seek never alters the points it is given: its result is
    the original trajectory followed by the projected points.  When it
    does not refuse, the projected points are one for each day
    [daysToClose - 1, ..., 0], dated 1, 2, ... days after the latest
    point, with raw amount 0, and their weighted amounts are the
    starting value compounded day after day through the base rate plus
    the required daily lift; the latest point itself is not
    repeated. *)
Theorem goalSeek_appends_projection
        (a : Analyzer) (originalTrajectory : list NewTrajectoryPoint)
        (goalValue : num) (latestPoint : NewTrajectoryPoint) :
  latestPointOf originalTrajectory = Some latestPoint ->
  let startingValue := t_weightedAmount latestPoint in
  let daysToClose := t_daysBeforeClose latestPoint in
  let baseForecast := baseForecastOf a startingValue daysToClose in
  let lift := requiredDailyLiftOf goalValue baseForecast daysToClose in
  let rateOf := fun d => (rateAt (forecastGrowthRates a) d + lift)%num in
  In latestPoint originalTrajectory
  /\ (forall q, In q originalTrajectory ->
                t_snapshotDate q <= t_snapshotDate latestPoint)
  /\ exists news,
      generateGoalSeekTrajectory a originalTrajectory goalValue
      = originalTrajectory ++ news
      /\ ((startingValue <=? ofZ 0)%num = false ->
          0 < daysToClose ->
          (baseForecast <=? ofZ 0)%num = false ->
          map t_daysBeforeClose news = countdown daysToClose
          /\ map t_snapshotDate news
             = daysAfter (t_snapshotDate latestPoint) (Z.to_nat daysToClose)
          /\ map t_weightedAmount news
             = compoundSteps rateOf startingValue (countdown daysToClose)
          /\ Forall (fun p => t_rawAmount p = ofZ 0) news).
Proof.
  intros Hl startingValue daysToClose baseForecast lift rateOf.
  assert (L : In latestPoint originalTrajectory
              /\ forall q, In q originalTrajectory ->
                           t_snapshotDate q <= t_snapshotDate latestPoint).
  { unfold latestPointOf, reduce1 in Hl.
    destruct originalTrajectory as [|x l]; [discriminate|]. injection Hl as Hl.
    destruct (latest_fold t_snapshotDate l x) as [K1 K2].
    cbv beta in K1, K2. rewrite Hl in K1, K2. auto. }
  destruct L as [L1 L2]. split; [exact L1|]. split; [exact L2|].
  unfold generateGoalSeekTrajectory. rewrite Hl.
  fold startingValue. fold daysToClose. fold baseForecast. fold lift.
  destruct (startingValue <=? ofZ 0)%num eqn:V.
  { exists []. rewrite app_nil_r. split; [reflexivity | discriminate]. }
  destruct (daysToClose <=? 0) eqn:D.
  { exists []. rewrite app_nil_r. split; [reflexivity|].
    apply Z.leb_le in D. intros; lia. }
  cbv [orb].
  destruct (baseForecast <=? ofZ 0)%num eqn:B.
  { exists []. rewrite app_nil_r. split; [reflexivity | discriminate]. }
  destruct (projectStep_fold rateOf (countdown daysToClose) startingValue
                             (t_snapshotDate latestPoint) [latestPoint])
    as (news & E & Dn & S & W & R).
  fold rateOf. rewrite E.
  exists news. split.
  - f_equal. cbn [app List.filter].
    fold daysToClose. rewrite Z.ltb_irrefl.
    apply forallb_filter_id. apply forallb_forall. intros p Hp.
    apply Z.ltb_lt.
    assert (Hd : In (t_daysBeforeClose p) (countdown daysToClose)).
    { rewrite <- Dn. now apply in_map. }
    apply countdown_In in Hd. lia.
  - intros _ _ _. rewrite countdown_length in S. auto.
Qed.

End ProjectionFurther.

(* ================================================================== *)
(** ** Further properties of the appendix, the backtest, the similar
       months and the peaks *)

Section ReportsFurther.
Context `{N : Number} `{H : Host}.
Import JsString JsDate.

(** The loop of [getAppendixData]. *)
Lemma breakdownStep_fold (rateOf : Z -> num) (ds : list Z) (v : num) (t : Z)
      (acc : list ForecastDay) :
  exists news,
    fold_left (breakdownStep rateOf) ds (v, t, acc)
    = (compound rateOf v ds, t + Z.of_nat (length ds) * msPerDay, acc ++ news)
    /\ map fd_daysBefore news = ds
    /\ map fd_endValue news = compoundSteps rateOf v ds
    /\ Forall (fun e => fd_growthRate e = rateOf (fd_daysBefore e)
                        /\ fd_endValue e
                           = (fd_startValue e * (ofZ 1 + fd_growthRate e))%num)
              news.
Proof.
  revert v t acc. induction ds as [|d ds IH]; intros v t acc.
  - exists []. cbn. rewrite app_nil_r, Z.add_0_r. repeat split. constructor.
  - cbn [fold_left breakdownStep].
    destruct (IH (v * (ofZ 1 + rateOf d))%num (t + msPerDay)
                 (acc ++ [{| fd_date :=
                               nth 0 (split "T" (toISOString (t + msPerDay)))
                                   EmptyString;
                             fd_daysBefore := d;
                             fd_startValue := v;
                             fd_growthRate := rateOf d;
                             fd_endValue := (v * (ofZ 1 + rateOf d))%num |}]))
      as (news & E & D & W & R).
    eexists (_ :: news). rewrite E. split; [|split; [|split]].
    + rewrite <- app_assoc. cbn [app length]. f_equal. f_equal. lia.
    + cbn. now rewrite D.
    + cbn. now rewrite W.
    + constructor; [split; reflexivity | exact R].
Qed.

Lemma forecastMonth_compound (a : Analyzer) (monthKey : string) (f : num) :
  forecast (forecastMonth a monthKey) = Some f ->
  f = compound (rateAt (forecastGrowthRates a))
               (currentWeightedValue (forecastMonth a monthKey))
               (countdown (daysToClose (forecastMonth a monthKey)))
  /\ month (forecastMonth a monthKey) = monthKey.
Proof.
  unfold forecastMonth.
  destruct (dget monthKey (aggregatedDataByMonth a)) as [[|p rest]|];
    [discriminate| |discriminate].
  destruct (latestSnapshotOf (p :: rest)) as [latest|]; [|discriminate].
  destruct (daysBeforeClose latest >? 89); [discriminate|].
  destruct (projectStep_fold (rateAt (forecastGrowthRates a))
                             (countdown (daysBeforeClose latest))
                             (weightedPipeline latest)
                             (snapshotDate latest) [])
    as (news & E & _).
  rewrite E. cbn [forecast currentWeightedValue daysToClose month].
  intros [= <-]. split; reflexivity.
Qed.

Lemma last_of_map {A B} (f : A -> B) (l : list A) (d : A) (d' : B) :
  l <> [] -> List.last (map f l) d' = f (List.last l d).
Proof.
  intros Hl. destruct (exists_last Hl) as (l' & x & ->).
  rewrite map_app. cbn [map]. now rewrite !last_last.
Qed.

Lemma rev_head_last {A} (l : list A) (d : A) :
  l <> [] -> exists rest, rev l = List.last l d :: rest.
Proof.
  intros Hl. destruct (exists_last Hl) as (l' & x & ->).
  rewrite rev_app_distr, last_last. cbn. eauto.
Qed.

(** X14.  Every forecast calculation of the appendix belongs to a
    current month whose forecast is truthy and which has at least one
    day to close; its end value is the forecast of [getForecast]; its
    daily breakdown lists the days 0, 1, ..., [daysToClose - 1] in
    ascending order, each entry ending at its start value times one plus
    its growth rate, and the entry of day 0 ends exactly at the
    forecast. *)
Theorem appendix_ends_at_forecast (a : Analyzer) (fc : ForecastCalculation) :
  In fc (forecastCalculations (getAppendixData a)) ->
  exists monthKey e rest,
    In monthKey (currentMonths a)
    /\ fc_month fc = monthKey
    /\ forecast (forecastMonth a monthKey) = Some (fc_endValue fc)
    /\ truthy (fc_endValue fc) = true
    /\ fc_startValue fc = currentWeightedValue (forecastMonth a monthKey)
    /\ fc_daysToClose fc = daysToClose (forecastMonth a monthKey)
    /\ 1 <= fc_daysToClose fc
    /\ map fd_daysBefore (dailyBreakdown fc) = rev (countdown (fc_daysToClose fc))
    /\ Forall (fun x => fd_endValue x
                        = (fd_startValue x * (ofZ 1 + fd_growthRate x))%num
                        /\ fd_growthRate x
                           = rateAt (forecastGrowthRates a) (fd_daysBefore x))
              (dailyBreakdown fc)
    /\ dailyBreakdown fc = e :: rest
    /\ fd_daysBefore e = 0
    /\ fd_endValue e = fc_endValue fc.
Proof.
  unfold getAppendixData. cbn [forecastCalculations]. intros Hin.
  apply filter_In in Hin. destruct Hin as [Hin Hlen].
  apply In_omap in Hin. destruct Hin as (r & Hr & E).
  unfold getForecast in Hr. apply in_map_iff in Hr.
  destruct Hr as (monthKey & <- & Hk).
  unfold forecastCalculationOf in E.
  destruct (forecast (forecastMonth a monthKey)) as [f|] eqn:F; [|discriminate].
  destruct (truthy f) eqn:T; [|discriminate]. cbv [negb] in E.
  destruct (forecastMonth_compound a monthKey f F) as [Ef Em].
  set (r := forecastMonth a monthKey) in *.
  destruct (breakdownStep_fold
              (rateAt (forecastGrowthRates a)) (countdown (daysToClose r))
              (currentWeightedValue r)
              match trajectory r with p :: _ => t_snapshotDate p | [] => now end
              [])
    as (news & Eb & D & W & R).
  rewrite Eb in E. cbn [app] in E. injection E as <-.
  cbn [fc_month fc_startValue fc_endValue fc_daysToClose dailyBreakdown] in *.
  assert (Hn : news <> []).
  { intros ->. cbn in Hlen. discriminate. }
  assert (Hpos : 1 <= daysToClose r).
  { destruct (Z.to_nat (daysToClose r)) eqn:Z0; [|lia].
    exfalso. apply Hn. apply (f_equal (@length Z)) in D.
    rewrite length_map, countdown_length, Z0 in D.
    destruct news; [reflexivity | discriminate]. }
  destruct (rev_head_last news
              {| fd_date := EmptyString; fd_daysBefore := 0;
                 fd_startValue := f; fd_growthRate := f; fd_endValue := f |} Hn)
    as (rest & Erev).
  eexists monthKey, _, rest.
  split; [exact Hk|]. split; [exact Em|]. split; [exact F|].
  split; [exact T|]. split; [reflexivity|]. split; [reflexivity|].
  split; [exact Hpos|].
  split; [now rewrite map_rev, D|].
  split.
  { apply Stdlib.Lists.List.Forall_forall. intros x Hx. apply in_rev in Hx.
    rewrite Stdlib.Lists.List.Forall_forall in R.
    destruct (R x Hx) as [R1 R2]. auto. }
  split; [exact Erev|].
  set (dflt := {| fd_date := EmptyString; fd_daysBefore := 0;
                  fd_startValue := f; fd_growthRate := f; fd_endValue := f |})
    in *.
  assert (Ld : fd_daysBefore (List.last news dflt) = 0).
  { rewrite <- (last_of_map fd_daysBefore news dflt 0 Hn).
    rewrite D. unfold countdown.
    destruct (Z.to_nat (daysToClose r)) as [|k] eqn:Ek; [lia|].
    rewrite seq_S, map_app. cbn [map]. rewrite last_last. lia. }
  assert (Le : fd_endValue (List.last news dflt) = f).
  { rewrite <- (last_of_map fd_endValue news dflt (currentWeightedValue r) Hn).
    rewrite W.
    destruct (countdown (daysToClose r)) as [|d0 ds] eqn:Ec.
    { apply (f_equal (@length Z)) in Ec. rewrite countdown_length in Ec.
      cbn in Ec. lia. }
    rewrite compoundSteps_last_cons. symmetry. exact Ef. }
  auto.
Qed.

Lemma predictions_structure (rates : list DailyGrowthRate) (testMonth : string)
      (monthData : option (list AggregatedSnapshot)) (closingValue : num) :
  (length (Backtest.predictions rates testMonth monthData closingValue) <= 6)%nat
  /\ forall x,
      In x (Backtest.predictions rates testMonth monthData closingValue) ->
      b_month x = testMonth
      /\ actual x = closingValue
      /\ exists day startPoint,
          In day Backtest.testPoints
          /\ getTrajectoryAtDaysBefore (default [] monthData) day
             = Some startPoint
          /\ b_daysBefore x = daysBeforeClose startPoint
          /\ Z.abs (b_daysBefore x - day) <= 3
          /\ prediction x
             = compound (rateAt rates) (weightedPipeline startPoint)
                        (countdown (daysBeforeClose startPoint)).
Proof.
  unfold Backtest.predictions. split.
  - change 6%nat with (length Backtest.testPoints).
    induction Backtest.testPoints as [|d l IH]; cbn; [lia|].
    destruct (getTrajectoryAtDaysBefore _ d); cbn; lia.
  - intros x Hx. apply In_omap in Hx. destruct Hx as (day & Hday & E).
    destruct (getTrajectoryAtDaysBefore (default [] monthData) day)
      as [sp|] eqn:G; [|discriminate].
    pose proof (getTrajectoryAtDaysBefore_within _ _ _ G) as K.
    injection E as <-. cbn [b_month actual b_daysBefore prediction].
    split; [reflexivity|]. split; [reflexivity|].
    exists day, sp. auto.
Qed.

(** X15.  Every month that the backtest reports stands at an index
    [i >= 3] of the list of historical months and was trained on the
    three months at the indices [i - 3, i - 2, i - 1] of that list.  It
    has a truthy actual closing value, which every result of the month
    carries; it has at most six results, each starting from the point
    of its own trajectory nearest to a checkpoint and within 3 days of
    it, and each prediction is the weighted value of that point
    compounded through the freshly trained rates of the days below it,
    exactly as a forecast is. *)
Theorem backtest_result_structure
        (b : Backtest.BacktestAnalyzer) (r : Backtest.DetailedResult) :
  In r (Backtest.getDetailedBacktestResults b) ->
  exists i v,
    (3 <= i)%nat
    /\ nth_error (Backtest.allHistoricalMonths b) i = Some (Backtest.testMonth r)
    /\ Backtest.trainingMonths r
       = firstn 3 (skipn (i - 3) (Backtest.allHistoricalMonths b))
    /\ length (Backtest.trainingMonths r) = 3%nat
    /\ dget (Backtest.testMonth r) (Backtest.actualClosingValues b) = Some v
    /\ truthy (weighted v) = true
    /\ (length (Backtest.results r) <= 6)%nat
    /\ forall x,
        In x (Backtest.results r) ->
        b_month x = Backtest.testMonth r
        /\ actual x = weighted v
        /\ exists day startPoint,
            In day Backtest.testPoints
            /\ getTrajectoryAtDaysBefore
                 (default [] (dget (Backtest.testMonth r)
                                   (Backtest.aggregatedDataByMonth b))) day
               = Some startPoint
            /\ b_daysBefore x = daysBeforeClose startPoint
            /\ Z.abs (b_daysBefore x - day) <= 3
            /\ prediction x
               = compound
                   (rateAt (Backtest.calculateGrowthRates
                              b (Backtest.trainingMonths r)))
                   (weightedPipeline startPoint)
                   (countdown (daysBeforeClose startPoint)).
Proof.
  intros Hin. unfold Backtest.getDetailedBacktestResults in Hin.
  destruct (findIndex _ _) as [s|]; [|destruct Hin].
  destruct (s <? 3)%nat eqn:S3; [destruct Hin|].
  apply Nat.ltb_ge in S3.
  apply In_omap in Hin. destruct Hin as (i & Hi & E).
  apply in_seq in Hi.
  revert E. unfold Backtest.backtestAt.
  destruct (nth_error (Backtest.allHistoricalMonths b) i) as [tm|] eqn:En;
    [|discriminate].
  destruct (sliceFrom_three (Backtest.allHistoricalMonths b) i) as [Es El];
    [lia|].
  rewrite Es, El. cbn [Nat.eqb negb].
  destruct (dget tm (Backtest.actualClosingValues b)) as [v|] eqn:Ev;
    [|discriminate].
  destruct (truthy (weighted v)) eqn:Tv; [|discriminate]. cbn [negb].
  intros E. injection E as <-.
  cbn [Backtest.testMonth Backtest.trainingMonths Backtest.results].
  exists i, v. split; [lia|]. split; [exact En|]. split; [reflexivity|].
  split; [exact El|]. split; [exact Ev|]. split; [exact Tv|].
  apply predictions_structure.
Qed.

Lemma In_firstn_In {A} (n : nat) (l : list A) (x : A) :
  In x (firstn n l) -> In x l.
Proof.
  revert l. induction n as [|n IH]; intros l Hx; [destruct Hx|].
  destruct l as [|y l]; [destruct Hx|].
  destruct Hx as [-> | Hx]; [now left | right; now apply IH].
Qed.

Lemma similarity_length
      (cur hist : list AggregatedSnapshot) (days : list Z) :
  (length (calculateTrajectorySimilarity cur hist days) <= length days)%nat.
Proof.
  unfold calculateTrajectorySimilarity.
  assert (G : forall acc,
             (length
                (fold_left
                   (fun similarities daysBefore =>
                      match getTrajectoryAtDaysBefore cur daysBefore,
                            getTrajectoryAtDaysBefore hist daysBefore with
                      | Some currentPoint, Some historicalPoint =>
                          let currentValue := weightedPipeline currentPoint in
                          let historicalValue :=
                            weightedPipeline historicalPoint in
                          if (historicalValue =? ofZ 0)%num then similarities
                          else
                            similarities ++
                              [{| days_before := daysBefore;
                                  current_value := currentValue;
                                  historical_value := historicalValue;
                                  pct_difference :=
                                    ((currentValue - historicalValue)
                                     / historicalValue * ofZ 100)%num |}]
                      | _, _ => similarities
                      end) days acc)
              <= length acc + length days)%nat).
  { induction days as [|d l IH]; intros acc; cbn [fold_left length]; [lia|].
    etransitivity; [apply IH|].
    destruct (getTrajectoryAtDaysBefore cur d); [|lia].
    destruct (getTrajectoryAtDaysBefore hist d); [|lia].
    cbv zeta. destruct (_ =? _)%num; [lia|].
    rewrite length_app. cbn. lia. }
  apply (G []).
Qed.

(** X16.  [findSimilarHistoricalMonths] returns at most three
    comparisons and none when the month has no data.  Each one is about
    a historical month dated January 2025 or later that has data, has
    between one and six similarity points, each at one of the
    checkpoints 85, 75, 60, 45, 30, 15 and against a historical value
    that is not [=== 0], and carries the weighted closing value of its
    month (0 when there is none). *)
Theorem similar_months_bounds
        (a : Analyzer) (currentMonth : string) (forecastValue : num) :
  (length (findSimilarHistoricalMonths a currentMonth forecastValue) <= 3)%nat
  /\ (dget currentMonth (aggregatedDataByMonth a) = None
      \/ dget currentMonth (aggregatedDataByMonth a) = Some [] ->
      findSimilarHistoricalMonths a currentMonth forecastValue = [])
  /\ forall c,
      In c (findSimilarHistoricalMonths a currentMonth forecastValue) ->
      In (historical_month c) (allHistoricalMonths a)
      /\ sinceJanuary (historical_month c) = true
      /\ (exists p rest,
             dget (historical_month c) (aggregatedDataByMonth a)
             = Some (p :: rest))
      /\ (1 <= length (similarities c) <= 6)%nat
      /\ (forall s, In s (similarities c) ->
                    In (days_before s) comparisonDays
                    /\ (historical_value s =? ofZ 0)%num = false)
      /\ historical_closing c
         = match dget (historical_month c) (actualClosingValues a) with
           | Some v => weighted v
           | None => ofZ 0
           end.
Proof.
  unfold findSimilarHistoricalMonths.
  destruct (dget currentMonth (aggregatedDataByMonth a)) as [[|p0 rest0]|]
    eqn:Ec.
  - split; [cbn; lia|]. split; [reflexivity|]. intros c [].
  - split.
    { unfold slice. rewrite length_firstn. lia. }
    split; [intros [K | K]; discriminate K|].
    intros c Hc. unfold slice in Hc. cbn [skipn] in Hc.
    apply In_firstn_In in Hc.
    apply (Permutation_in _ (sort_perm _ _)) in Hc.
    apply In_omap in Hc. destruct Hc as (m & Hm & E).
    apply filter_In in Hm. destruct Hm as [Hm Hj].
    revert E. unfold compareTo.
    destruct (dget m (aggregatedDataByMonth a)) as [[|p rest]|] eqn:Em;
      [discriminate| |discriminate].
    set (sims := calculateTrajectorySimilarity (p0 :: rest0) (p :: rest)
                                               comparisonDays).
    destruct (0 <? length sims)%nat eqn:L; [|discriminate].
    apply Nat.ltb_lt in L.
    intros E. injection E as <-.
    cbn [historical_month similarities historical_closing].
    split; [exact Hm|]. split; [exact Hj|].
    split; [rewrite Em; eauto|].
    split.
    { split; [lia|].
      pose proof (similarity_length (p0 :: rest0) (p :: rest) comparisonDays)
        as K.
      fold sims in K. exact K. }
    split; [|reflexivity].
    intros s Hs. unfold sims in Hs.
    pose proof Hs as Hs'.
    unfold calculateTrajectorySimilarity in Hs'.
    apply similarity_points in Hs'.
    destruct Hs' as [[] | (cp & hp & Hd & _ & _ & E1 & _ & Hnz & _)].
    split; [exact Hd|]. now rewrite E1.
  - split; [cbn; lia|]. split; [reflexivity|]. intros c [].
Qed.

Lemma peakOfMonth_inv (a : Analyzer) (m : string) :
  match peakOfMonth a m with
  | Some r =>
      pk_month r = m
      /\ (peakRawValue r =? ofZ 0)%num = false
      /\ (exists v,
             dget m (actualClosingValues a) = Some v
             /\ actualClosingRawValue r = raw v
             /\ actualClosingWeightedValue r = weighted v)
      /\ declinePercentageRaw r
         = ((peakRawValue r - actualClosingRawValue r)
            / peakRawValue r * ofZ 100)%num
      /\ declinePercentageWeighted r
         = ((peakWeightedValue r - actualClosingWeightedValue r)
            / peakWeightedValue r * ofZ 100)%num
  | None => True
  end.
Proof.
  unfold peakOfMonth.
  destruct (Date_parse _) as [cm|]; [|exact I].
  destruct (fold_left _ (allData a) []) as [|s0 ss]; [exact I|].
  set (peak := fold_left _ (s0 :: ss) _).
  destruct (dget m (actualClosingValues a)) as [v|] eqn:Ev; [|exact I].
  destruct (ps_raw peak =? ofZ 0)%num eqn:Z0; [exact I|].
  cbn [pk_month peakRawValue peakWeightedValue actualClosingRawValue
       actualClosingWeightedValue declinePercentageRaw
       declinePercentageWeighted].
  split; [reflexivity|]. split; [exact Z0|].
  split; [exists v; auto|]. split; reflexivity.
Qed.

(** X17.  [analyzePeakAndDecline] reports historical months only, at
    most one result for each; a reported month has an actual closing
    value, which the result carries, and a peak raw value that is not
    [=== 0]; the decline percentages are the drop from the peak to the
    close in hundredths of the peak. *)
Theorem peak_results (a : Analyzer) (r : NewPeakAnalysis) :
  (length (analyzePeakAndDecline a) <= length (allHistoricalMonths a))%nat
  /\ (In r (analyzePeakAndDecline a) ->
      In (pk_month r) (allHistoricalMonths a)
      /\ peakOfMonth a (pk_month r) = Some r
      /\ (peakRawValue r =? ofZ 0)%num = false
      /\ (exists v,
             dget (pk_month r) (actualClosingValues a) = Some v
             /\ actualClosingRawValue r = raw v
             /\ actualClosingWeightedValue r = weighted v)
      /\ declinePercentageRaw r
         = ((peakRawValue r - actualClosingRawValue r)
            / peakRawValue r * ofZ 100)%num
      /\ declinePercentageWeighted r
         = ((peakWeightedValue r - actualClosingWeightedValue r)
            / peakWeightedValue r * ofZ 100)%num).
Proof.
  unfold analyzePeakAndDecline. split.
  - rewrite sort_length.
    induction (allHistoricalMonths a) as [|m l IH]; cbn; [lia|].
    destruct (peakOfMonth a m); cbn; lia.
  - intros Hin. apply (Permutation_in _ (sort_perm _ _)) in Hin.
    apply In_omap in Hin. destruct Hin as (m & Hm & E).
    pose proof (peakOfMonth_inv a m) as K. rewrite E in K.
    destruct K as (Em & K). rewrite Em.
    split; [exact Hm|]. split; [exact E | exact K].
Qed.

Lemma forecastMonth_month (a : Analyzer) (monthKey : string) :
  month (forecastMonth a monthKey) = monthKey.
Proof.
  unfold forecastMonth.
  destruct (dget monthKey (aggregatedDataByMonth a)) as [[|x l]|];
    try reflexivity.
  destruct (latestSnapshotOf (x :: l)) as [latest|]; [|reflexivity].
  destruct (daysBeforeClose latest >? 89); [reflexivity|].
  destruct (fold_left _ _ _) as [[f t] tr]. reflexivity.
Qed.

(** The fields of the analyzer after a load with at least one valid
    observation. *)
Lemma loadData_fields (a a' : Analyzer) (rawData : list RawCSVRow) :
  loadData a rawData = Some a' ->
  processRawData rawData <> [] ->
  hasData a' = true
  /\ allData a' = processRawData rawData
  /\ aggregateDataByMonth (allData a') (aggregatedDataByMonth a)
     = Some (aggregatedDataByMonth a')
  /\ actualClosingValues a'
     = calculateActualClosingValues (aggregatedDataByMonth a')
                                    (actualClosingValues a)
  /\ (allHistoricalMonths a', currentMonths a')
     = categorizeMonths (aggregatedDataByMonth a') (actualClosingValues a')
  /\ forecastGrowthRates a'
     = snd (calculateGrowthRates a' (allHistoricalMonths a'))
  /\ medianGrowthRates a'
     = medianGrowthRates (fst (calculateGrowthRates a' (allHistoricalMonths a')))
  /\ getPeakDeclineData a' = analyzePeakAndDecline a'.
Proof.
  unfold loadData.
  destruct (processRawData rawData) as [|p rows] eqn:Er; [congruence|].
  cbn [length Nat.eqb].
  destruct (aggregateDataByMonth (p :: rows) (aggregatedDataByMonth a))
    as [data|] eqn:Ea; [|discriminate].
  destruct (categorizeMonths data
              (calculateActualClosingValues data (actualClosingValues a)))
    as [historical current] eqn:Ec.
  intros E _. injection E as <-.
  repeat split; try reflexivity.
  - exact Ea.
  - symmetry. exact Ec.
Qed.

(** X18.  On an analyzer loaded once, a month is historical only if its
    own trajectory closes it: the month has data, the point of its
    trajectory nearest to the closing day lies within 5 days of it, the
    closing value of the month is that point's pair of values, the
    weighted one being [> 0]; and the month is not among the current
    months, so it gets no forecast. *)
Theorem fresh_load_historical_months
        (a' : Analyzer) (rawData : list RawCSVRow) (m : string) :
  loadData newAnalyzer rawData = Some a' ->
  In m (allHistoricalMonths a') ->
  exists monthData point,
    dget m (aggregatedDataByMonth a') = Some monthData
    /\ In point monthData
    /\ (forall q, In q monthData ->
                  Z.abs (daysBeforeClose point) <= Z.abs (daysBeforeClose q))
    /\ Z.abs (daysBeforeClose point) <= 5
    /\ dget m (actualClosingValues a')
       = Some {| raw := rawPipeline point;
                 weighted := weightedPipeline point |}
    /\ (weightedPipeline point >? ofZ 0)%num = true
    /\ ~ In m (currentMonths a')
    /\ ~ In m (map month (getForecast a')).
Proof.
  intros L Hm.
  destruct (processRawData rawData) as [|p0 rows0] eqn:Er.
  { unfold loadData in L. rewrite Er in L. cbn in L.
    injection L as <-. destruct Hm. }
  destruct (loadData_fields newAnalyzer a' rawData L) as
      (_ & _ & _ & Ec & Ecat & _); [congruence|].
  cbn [actualClosingValues newAnalyzer] in Ec.
  assert (Eh : allHistoricalMonths a'
               = fst (categorizeMonths (aggregatedDataByMonth a')
                                       (actualClosingValues a')))
    by (rewrite <- Ecat; reflexivity).
  assert (Ecur : currentMonths a'
                 = snd (categorizeMonths (aggregatedDataByMonth a')
                                         (actualClosingValues a')))
    by (rewrite <- Ecat; reflexivity).
  rewrite Eh in Hm. apply categorizeMonths_historical in Hm.
  destruct Hm as [Hk Hh].
  assert (Hnc : ~ In m (currentMonths a')).
  { rewrite Ecur. intros Hc. apply categorizeMonths_current in Hc.
    destruct Hc as [_ Hc]. congruence. }
  apply dget_In_keys in Hk. destruct Hk as [md Emd].
  unfold isHistorical in Hh.
  destruct (UTC _ _ _ _ _ _ _); [|discriminate].
  apply andb_prop in Hh. destruct Hh as [_ Hh].
  destruct (dget m (actualClosingValues a')) as [v|] eqn:Ev; [|discriminate].
  rewrite Ec in Ev. unfold calculateActualClosingValues in Ev.
  rewrite closing_fold in Ev. rewrite Emd in Ev.
  assert (Ek : existsb (String.eqb m) (keys (aggregatedDataByMonth a')) = true)
    by (apply existsb_keys; eauto).
  rewrite Ek in Ev.
  destruct (closingValuePoint md) as [pt|] eqn:Ep; [|discriminate].
  destruct (Z.abs (daysBeforeClose pt) <=? 5) eqn:E5; [|discriminate].
  injection Ev as <-. cbn [weighted] in Hh.
  exists md, pt.
  unfold closingValuePoint, reduce1 in Ep.
  destruct md as [|x l]; [discriminate|]. injection Ep as Ep.
  destruct (nearest_fold (fun p => Z.abs (daysBeforeClose p)) l x)
    as [K1 K2].
  cbv beta in K1, K2. rewrite Ep in K1, K2.
  split; [exact Emd|]. split; [exact K1|]. split; [exact K2|].
  split; [now apply Z.leb_le|].
  split; [reflexivity|].
  split; [exact Hh|]. split; [exact Hnc|].
  intros Hf. apply Hnc. unfold getForecast in Hf.
  rewrite map_map in Hf. apply in_map_iff in Hf.
  destruct Hf as (k & Ek' & Hk'). rewrite <- Ek'.
  rewrite forecastMonth_month. exact Hk'.
Qed.

End ReportsFurther.

(* ================================================================== *)
(** ** The further properties on the concrete inputs *)

Lemma default_Some {A} (d : A) (o : option A) :
  match o with Some _ => true | None => false end = true ->
  o = Some (default d o).
Proof. destruct o; [reflexivity | discriminate]. Qed.

(** X2 at a row whose stage is named [constructor]. *)
Lemma processRawData_observation_witness :
  (exists row,
      In row [constructorRow]
      /\ @processRow QcNumber februaryHost row
         = Some (hd noObservation
                    (@processRawData QcNumber februaryHost [constructorRow]))
      /\ @observationOf QcNumber februaryHost row
           (hd noObservation
               (@processRawData QcNumber februaryHost [constructorRow])))
  /\ p_weightedAmount
       (hd noObservation (@processRawData QcNumber februaryHost [constructorRow]))
     = (p_amount
          (hd noObservation
              (@processRawData QcNumber februaryHost [constructorRow]))
        * NaN)%num.
Proof.
  destruct (@processRawData_observation QcNumber februaryHost [constructorRow]
              (hd noObservation
                  (@processRawData QcNumber februaryHost [constructorRow])))
    as (K1 & K2 & _).
  - apply In_hd. vm_compute. reflexivity.
  - split; [exact K1|]. apply K2. vm_compute. left. reflexivity.
Defined.

(** X3 at [3/15/2025]. *)
Lemma closingMonthDateOf_month_first_witness :
  exists t,
    @closingMonthDateOf februaryHost (usDate "/" false 3 15) = Some t
    /\ t = JsDate.MakeDate (JsDate.MakeDay 2025 (3 - 1) 15) 0
    /\ JsDate.getUTCFullYear t = 2025
    /\ JsDate.getUTCMonth t = 3 - 1
    /\ monthKeyOf t = append "2025-" (JsString.pad 2 3).
Proof.
  apply (@closingMonthDateOf_month_first februaryHost "/"%char false 3 15).
  - left. reflexivity.
  - lia.
  - split; [lia | vm_compute; discriminate].
Defined.

(** X4 at January of [fiveMonths], day 1. *)
Lemma collected_rate_source_witness :
  rateSource fiveMonths ["2025-01"%string] 1
    (hd (Q2Qc 0) (ratesAt (collectRates fiveMonths ["2025-01"%string]) 1)).
Proof.
  apply (@collected_rate_source QcNumber fiveMonths ["2025-01"%string] 1).
  apply In_hd. vm_compute. reflexivity.
Defined.

(** X6 at January of [fiveMonths], day 1. *)
Lemma median_curve_lookup_witness :
  rateAt (medianRatesOf (collectRates fiveMonths ["2025-01"%string])) 1
  = match ratesAt (collectRates fiveMonths ["2025-01"%string]) 1 with
    | [] => Q2Qc 0
    | rates => medianOf rates
    end.
Proof.
  refine (proj1 (@median_curve_lookup QcNumber fiveMonths
                   ["2025-01"%string] 1 _)).
  lia.
Defined.

(** X7 at the January of [pipelineRows]. *)
Lemma aggregated_trajectories_descending_witness :
  StronglySorted (fun p q => daysBeforeClose q <= daysBeforeClose p)
                 (default [] (dget "2025-01" pipelineTrajectories)).
Proof.
  apply (@aggregated_trajectories_descending QcNumber februaryHost
           pipelineObservations [] pipelineTrajectories "2025-01"
           (default [] (dget "2025-01" pipelineTrajectories))).
  - apply default_Some. vm_compute. reflexivity.
  - apply default_Some. vm_compute. reflexivity.
Defined.

(** X12 at the February of [pipelineAnalyzer]: one day to close. *)
Lemma forecast_projection_witness :
  forecast (@forecastMonth QcNumber februaryHost pipelineAnalyzer "2025-02")
  = Some (compound (rateAt (forecastGrowthRates pipelineAnalyzer))
                   (weightedPipeline februaryPoint) (countdown 1)).
Proof.
  refine (proj1 (proj2 (proj2 (proj2
           (@forecast_projection QcNumber februaryHost
              pipelineAnalyzer "2025-02" [februaryPoint] februaryPoint
              _ _ _))))).
  - reflexivity.
  - reflexivity.
  - vm_compute. discriminate.
Defined.

(** X13 at the February trajectory and the goal 160. *)
Lemma goalSeek_appends_projection_witness :
  exists news,
    @generateGoalSeekTrajectory QcNumber pipelineAnalyzer
      februaryTrajectory (Q2Qc 160)
    = februaryTrajectory ++ news.
Proof.
  destruct (@goalSeek_appends_projection QcNumber pipelineAnalyzer
              februaryTrajectory (Q2Qc 160)
              (hd closingDayPoint februaryTrajectory) eq_refl)
    as (_ & _ & news & E & _).
  exists news. exact E.
Defined.

(** X14 at the February of [pipelineAnalyzer]. *)
Lemma appendix_ends_at_forecast_witness :
  exists monthKey,
    In monthKey (currentMonths pipelineAnalyzer)
    /\ forecast (@forecastMonth QcNumber februaryHost pipelineAnalyzer monthKey)
       = Some (fc_endValue
                 (hd noCalculation
                     (forecastCalculations
                        (@getAppendixData QcNumber februaryHost
                           pipelineAnalyzer)))).
Proof.
  destruct (@appendix_ends_at_forecast QcNumber februaryHost pipelineAnalyzer
              (hd noCalculation
                  (forecastCalculations
                     (@getAppendixData QcNumber februaryHost pipelineAnalyzer))))
    as (monthKey & e & rest & K1 & _ & K2 & _).
  - apply In_hd. vm_compute. reflexivity.
  - exists monthKey. exact (conj K1 K2).
Defined.

(** X15 at the first month tested on [fiveMonths]. *)
Lemma backtest_result_structure_witness :
  exists i,
    (3 <= i)%nat
    /\ nth_error (Backtest.allHistoricalMonths
                    (@Backtest.new QcNumber augustHost fiveMonths fiveClosings))
                 i
       = Some (Backtest.testMonth
                 (hd noResult
                     (Backtest.getDetailedBacktestResults
                        (@Backtest.new QcNumber augustHost
                                       fiveMonths fiveClosings)))).
Proof.
  destruct (@backtest_result_structure QcNumber
              (@Backtest.new QcNumber augustHost fiveMonths fiveClosings)
              (hd noResult
                  (Backtest.getDetailedBacktestResults
                     (@Backtest.new QcNumber augustHost
                                    fiveMonths fiveClosings))))
    as (i & v & K1 & K2 & _).
  - apply In_hd. vm_compute. reflexivity.
  - exists i. exact (conj K1 K2).
Defined.

(** X18 at the January of [pipelineAnalyzer]. *)
Lemma fresh_load_historical_months_witness :
  exists monthData point,
    dget "2025-01" (aggregatedDataByMonth pipelineAnalyzer) = Some monthData
    /\ In point monthData
    /\ Z.abs (daysBeforeClose point) <= 5
    /\ dget "2025-01" (actualClosingValues pipelineAnalyzer)
       = Some {| raw := rawPipeline point;
                 weighted := weightedPipeline point |}.
Proof.
  destruct (@fresh_load_historical_months QcNumber februaryHost
              pipelineAnalyzer pipelineRows "2025-01"
              pipelineAnalyzer_loaded)
    as (monthData & point & K1 & K2 & _ & K3 & K4 & _).
  - vm_compute. left. reflexivity.
  - exists monthData, point. exact (conj K1 (conj K2 (conj K3 K4))).
Defined.

(* ================================================================== *)
(** ** The order of the training months *)

Section SortOn.
Context {A : Type} (after : A -> A -> bool) (P : A -> Prop).

Hypothesis total_on : forall a b,
    P a -> P b -> after a b = true -> after b a = false.

Lemma insert_sorted_Sorted_on (x : A) (l : list A) :
  P x -> Forall P l ->
  Sorted (notAfter after) l -> Sorted (notAfter after) (insert_sorted after x l).
Proof.
  intros Px Pl Hs. induction Hs as [|y r Hs IH Hd]; simpl.
  - repeat constructor.
  - apply Forall_cons in Pl. destruct Pl as [Py Pr].
    destruct (after x y) eqn:E.
    + constructor; [exact (IH Pr)|].
      destruct Hd as [|z r' Hz]; simpl.
      * constructor. now apply total_on.
      * destruct (after x z); constructor;
          [exact Hz | now apply total_on].
    + constructor; [constructor; assumption|]. constructor. exact E.
Qed.

Lemma sort_Sorted_on (l : list A) :
  Forall P l -> Sorted (notAfter after) (sort after l).
Proof.
  induction l as [|x r IH]; intros Pl; [constructor|].
  apply Forall_cons in Pl. destruct Pl as [Px Pr].
  apply insert_sorted_Sorted_on; [exact Px | | exact (IH Pr)].
  apply Stdlib.Lists.List.Forall_forall. intros y Hy.
  apply (Permutation_in _ (sort_perm after r)) in Hy.
  rewrite Stdlib.Lists.List.Forall_forall in Pr. now apply Pr.
Qed.

Hypothesis trans_on : forall a b c,
    P a -> P b -> P c ->
    after a b = false -> after b c = false -> after a c = false.

Lemma Sorted_all_on (x : A) (l : list A) :
  P x -> Forall P l -> Sorted (notAfter after) (x :: l) ->
  Forall (notAfter after x) l.
Proof.
  intros Px Pl. revert x Px.
  induction l as [|y r IH]; intros x Px Hs; [constructor|].
  apply Forall_cons in Pl. destruct Pl as [Py Pr].
  apply Sorted_inv in Hs. destruct Hs as [Hs Hd].
  apply HdRel_inv in Hd.
  constructor; [exact Hd|].
  pose proof (IH Pr y Py Hs) as Hy.
  rewrite Stdlib.Lists.List.Forall_forall in Hy, Pr.
  apply Stdlib.Lists.List.Forall_forall. intros z Hz.
  exact (trans_on x y z Px Py (Pr z Hz) Hd (Hy z Hz)).
Qed.

Hypothesis antisym_on : forall a b,
    P a -> P b -> after a b = false -> after b a = false -> a = b.

Lemma Sorted_unique_on (l1 l2 : list A) :
  Forall P l1 ->
  Sorted (notAfter after) l1 -> Sorted (notAfter after) l2 ->
  Permutation l1 l2 -> l1 = l2.
Proof.
  revert l2. induction l1 as [|x r1 IH]; intros l2 P1 S1 S2 Hp.
  - apply Permutation_nil in Hp. now symmetry.
  - destruct l2 as [|y r2];
      [apply Permutation_sym, Permutation_nil in Hp; discriminate Hp|].
    assert (P2 : Forall P (y :: r2)).
    { apply Stdlib.Lists.List.Forall_forall. intros z Hz.
      rewrite Stdlib.Lists.List.Forall_forall in P1. apply P1.
      apply (Permutation_in _ (Permutation_sym Hp)), Hz. }
    pose proof P1 as P1'. pose proof P2 as P2'.
    apply Forall_cons in P1'. destruct P1' as [Px Pr1].
    apply Forall_cons in P2'. destruct P2' as [Py Pr2].
    pose proof (Sorted_all_on x r1 Px Pr1 S1) as A1.
    pose proof (Sorted_all_on y r2 Py Pr2 S2) as A2.
    rewrite Stdlib.Lists.List.Forall_forall in A1, A2.
    assert (E : x = y).
    { assert (Hx : In x (y :: r2))
        by (apply (Permutation_in _ Hp); now left).
      assert (Hy : In y (x :: r1))
        by (apply (Permutation_in _ (Permutation_sym Hp)); now left).
      destruct Hx as [-> | Hx]; [reflexivity|].
      destruct Hy as [-> | Hy]; [reflexivity|].
      apply antisym_on; [exact Px | exact Py | apply A1, Hy | apply A2, Hx]. }
    subst y. f_equal.
    apply Sorted_inv in S1. apply Sorted_inv in S2.
    apply IH; [exact Pr1 | apply S1 | apply S2|].
    eapply Permutation_cons_inv, Hp.
Qed.

(** Sorting forgets the order in which the elements arrived, when the
    comparator is a total order on them. *)
Lemma sort_unique_on (l1 l2 : list A) :
  Forall P l1 -> Permutation l1 l2 -> sort after l1 = sort after l2.
Proof.
  intros P1 Hp.
  assert (P2 : Forall P l2).
  { apply Stdlib.Lists.List.Forall_forall. intros z Hz.
    rewrite Stdlib.Lists.List.Forall_forall in P1. apply P1.
    apply (Permutation_in _ (Permutation_sym Hp)), Hz. }
  apply Sorted_unique_on.
  - apply Stdlib.Lists.List.Forall_forall. intros z Hz.
    rewrite Stdlib.Lists.List.Forall_forall in P1. apply P1.
    apply (Permutation_in _ (sort_perm after l1)), Hz.
  - now apply sort_Sorted_on.
  - now apply sort_Sorted_on.
  - rewrite !sort_perm. exact Hp.
Qed.

End SortOn.

Section GrowthOrder.
Context `{N : Number}.

(** Every rate collected for a day is a kept rate: it has the form
    [Math.pow(x, y) - 1] and passed the guard. *)
Lemma collected_rate_kept
      (data : MonthData) (months : list string) (day : Z) :
  Forall keptRate (ratesAt (collectRates data months) day).
Proof.
  apply Stdlib.Lists.List.Forall_forall. intros g Hin.
  rewrite ratesAt_collectRates in Hin.
  apply in_concat in Hin. destruct Hin as (l & Hl & Hg).
  apply in_map_iff in Hl. destruct Hl as (k & <- & Hk).
  unfold monthContribution in Hg.
  destruct (dget k data) as [md|]; [|destruct Hg].
  apply In_ratesAt_monthRates in Hg.
  destruct Hg as [[] | (p & c & _ & _ & _ & Eg & [G1 G2] & _)].
  split; [|split; assumption].
  eexists _, _. exact Eg.
Qed.

Context `{!RateOrder N}.

Lemma medianOf_kept_perm (l1 l2 : list num) :
  Forall keptRate l1 -> Permutation l1 l2 -> medianOf l1 = medianOf l2.
Proof.
  intros K P. unfold medianOf.
  rewrite (sort_unique_on (fun a b => (a - b >? ofZ 0)%num) keptRate
                          rate_total rate_trans rate_antisym l1 l2 K P).
  reflexivity.
Qed.

Lemma medianRatesOf_kept_perm (m1 m2 : gmap Z (list num)) :
  (forall day, Forall keptRate (ratesAt m1 day)) ->
  (forall day, Permutation (ratesAt m1 day) (ratesAt m2 day)) ->
  medianRatesOf m1 = medianRatesOf m2.
Proof.
  intros K P. unfold medianRatesOf. f_equal. apply map_ext. intros d.
  specialize (P (Z.of_nat d)). specialize (K (Z.of_nat d)).
  unfold ratesAt in P, K.
  destruct (m1 !! Z.of_nat d) as [[|x1 r1]|] eqn:E1;
    destruct (m2 !! Z.of_nat d) as [[|x2 r2]|] eqn:E2; cbn in P, K;
    try reflexivity;
    try (apply Permutation_length in P; discriminate P).
  f_equal. apply medianOf_kept_perm; [exact K | exact P].
Qed.

(** C7.  The median curve and the smoothed curve computed by
    [calculateGrowthRates] depend on the training months only up to
    their order, and on nothing in the analyzer but the aggregated
    trajectories: two calls on analyzers with the same trajectories,
    with the months in any two orders, give the same curves; so does a
    second call after a first one.  The rates of a day arrive in the
    order of the months, and the median sorts them: the outlier guard
    keeps NaN out of them, and the comparator is a total order on what
    it lets through. *)
Theorem growth_curves_order_invariant
        (a a' : Analyzer) (months1 months2 : list string) :
  aggregatedDataByMonth a = aggregatedDataByMonth a' ->
  Permutation months1 months2 ->
  snd (calculateGrowthRates a months1) = snd (calculateGrowthRates a' months2)
  /\ medianGrowthRates (fst (calculateGrowthRates a months1))
     = medianGrowthRates (fst (calculateGrowthRates a' months2))
  /\ calculateGrowthRates (fst (calculateGrowthRates a months1)) months2
     = calculateGrowthRates a months1.
Proof.
  intros Ea P.
  assert (E : medianRatesOf (collectRates (aggregatedDataByMonth a) months1)
              = medianRatesOf (collectRates (aggregatedDataByMonth a) months2)).
  { apply medianRatesOf_kept_perm.
    - intros day. apply collected_rate_kept.
    - intros day. now apply collectRates_perm. }
  unfold calculateGrowthRates. rewrite <- Ea, <- E. cbn [fst snd].
  split; [reflexivity|]. split; [reflexivity|].
  change (aggregatedDataByMonth (with_medianGrowthRates a _))
    with (aggregatedDataByMonth a).
  rewrite <- E. reflexivity.
Qed.

End GrowthOrder.

#[export] Instance QcRateOrder : RateOrder QcNumber.
Proof.
  split; cbn.
  - intros a b _ _ E. apply QcArith_pos_sub in E. apply QcArith_not_pos_sub.
    now apply Qclt_le_weak.
  - intros a b c _ _ _ E1 E2. apply QcArith_not_pos_sub in E1, E2.
    apply QcArith_not_pos_sub. eapply Qcle_trans; eassumption.
  - intros a b _ _ E1 E2. apply QcArith_not_pos_sub in E1, E2.
    now apply Qcle_antisym.
Qed.

(** C7 at [twoRateAnalyzer]: on the day before the close the two months
    bring the rates 1/10 and 1/5, in the order in which they are
    given, and the curves are the same. *)
Lemma growth_curves_order_invariant_witness :
  map this (ratesAt (collectRates twoRateMonths ["2025-01"; "2025-02"]%string) 1)
  = [1 # 10; 1 # 5]%Q
  /\ map this (ratesAt (collectRates twoRateMonths
                                     ["2025-02"; "2025-01"]%string) 1)
     = [1 # 5; 1 # 10]%Q
  /\ snd (calculateGrowthRates twoRateAnalyzer ["2025-01"; "2025-02"]%string)
     = snd (calculateGrowthRates twoRateAnalyzer ["2025-02"; "2025-01"]%string).
Proof.
  split; [vm_compute; reflexivity|].
  split; [vm_compute; reflexivity|].
  exact (proj1 (@growth_curves_order_invariant QcNumber QcRateOrder
                  twoRateAnalyzer twoRateAnalyzer
                  ["2025-01"; "2025-02"]%string ["2025-02"; "2025-01"]%string
                  eq_refl (perm_swap _ _ _))).
Defined.

(* ================================================================== *)
(** ** The order of the historical months of the backtest *)

Section MonthOrder.
Context `{N : Number} `{H : Host}.
Import JsString JsDate.

Lemma datedBefore_laterMonth (k k' : string) :
  datedBefore k k' = laterMonth k' k.
Proof.
  unfold datedBefore, laterMonth.
  destruct (Date_parse k) as [t|], (Date_parse k') as [t'|];
    try reflexivity.
  destruct (t <? t') eqn:E1, (t' - t >? 0) eqn:E2; try reflexivity; lia.
Qed.


Lemma laterMonth_total (a b : string) :
  laterMonth a b = true -> laterMonth b a = false.
Proof.
  unfold laterMonth.
  destruct (Date_parse a) as [x|], (Date_parse b) as [y|];
    try discriminate.
  destruct (y - x >? 0) eqn:E; [lia | reflexivity].
Qed.

(** Among the months of 2025, the later key is the one of the greater
    month number. *)
Lemma laterMonth_monthKey2025 (a b : Z) :
  1 <= a <= 12 -> 1 <= b <= 12 ->
  laterMonth (monthKey2025 a) (monthKey2025 b) = (b <? a).
Proof.
  intros Ha Hb.
  assert (Ca : a = 1 \/ a = 2 \/ a = 3 \/ a = 4 \/ a = 5 \/ a = 6 \/ a = 7
               \/ a = 8 \/ a = 9 \/ a = 10 \/ a = 11 \/ a = 12) by lia.
  assert (Cb : b = 1 \/ b = 2 \/ b = 3 \/ b = 4 \/ b = 5 \/ b = 6 \/ b = 7
               \/ b = 8 \/ b = 9 \/ b = 10 \/ b = 11 \/ b = 12) by lia.
  clear Ha Hb.
  destruct Ca as [-> | [-> | [-> | [-> | [-> | [-> | [-> | [-> | [-> | [-> |
                 [-> | ->]]]]]]]]]]];
    destruct Cb as [-> | [-> | [-> | [-> | [-> | [-> | [-> | [-> | [-> | [-> |
                   [-> | ->]]]]]]]]]]];
    vm_compute; reflexivity.
Qed.

Lemma monthKey2025_inj (a b : Z) :
  1 <= a <= 12 -> 1 <= b <= 12 -> monthKey2025 a = monthKey2025 b -> a = b.
Proof.
  intros Ha Hb E.
  pose proof (laterMonth_monthKey2025 a b Ha Hb) as L1.
  pose proof (laterMonth_monthKey2025 b a Hb Ha) as L2.
  pose proof (laterMonth_monthKey2025 a a Ha Ha) as L3.
  rewrite <- E in L1, L2. rewrite L3 in L1, L2. lia.
Qed.



(** The historical months of a backtest analyzer are held in the
    order of their dates, each before the next. *)
Lemma historical_in_date_order (data : MonthData) (closing : dict Totals) :
  monthsOf2025 data ->
  StronglySorted (fun a b => datedBefore a b = true)
                 (Backtest.categorizeMonths data closing).
Proof.
  intros [Hn Hk]. unfold Backtest.categorizeMonths.
  set (l := List.filter (isHistorical now closing) (keys data)).
  assert (Pl : Forall (fun k => exists m, 1 <= m <= 12 /\ k = monthKey2025 m)
                      l).
  { apply Stdlib.Lists.List.Forall_forall. intros k Hin.
    apply filter_In in Hin. apply Hk, Hin. }
  assert (Nl : List.NoDup (sort laterMonth l)).
  { apply (Permutation_NoDup (Permutation_sym (sort_perm laterMonth l))).
    now apply List.NoDup_filter. }
  assert (Ps : Forall (fun k => exists m, 1 <= m <= 12 /\ k = monthKey2025 m)
                      (sort laterMonth l)).
  { apply Stdlib.Lists.List.Forall_forall. intros k Hin.
    apply (Permutation_in _ (sort_perm laterMonth l)) in Hin.
    rewrite Stdlib.Lists.List.Forall_forall in Pl. now apply Pl. }
  assert (Ss : Sorted (notAfter laterMonth) (sort laterMonth l)).
  { apply sort_Sorted. apply laterMonth_total. }
  induction (sort laterMonth l) as [|x r IH]; [constructor|].
  apply Forall_cons in Ps. destruct Ps as [Px Pr].
  apply List.NoDup_cons_iff in Nl. destruct Nl as [Nx Nr].
  constructor.
  - apply IH; [exact Nr | exact Pr | now apply Sorted_inv in Ss].
  - assert (Ax : Forall (notAfter laterMonth x) r).
    { apply (Sorted_all_on laterMonth
               (fun k => exists m, 1 <= m <= 12 /\ k = monthKey2025 m));
        [|exact Px | exact Pr | exact Ss].
      intros a b c (ma & Ha & ->) (mb & Hb & ->) (mc & Hc & ->).
      rewrite !laterMonth_monthKey2025 by assumption. lia. }
    rewrite Stdlib.Lists.List.Forall_forall in Ax, Pr.
    apply Stdlib.Lists.List.Forall_forall. intros y Hy.
    destruct Px as (mx & Hx & ->).
    destruct (Pr y Hy) as (my & Hmy & ->).
    pose proof (Ax _ Hy) as Hxy. unfold notAfter in Hxy.
    rewrite laterMonth_monthKey2025 in Hxy by assumption.
    rewrite datedBefore_laterMonth, laterMonth_monthKey2025 by assumption.
    assert (mx <> my) by (intros ->; contradiction).
    lia.
Qed.






End MonthOrder.

Section NoLookahead.
Context `{N : Number} `{H : Host}.


End NoLookahead.



(* ================================================================== *)
(** ** The calendar: [civil] inverts [MakeDay] *)

Section CalendarFacts.
Import JsString JsDate.

(** The civil date of a day is that of its place in the 400-year
    cycle, the year moved by the cycles. *)
Lemma civil_cycle (doe era : Z) :
  0 <= doe < 146097 ->
  civil (doe + era * 146097 - 719468)
  = let '(y, mn, d) := civil (doe - 719468) in (y + era * 400, mn, d).
Proof.
  intros Hd. unfold civil.
  replace (doe + era * 146097 - 719468 + 719468) with (doe + era * 146097)
    by lia.
  replace (doe - 719468 + 719468) with doe by lia.
  rewrite Z.div_add by lia.
  rewrite (Z.div_small doe 146097) by lia.
  cbn [Z.add]. rewrite Z.mul_0_l, Z.sub_0_r, Z.add_0_r.
  replace (doe + era * 146097 - (0 + era) * 146097) with doe by lia.
  cbv zeta. f_equal. f_equal. lia.
Qed.

Lemma InLeapYear_cycle (y k : Z) : InLeapYear (y + k * 400) = InLeapYear y.
Proof.
  unfold InLeapYear.
  replace ((y + k * 400) mod 4) with (y mod 4)
    by (replace (k * 400) with (k * 100 * 4) by lia; now rewrite Z.mod_add).
  replace ((y + k * 400) mod 100) with (y mod 100)
    by (replace (k * 400) with (k * 4 * 100) by lia; now rewrite Z.mod_add).
  now rewrite Z.mod_add.
Qed.

Lemma DayFromYear_cycle (y k : Z) :
  DayFromYear (y + k * 400) = DayFromYear y + k * 146097.
Proof.
  unfold DayFromYear.
  replace (y + k * 400 - 1969) with (y - 1969 + k * 100 * 4) by lia.
  replace (y + k * 400 - 1901) with (y - 1901 + k * 4 * 100) by lia.
  replace (y + k * 400 - 1601) with (y - 1601 + k * 400) by lia.
  rewrite !Z.div_add by lia. lia.
Qed.

Lemma civilInvertsFrom_spec (n : nat) (doe0 doe : Z) :
  civilInvertsFrom n doe0 = true ->
  doe0 <= doe < doe0 + Z.of_nat n ->
  civilInverts (doe - 719468) = true.
Proof.
  revert doe0. induction n as [|k IH]; intros doe0 E Hr; [lia|].
  cbn [civilInvertsFrom] in E. apply andb_prop in E. destruct E as [E1 E2].
  destruct (Z.eq_dec doe doe0) as [-> | Hne]; [exact E1|].
  apply (IH (doe0 + 1) E2). lia.
Qed.

Lemma civilInverts_cycle : civilInvertsFrom (Z.to_nat 146097) 0 = true.
Proof. vm_cast_no_check (eq_refl true). Qed.

Lemma civil_inverts (day : Z) :
  let '(y, mn, d) := civil day in
  0 <= mn <= 11 /\ 1 <= d <= DaysInMonth y mn /\ MakeDay y mn d = day.
Proof.
  remember ((day + 719468) / 146097) as era eqn:Eera.
  remember ((day + 719468) mod 146097) as doe eqn:Edoe.
  assert (Hdoe : 0 <= doe < 146097)
    by (subst doe; apply Z.mod_pos_bound; lia).
  assert (Hday : day = doe + era * 146097 - 719468).
  { subst doe era. pose proof (Z.div_mod (day + 719468) 146097 ltac:(lia)).
    lia. }
  clear Eera Edoe. subst day. rewrite civil_cycle by exact Hdoe.
  pose proof (civilInvertsFrom_spec (Z.to_nat 146097) 0 doe
                civilInverts_cycle ltac:(lia)) as K.
  unfold civilInverts in K.
  destruct (civil (doe - 719468)) as [[y mn] d].
  apply andb_prop in K. destruct K as [K K5].
  apply andb_prop in K. destruct K as [K K4].
  apply andb_prop in K. destruct K as [K K3].
  apply andb_prop in K. destruct K as [K1 K2].
  apply Z.leb_le in K1, K2, K3, K4. apply Z.eqb_eq in K5.
  split; [lia|]. split.
  - unfold DaysInMonth in *. rewrite InLeapYear_cycle. lia.
  - unfold MakeDay in *.
    rewrite (Z.div_small mn 12), (Z.mod_small mn 12) in * by lia.
    rewrite Z.add_0_r in *.
    rewrite InLeapYear_cycle, DayFromYear_cycle. lia.
Qed.

End CalendarFacts.

(* ================================================================== *)
(** ** The ISO text of a date is read back as that date *)

Section IsoFacts.
Import JsString JsDate.

Lemma append_String (c : ascii) (a b : string) :
  append (String c a) b = String c (append a b).
Proof. reflexivity. Qed.

Lemma append_Empty (b : string) : append EmptyString b = b.
Proof. reflexivity. Qed.

Lemma append_assoc_s (a b c : string) :
  append (append a b) c = append a (append b c).
Proof.
  induction a as [|x a IH]; [reflexivity|].
  rewrite !append_String. f_equal. exact IH.
Qed.

Lemma digit_digitChar (d : Z) :
  0 <= d <= 9 -> digit (ascii_of_nat (Z.to_nat (48 + d))) = Some d.
Proof.
  intros Hd.
  assert (C : d = 0 \/ d = 1 \/ d = 2 \/ d = 3 \/ d = 4 \/ d = 5 \/ d = 6
              \/ d = 7 \/ d = 8 \/ d = 9) by lia.
  destruct C as [-> | [-> | [-> | [-> | [-> | [-> | [-> | [-> | [-> | ->]]]]]]]]];
    reflexivity.
Qed.

Lemma fixedDigits_add (n m : nat) (acc : Z) (s : string) :
  fixedDigits (n + m) acc s
  = match fixedDigits n acc s with
    | Some (a, r) => fixedDigits m a r
    | None => None
    end.
Proof.
  revert acc s. induction n as [|n IH]; intros acc s; cbn; [reflexivity|].
  destruct s as [|c r]; [reflexivity|].
  destruct (digit c); [apply IH | reflexivity].
Qed.

Lemma fixedDigits_pad (n : nat) (v acc : Z) (rest : string) :
  0 <= v < 10 ^ Z.of_nat n ->
  fixedDigits n acc (append (pad n v) rest)
  = Some (acc * 10 ^ Z.of_nat n + v, rest).
Proof.
  revert v rest. induction n as [|n IH]; intros v rest Hv.
  - cbn. f_equal. f_equal. change (10 ^ Z.of_nat 0) with 1 in *. lia.
  - cbn [pad]. rewrite append_assoc_s, append_String, append_Empty.
    replace (S n) with (n + 1)%nat at 1 by lia.
    assert (P : 10 ^ Z.of_nat (S n) = 10 * 10 ^ Z.of_nat n).
    { rewrite Nat2Z.inj_succ, Z.pow_succ_r by lia. reflexivity. }
    rewrite fixedDigits_add, IH.
    + cbn [fixedDigits]. rewrite digit_digitChar.
      * f_equal. f_equal. rewrite P.
        pose proof (Z.div_mod v 10 ltac:(lia)). lia.
      * pose proof (Z.mod_pos_bound v 10 ltac:(lia)). lia.
    + rewrite P in Hv. split.
      * apply Z.div_pos; lia.
      * apply Z.div_lt_upper_bound; lia.
Qed.

Lemma fixedDigits_pad2 (v : Z) (rest : string) :
  0 <= v < 100 -> fixedDigits 2 0 (append (pad 2 v) rest) = Some (v, rest).
Proof.
  intros Hv. rewrite fixedDigits_pad; [reflexivity|].
  change (10 ^ Z.of_nat 2) with 100. exact Hv.
Qed.

Lemma fixedDigits_pad3 (v : Z) (rest : string) :
  0 <= v < 1000 -> fixedDigits 3 0 (append (pad 3 v) rest) = Some (v, rest).
Proof.
  intros Hv. rewrite fixedDigits_pad; [reflexivity|].
  change (10 ^ Z.of_nat 3) with 1000. exact Hv.
Qed.

Lemma fixedDigits_pad4 (v : Z) (rest : string) :
  0 <= v < 10000 -> fixedDigits 4 0 (append (pad 4 v) rest) = Some (v, rest).
Proof.
  intros Hv. rewrite fixedDigits_pad; [reflexivity|].
  change (10 ^ Z.of_nat 4) with 10000. exact Hv.
Qed.

Lemma fixedDigits_pad6 (v : Z) (rest : string) :
  0 <= v < 1000000 ->
  fixedDigits 6 0 (append (pad 6 v) rest) = Some (v, rest).
Proof.
  intros Hv. rewrite fixedDigits_pad; [reflexivity|].
  change (10 ^ Z.of_nat 6) with 1000000. exact Hv.
Qed.

(** The text of a number starts with a digit. *)
Lemma pad_head (n : nat) (v : Z) (rest : string) :
  exists c r d, append (pad (S n) v) rest = String c r /\ digit c = Some d.
Proof.
  revert v rest. induction n as [|n IH]; intros v rest.
  - cbn [pad]. rewrite append_Empty, append_String, append_Empty.
    eexists _, _, _. split; [reflexivity|].
    apply digit_digitChar. pose proof (Z.mod_pos_bound v 10 ltac:(lia)). lia.
  - change (pad (S (S n)) v)
      with (append (pad (S n) (v / 10))
              (String (ascii_of_nat (Z.to_nat (48 + v mod 10))) EmptyString)).
    rewrite append_assoc_s. apply IH.
Qed.

Lemma isoYearField_digit (c : ascii) (r : string) (d : Z) :
  digit c = Some d -> isoYearField (String c r) = fixedDigits 4 0 (String c r).
Proof.
  destruct c as [[] [] [] [] [] [] [] []]; intros E;
    try discriminate E; reflexivity.
Qed.

Lemma isoYearField_isoYear (y : Z) (rest : string) :
  -999999 <= y <= 999999 ->
  isoYearField (append (isoYear y) rest) = Some (y, rest).
Proof.
  intros Hy. unfold isoYear.
  destruct ((0 <=? y) && (y <=? 9999)) eqn:E.
  - apply andb_prop in E. destruct E as [E1 E2].
    apply Z.leb_le in E1, E2.
    destruct (pad_head 3 y rest) as (c & r & d & Ec & Ed).
    rewrite Ec, (isoYearField_digit c r d Ed), <- Ec.
    apply fixedDigits_pad4. lia.
  - destruct (y <? 0) eqn:En.
    + apply Z.ltb_lt in En. cbv iota.
      rewrite ?append_String, ?append_Empty. cbn [isoYearField].
      rewrite fixedDigits_pad6 by lia.
      destruct (Z.abs y =? 0) eqn:E0; [apply Z.eqb_eq in E0; lia|].
      f_equal. f_equal. lia.
    + apply Z.ltb_ge in En. cbv iota.
      rewrite ?append_String, ?append_Empty. cbn [isoYearField].
      rewrite fixedDigits_pad6 by lia.
      f_equal. f_equal. lia.
Qed.

Lemma isoTimeZ_text (h mi s ms : Z) :
  0 <= h <= 23 -> 0 <= mi <= 59 -> 0 <= s <= 59 -> 0 <= ms <= 999 ->
  isoTimeZ (append (pad 2 h)
             (String ":" (append (pad 2 mi)
               (String ":" (append (pad 2 s)
                 (String "." (append (pad 3 ms) "Z")))))))
  = Some (MakeTime h mi s ms).
Proof.
  intros Hh Hmi Hs Hms. unfold isoTimeZ.
  rewrite fixedDigits_pad2 by lia.
  rewrite fixedDigits_pad2 by lia.
  rewrite fixedDigits_pad2 by lia.
  rewrite fixedDigits_pad3 by lia.
  destruct (Z.leb_spec h 23); [|lia].
  destruct (Z.leb_spec mi 59); [|lia].
  destruct (Z.leb_spec s 59); [|lia].
  reflexivity.
Qed.

(** The years of the time values. *)
Lemma civil_year_range (day : Z) :
  -100000000 <= day <= 100000000 ->
  -999999 <= fst (fst (civil day)) <= 999999.
Proof.
  intros Hd. unfold civil. cbn [fst snd].
  set (z := day + 719468).
  set (era := z / 146097).
  set (doe := z - era * 146097).
  assert (Hdoe : 0 <= doe < 146097).
  { subst doe era. pose proof (Z.div_mod z 146097 ltac:(lia)).
    pose proof (Z.mod_pos_bound z 146097 ltac:(lia)). lia. }
  assert (Hera : -680 <= era <= 690).
  { subst era z. split.
    - apply Z.div_le_lower_bound; lia.
    - apply Z.div_le_upper_bound; lia. }
  clearbody doe era. clear z.
  set (yoe := (doe - doe / 1460 + doe / 36524 - doe / 146096) / 365).
  assert (Hyoe : 0 <= yoe <= 400).
  { subst yoe. Z.div_mod_to_equations. lia. }
  clearbody yoe.
  destruct (_ <=? 2); lia.
Qed.

(** [Date.parse] of [toISOString] for a time value. *)
Lemma parseISO_toISOString (t : Z) :
  Z.abs t <= 8640000000000000 -> parseISO (toISOString t) = Some t.
Proof.
  intros Ht.
  assert (HD : -100000000 <= Day t <= 100000000).
  { unfold Day, msPerDay. split.
    - apply Z.div_le_lower_bound; lia.
    - apply Z.div_le_upper_bound; lia. }
  pose proof (civil_year_range (Day t) HD) as Hy.
  pose proof (civil_inverts (Day t)) as Hc.
  unfold toISOString, isoDate, isoYMD, getUTCFullYear, getUTCMonth, getUTCDate.
  destruct (civil (Day t)) as [[y mn] d]. cbn [fst snd] in *.
  destruct Hc as (Hmn & Hd & Hday).
  set (r := t mod msPerDay).
  assert (Hr : 0 <= r < 86400000)
    by (subst r; apply Z.mod_pos_bound; reflexivity).
  assert (Hdm : DaysInMonth y mn <= 31).
  { assert (C : mn = 0 \/ mn = 1 \/ mn = 2 \/ mn = 3 \/ mn = 4 \/ mn = 5
                \/ mn = 6 \/ mn = 7 \/ mn = 8 \/ mn = 9 \/ mn = 10 \/ mn = 11)
      by lia.
    unfold DaysInMonth.
    destruct C as [-> | [-> | [-> | [-> | [-> | [-> | [-> | [-> | [-> | [-> |
                  [-> | ->]]]]]]]]]]]; try destruct (InLeapYear y); lia. }
  rewrite !append_assoc_s. rewrite ?append_String, ?append_Empty.
  unfold parseISO. rewrite isoYearField_isoYear by lia.
  rewrite fixedDigits_pad2 by lia.
  rewrite fixedDigits_pad2 by lia.
  rewrite isoTimeZ_text.
  2-5: clear - Hr; Z.div_mod_to_equations; lia.
  replace (mn + 1 - 1) with mn by lia.
  destruct (Z.leb_spec 1 (mn + 1)); [|lia].
  destruct (Z.leb_spec (mn + 1) 12); [|lia].
  destruct (Z.leb_spec 1 d); [|lia].
  destruct (Z.leb_spec d (DaysInMonth y mn)); [|lia].
  cbn [andb]. rewrite Hday.
  assert (E : MakeDate (Day t)
                (MakeTime (r / 3600000) (r / 60000 mod 60)
                          (r / 1000 mod 60) (r mod 1000)) = t).
  { unfold MakeDate, MakeTime, Day. subst r. unfold msPerDay in *.
    clear. Z.div_mod_to_equations. lia. }
  rewrite E. unfold TimeClip.
  destruct (Z.abs t >? 8640000000000000) eqn:G; [|reflexivity].
  rewrite Z.gtb_ltb in G. apply Z.ltb_lt in G. lia.
Qed.

End IsoFacts.

(* ================================================================== *)
(** ** The keys of the aggregation *)

Section KeyFacts.
Import JsString JsDate.

Lemma includes_append (c : ascii) (a b : string) :
  includes c (append a b) = includes c a || includes c b.
Proof.
  induction a as [|x a IH]; [reflexivity|].
  rewrite append_String. cbn [includes]. rewrite IH. apply orb_assoc.
Qed.

Lemma digit_neq (c x : ascii) (d : Z) :
  digit c = None -> digit x = Some d -> Ascii.eqb x c = false.
Proof.
  intros Hc Hx. destruct (Ascii.eqb x c) eqn:E; [|reflexivity].
  apply Ascii.eqb_eq in E. subst x. congruence.
Qed.

Lemma includes_pad (c : ascii) (n : nat) (v : Z) :
  digit c = None -> includes c (pad n v) = false.
Proof.
  intros Hc. revert v. induction n as [|n IH]; intros v; [reflexivity|].
  cbn [pad]. rewrite includes_append, IH. cbn [includes orb].
  rewrite (digit_neq c _ (v mod 10) Hc); [reflexivity|].
  apply digit_digitChar. pose proof (Z.mod_pos_bound v 10 ltac:(lia)). lia.
Qed.

Lemma includes_take (c : ascii) (n : nat) (s : string) :
  includes c s = false -> includes c (take n s) = false.
Proof.
  revert s. induction n as [|n IH]; intros s Hs; [reflexivity|].
  destruct s as [|x s]; [reflexivity|].
  cbn [take includes] in *. apply orb_false_elim in Hs. destruct Hs as [H1 H2].
  now rewrite H1, IH.
Qed.

Lemma includes_isoDate (c : ascii) (t : Z) :
  digit c = None -> Ascii.eqb "-" c = false -> Ascii.eqb "+" c = false ->
  includes c (isoDate t) = false.
Proof.
  intros Hc Hm Hp. unfold isoDate, isoYMD, isoYear.
  rewrite !includes_append, !includes_pad by exact Hc.
  assert (Hy : includes c
                 (if (0 <=? getUTCFullYear t) && (getUTCFullYear t <=? 9999)
                  then pad 4 (getUTCFullYear t)
                  else append (if getUTCFullYear t <? 0 then "-" else "+")
                              (pad 6 (Z.abs (getUTCFullYear t)))) = false).
  { destruct (_ && _); [now apply includes_pad|].
    rewrite includes_append, includes_pad by exact Hc.
    destruct (_ <? 0); cbn [includes]; [rewrite Hm | rewrite Hp]; reflexivity. }
  rewrite Hy. cbn [includes]. rewrite Hm. reflexivity.
Qed.

Lemma includes_bar_toISOString (t : Z) : includes "|" (toISOString t) = false.
Proof.
  unfold toISOString.
  rewrite !includes_append, !includes_pad, includes_isoDate by reflexivity.
  reflexivity.
Qed.

Lemma includes_bar_monthKeyOf (t : Z) : includes "|" (monthKeyOf t) = false.
Proof.
  unfold monthKeyOf, substring. apply includes_take.
  apply includes_bar_toISOString.
Qed.

Lemma split_plain (sep : ascii) (a : string) :
  includes sep a = false -> split sep a = [a].
Proof.
  induction a as [|x a IH]; intros Ha; [reflexivity|].
  cbn [includes] in Ha. apply orb_false_elim in Ha. destruct Ha as [H1 H2].
  cbn [split]. rewrite H1, (IH H2). reflexivity.
Qed.

Lemma split_append (sep : ascii) (a b : string) :
  includes sep a = false ->
  split sep (append a (String sep b)) = a :: split sep b.
Proof.
  induction a as [|x a IH]; intros Ha.
  - rewrite append_Empty. cbn [split]. now rewrite Ascii.eqb_refl.
  - cbn [includes] in Ha. apply orb_false_elim in Ha. destruct Ha as [H1 H2].
    rewrite append_String. cbn [split]. rewrite H1, (IH H2). reflexivity.
Qed.

(** A key [a|b] is taken apart into [a] and [b]. *)
Lemma split_key (a b : string) :
  includes "|" a = false -> includes "|" b = false ->
  split "|" (append a (append "|" b)) = [a; b].
Proof.
  intros Ha Hb. rewrite append_String, append_Empty.
  rewrite split_append by exact Ha. now rewrite split_plain.
Qed.

Lemma key_inj (a b a' b' : string) :
  includes "|" a = false -> includes "|" b = false ->
  includes "|" a' = false -> includes "|" b' = false ->
  append a (append "|" b) = append a' (append "|" b') ->
  a = a' /\ b = b'.
Proof.
  intros Ha Hb Ha' Hb' E. apply (f_equal (split "|")) in E.
  rewrite !split_key in E by assumption.
  injection E as -> ->. auto.
Qed.

(** The day of an ISO text is its part before [T]. *)
Lemma isoDay_toISOString (t : Z) :
  nth 0 (split "T" (toISOString t)) EmptyString = isoDate t.
Proof.
  unfold toISOString. rewrite append_String, append_Empty.
  rewrite split_append; [reflexivity|].
  now apply includes_isoDate.
Qed.

(** The month key of a date of 2025. *)
Lemma monthKeyOf_2025 (t : Z) :
  getUTCFullYear t = 2025 ->
  monthKeyOf t = append "2025-" (pad 2 (getUTCMonth t + 1))
  /\ 0 <= getUTCMonth t <= 11.
Proof.
  intros Hy. split.
  - unfold monthKeyOf, toISOString, isoDate, isoYMD. rewrite Hy.
    change (isoYear 2025) with "2025"%string.
    cbn [pad]. rewrite !append_assoc_s.
    rewrite ?append_String, ?append_Empty. reflexivity.
  - pose proof (civil_inverts (Day t)) as K.
    unfold getUTCMonth. destruct (civil (Day t)) as [[y mn] d]. tauto.
Qed.

(** [new Date(monthKey + '-01T00:00:00.000Z')] for a month key of 2025. *)
Lemma parseISO_firstOfMonth (m : Z) :
  1 <= m <= 12 ->
  parseISO (append (append "2025-" (pad 2 m)) "-01T00:00:00.000Z")
  = Some (firstOfMonth m)
  /\ getUTCFullYear (firstOfMonth m) = 2025
  /\ getUTCMonth (firstOfMonth m) = m - 1
  /\ monthKeyOf (firstOfMonth m) = append "2025-" (pad 2 m).
Proof.
  intros Hm.
  assert (C : m = 1 \/ m = 2 \/ m = 3 \/ m = 4 \/ m = 5 \/ m = 6 \/ m = 7
              \/ m = 8 \/ m = 9 \/ m = 10 \/ m = 11 \/ m = 12) by lia.
  destruct C as [-> | [-> | [-> | [-> | [-> | [-> | [-> | [-> | [-> | [-> |
                [-> | ->]]]]]]]]]]]; vm_compute; auto.
Qed.

Lemma TimeClip_range (x t : Z) :
  TimeClip x = Some t -> Z.abs t <= 8640000000000000.
Proof.
  unfold TimeClip. destruct (Z.abs x >? _) eqn:G; [discriminate|].
  intros [= <-]. rewrite Z.gtb_ltb in G. now apply Z.ltb_ge in G.
Qed.

Lemma parseISO_range (s : string) (t : Z) :
  parseISO s = Some t -> Z.abs t <= 8640000000000000.
Proof.
  unfold parseISO.
  destruct (isoYearField s) as [[y r0]|]; [|discriminate].
  cbv zeta.
  repeat match goal with
         | |- context [match ?x with _ => _ end] => destruct x
         end; try discriminate; apply TimeClip_range.
Qed.

End KeyFacts.

(* ================================================================== *)
(** ** Dictionaries built by insertion *)

Section DictFurther.
Context {V : Type}.

Lemma keys_dset (k : string) (v : V) (d : dict V) :
  keys (dset k v d)
  = if existsb (String.eqb k) (keys d) then keys d else keys d ++ [k].
Proof.
  induction d as [|[k' v'] r IH]; [reflexivity|].
  cbn [dset keys map fst existsb].
  rewrite (String.eqb_sym k k').
  destruct (String.eqb k' k) eqn:E; cbn [orb]; [reflexivity|].
  cbn [map fst]. fold (keys (dset k v r)). rewrite IH. fold (keys r).
  destruct (existsb (String.eqb k) (keys r)); reflexivity.
Qed.

Lemma NoDup_dset (k : string) (v : V) (d : dict V) :
  List.NoDup (keys d) -> List.NoDup (keys (dset k v d)).
Proof.
  intros Hd. rewrite keys_dset.
  destruct (existsb (String.eqb k) (keys d)) eqn:E; [exact Hd|].
  assert (Hk : ~ In k (keys d)).
  { intros Hx.
    assert (existsb (String.eqb k) (keys d) = true); [|congruence].
    apply existsb_exists. exists k. split; [exact Hx | apply String.eqb_refl]. }
  clear E. induction (keys d) as [|x l IH]; cbn.
  - apply List.NoDup_cons_iff. split; [intros [] | apply List.NoDup_nil].
  - apply List.NoDup_cons_iff in Hd. destruct Hd as [Hx Hl].
    apply List.NoDup_cons_iff. split.
    + rewrite in_app_iff. intros [C | [-> | []]]; [auto|].
      apply Hk. now left.
    + apply IH; [exact Hl|]. intros C. apply Hk. now right.
Qed.

Lemma dget_In (k : string) (v : V) (d : dict V) :
  dget k d = Some v -> In (k, v) d.
Proof.
  induction d as [|[k' v'] r IH]; cbn; [discriminate|].
  destruct (String.eqb k' k) eqn:E.
  - apply String.eqb_eq in E. intros [= ->]. left. now subst.
  - intros Hr. right. now apply IH.
Qed.

Lemma In_dget (k : string) (v : V) (d : dict V) :
  List.NoDup (keys d) -> In (k, v) d -> dget k d = Some v.
Proof.
  induction d as [|[k' v'] r IH]; cbn; [intros _ []|].
  intros Hd [E | Hin].
  - injection E as -> ->. now rewrite String.eqb_refl.
  - apply List.NoDup_cons_iff in Hd. destruct Hd as [Hk Hr].
    destruct (String.eqb k' k) eqn:E.
    + apply String.eqb_eq in E. subst k'. exfalso. apply Hk.
      change (In (fst (k, v)) (map fst r)). now apply in_map.
    + now apply IH.
Qed.

Lemma In_values_dget (v : V) (d : dict V) :
  List.NoDup (keys d) -> In v (values d) -> exists k, dget k d = Some v.
Proof.
  intros Hd Hv. unfold values in Hv. apply in_map_iff in Hv.
  destruct Hv as ([k v'] & <- & Hin). exists k. now apply In_dget.
Qed.

Lemma dget_In_values (k : string) (v : V) (d : dict V) :
  dget k d = Some v -> In v (values d).
Proof.
  intros E. apply dget_In in E. unfold values.
  change v with (snd (k, v)). now apply in_map.
Qed.

End DictFurther.

Section GroupFold.
Context {A V : Type} (key : A -> string).

Lemma fold_left_pointwise {B C} (f g : B -> C -> B) (l : list C) (a : B) :
  (forall a x, f a x = g a x) -> fold_left f l a = fold_left g l a.
Proof.
  intros E. revert a. induction l as [|x l IH]; intros a; [reflexivity|].
  cbn [fold_left]. rewrite E. apply IH.
Qed.

(** A table filled key by key, seen from one key. *)
Lemma group_view (upd : option V -> A -> V)
      (l : list A) (d : dict V) (k : string) :
  dget k (fold_left (fun d x => dset (key x) (upd (dget (key x) d) x) d) l d)
  = fold_left (fun o x => if String.eqb (key x) k then Some (upd o x) else o)
              l (dget k d).
Proof.
  revert d. induction l as [|x l IH]; intros d; [reflexivity|].
  cbn [fold_left]. rewrite IH. f_equal.
  destruct (String.eqb (key x) k) eqn:E.
  - apply String.eqb_eq in E. subst k. now rewrite dget_dset_eq.
  - apply String.eqb_neq in E. now rewrite dget_dset_ne.
Qed.

Lemma group_NoDup (upd : option V -> A -> V) (l : list A) (d : dict V) :
  List.NoDup (keys d) ->
  List.NoDup
    (keys (fold_left (fun d x => dset (key x) (upd (dget (key x) d) x) d)
                     l d)).
Proof.
  revert d. induction l as [|x l IH]; intros d Hd; [exact Hd|].
  cbn [fold_left]. apply IH. now apply NoDup_dset.
Qed.

Lemma group_view_Some (add : V -> A -> V) (zero : V)
      (l : list A) (k : string) (acc : V) :
  fold_left (fun o x => if String.eqb (key x) k
                        then Some (add (default zero o) x) else o)
            l (Some acc)
  = Some (fold_left add (List.filter (fun x => String.eqb (key x) k) l) acc).
Proof.
  revert acc. induction l as [|x l IH]; intros acc; [reflexivity|].
  cbn [fold_left List.filter].
  destruct (String.eqb (key x) k); [|apply IH].
  cbn [default from_option id fold_left]. apply IH.
Qed.

Lemma group_view_None (add : V -> A -> V) (zero : V)
      (l : list A) (k : string) :
  fold_left (fun o x => if String.eqb (key x) k
                        then Some (add (default zero o) x) else o)
            l None
  = match List.filter (fun x => String.eqb (key x) k) l with
    | [] => None
    | r => Some (fold_left add r zero)
    end.
Proof.
  induction l as [|x l IH]; [reflexivity|].
  cbn [fold_left List.filter].
  destruct (String.eqb (key x) k); [|exact IH].
  cbn [default from_option id]. rewrite group_view_Some. reflexivity.
Qed.

End GroupFold.

(* ================================================================== *)
(** ** The three passes of [aggregateDataByMonth] *)

Section AggregationPasses.
Context `{N : Number} `{H : Host}.
Import JsString JsDate.

(** *** First pass *)

Lemma first_fold (rows : list ProcessedRow) :
  dataBySnapshotAndMonth rows
  = fold_left
      (fun d row =>
         dset (keyOf row)
              (addRow (default {| raw := ofZ 0; weighted := ofZ 0 |}
                               (dget (keyOf row) d)) row) d)
      rows [].
Proof.
  unfold dataBySnapshotAndMonth. apply fold_left_pointwise.
  intros d row. cbv zeta. unfold keyOf, addRow.
  destruct (dget _ d); reflexivity.
Qed.

Lemma first_entry (rows : list ProcessedRow) (k : string) :
  dget k (dataBySnapshotAndMonth rows)
  = match List.filter (fun r => String.eqb (keyOf r) k) rows with
    | [] => None
    | l => Some (totalsOf l)
    end.
Proof.
  rewrite first_fold.
  rewrite (group_view keyOf
             (fun o row => addRow (default {| raw := ofZ 0; weighted := ofZ 0 |}
                                           o) row)).
  apply (group_view_None keyOf addRow).
Qed.

Lemma first_NoDup (rows : list ProcessedRow) :
  List.NoDup (keys (dataBySnapshotAndMonth rows)).
Proof.
  rewrite first_fold.
  apply (group_NoDup keyOf
           (fun o row => addRow (default {| raw := ofZ 0; weighted := ofZ 0 |}
                                         o) row)).
  constructor.
Qed.

(** The keys of the first table are the keys of the observations. *)
Lemma first_keys (rows : list ProcessedRow) (k : string) :
  In k (keys (dataBySnapshotAndMonth rows))
  <-> exists row, In row rows /\ keyOf row = k.
Proof.
  rewrite dget_In_keys, first_entry. split.
  - intros [v E].
    destruct (List.filter _ rows) as [|row l] eqn:F; [discriminate|].
    assert (Hr : In row (List.filter (fun r => String.eqb (keyOf r) k) rows))
      by (rewrite F; now left).
    apply filter_In in Hr. destruct Hr as [Hr Ek].
    apply String.eqb_eq in Ek. eauto.
  - intros (row & Hr & Ek).
    assert (Hf : In row (List.filter (fun r => String.eqb (keyOf r) k) rows)).
    { apply filter_In. split; [exact Hr|]. now apply String.eqb_eq. }
    destruct (List.filter _ rows); [destruct Hf | eauto].
Qed.

(** *** Second pass *)

Lemma dailyAggregates_cons (key : string) (vals : Totals) (rest : dict Totals)
      (acc : dict DailyAggregate) :
  dailyAggregates ((key, vals) :: rest) acc
  = match entrySnapshot key with
    | Some s =>
        dailyAggregates rest
          (if match dget (dailyKeyOf s (entryMonth key)) acc with
              | None => true
              | Some old => s >? da_snapshotDate old
              end
           then dset (dailyKeyOf s (entryMonth key))
                     (aggregateOf vals s (entryMonth key)) acc
           else acc)
    | None => None
    end.
Proof.
  cbn [dailyAggregates]. cbv zeta.
  unfold entrySnapshot, entryMonth, dailyKeyOf, aggregateOf. reflexivity.
Qed.

Lemma daily_view (entries : dict Totals) (acc : dict DailyAggregate) :
  Forall (fun e => entrySnapshot (fst e) <> None) entries ->
  exists d2,
    dailyAggregates entries acc = Some d2
    /\ (forall dk, dget dk d2 = fold_left (dailyView dk) entries (dget dk acc))
    /\ (List.NoDup (keys acc) -> List.NoDup (keys d2)).
Proof.
  revert acc. induction entries as [|[key vals] entries IH]; intros acc He.
  - exists acc. auto.
  - apply Forall_cons in He. destruct He as [Hk He].
    cbn [fst] in Hk. rewrite dailyAggregates_cons.
    destruct (entrySnapshot key) as [s|] eqn:Es; [|contradiction].
    match goal with
    | |- context [dailyAggregates entries ?a] => set (acc' := a)
    end.
    destruct (IH acc' He) as (d2 & E2 & V2 & N2).
    exists d2. split; [exact E2|]. split.
    + intros dk. rewrite V2. cbn [fold_left]. f_equal.
      unfold dailyView. cbn [fst snd]. rewrite Es. subst acc'.
      destruct (String.eqb (dailyKeyOf s (entryMonth key)) dk) eqn:E.
      * apply String.eqb_eq in E. subst dk.
        destruct (dget (dailyKeyOf s (entryMonth key)) acc) as [old|] eqn:Eo.
        -- destruct (s >? da_snapshotDate old).
           ++ now rewrite dget_dset_eq.
           ++ exact Eo.
        -- now rewrite dget_dset_eq.
      * apply String.eqb_neq in E.
        destruct (match dget (dailyKeyOf s (entryMonth key)) acc with
                  | Some old => s >? da_snapshotDate old
                  | None => true
                  end); [|reflexivity].
        now rewrite dget_dset_ne.
    + intros Hn. apply N2. subst acc'.
      destruct (match dget (dailyKeyOf s (entryMonth key)) acc with
                | Some old => s >? da_snapshotDate old
                | None => true
                end); [|exact Hn].
      now apply NoDup_dset.
Qed.

(** The entry of a day is an entry of the first table for that day with
    the greatest snapshot. *)
Lemma dailyView_fold (entries : dict Totals) (dk : string)
      (o : option DailyAggregate) :
  let r := fold_left (dailyView dk) entries o in
  (r = o
   \/ exists e s,
       In e entries /\ entrySnapshot (fst e) = Some s
       /\ dailyKeyOf s (entryMonth (fst e)) = dk
       /\ r = Some (aggregateOf (snd e) s (entryMonth (fst e))))
  /\ (forall old, o = Some old ->
                  exists agg, r = Some agg
                              /\ da_snapshotDate old <= da_snapshotDate agg)
  /\ (forall e s,
         In e entries -> entrySnapshot (fst e) = Some s ->
         dailyKeyOf s (entryMonth (fst e)) = dk ->
         exists agg, r = Some agg /\ s <= da_snapshotDate agg).
Proof.
  revert o. induction entries as [|e entries IH]; intros o; cbn [fold_left].
  - split; [now left|]. split.
    + intros old ->. exists old. split; [reflexivity | lia].
    + intros e s [].
  - destruct (IH (dailyView dk o e)) as (I1 & I2 & I3). cbv zeta.
    set (r := fold_left (dailyView dk) entries (dailyView dk o e)) in *.
    assert (Hstep : (dailyView dk o e = o
                     \/ exists s, entrySnapshot (fst e) = Some s
                                  /\ dailyKeyOf s (entryMonth (fst e)) = dk
                                  /\ dailyView dk o e
                                     = Some (aggregateOf (snd e) s
                                               (entryMonth (fst e))))
                    /\ (forall old, o = Some old ->
                                    exists agg,
                                      dailyView dk o e = Some agg
                                      /\ da_snapshotDate old
                                         <= da_snapshotDate agg)
                    /\ (forall s, entrySnapshot (fst e) = Some s ->
                                  dailyKeyOf s (entryMonth (fst e)) = dk ->
                                  exists agg,
                                    dailyView dk o e = Some agg
                                    /\ s <= da_snapshotDate agg)).
    { unfold dailyView.
      destruct (entrySnapshot (fst e)) as [s|] eqn:Es.
      - destruct (String.eqb (dailyKeyOf s (entryMonth (fst e))) dk) eqn:E.
        + apply String.eqb_eq in E.
          destruct o as [old|].
          * destruct (s >? da_snapshotDate old) eqn:G.
            -- rewrite Z.gtb_ltb in G. apply Z.ltb_lt in G.
               split; [right; eauto|]. split.
               ++ intros old' [= <-]. eexists. split; [reflexivity|].
                  cbn [aggregateOf da_snapshotDate]. lia.
               ++ intros s' [= <-] _. eexists. split; [reflexivity|].
                  cbn [aggregateOf da_snapshotDate]. lia.
            -- rewrite Z.gtb_ltb in G. apply Z.ltb_ge in G.
               split; [now left|]. split.
               ++ intros old' [= <-]. exists old. split; [reflexivity | lia].
               ++ intros s' [= <-] _. exists old. split; [reflexivity | lia].
          * split; [right; eauto|]. split; [discriminate|].
            intros s' [= <-] _. eexists. split; [reflexivity|].
            cbn [aggregateOf da_snapshotDate]. lia.
        + apply String.eqb_neq in E. split; [now left|]. split.
          * intros old ->. exists old. split; [reflexivity | lia].
          * intros s' [= <-] C. contradiction.
      - split; [now left|]. split.
        + intros old ->. exists old. split; [reflexivity | lia].
        + discriminate. }
    destruct Hstep as (S1 & S2 & S3).
    split; [|split].
    + destruct I1 as [I1 | (e' & s & He' & Es & Ek & Er)].
      * rewrite I1. destruct S1 as [S1 | (s & Es & Ek & Er)].
        -- now left.
        -- right. exists e, s. split; [now left | auto].
      * right. exists e', s. split; [now right | auto].
    + intros old Ho. destruct (S2 old Ho) as (agg & Ea & La).
      destruct (I2 agg Ea) as (agg' & Ea' & La').
      exists agg'. split; [exact Ea' | lia].
    + intros e' s [<- | He'] Es Ek.
      * destruct (S3 s Es Ek) as (agg & Ea & La).
        destruct (I2 agg Ea) as (agg' & Ea' & La').
        exists agg'. split; [exact Ea' | lia].
      * exact (I3 e' s He' Es Ek).
Qed.

(** *** Third pass *)

Lemma pushAggregates_cons (a : DailyAggregate) (rest : list DailyAggregate)
      (data : MonthData) :
  pushAggregates (a :: rest) data
  = match da_closingMonth a with
    | Some c =>
        pushAggregates rest
          (dset (monthKeyOf c)
                (default [] (dget (monthKeyOf c) data) ++ [pointOf a c]) data)
    | None => None
    end.
Proof. cbn [pushAggregates]. cbv zeta. unfold pointOf. reflexivity. Qed.

Lemma push_view (aggregates : list DailyAggregate) (data : MonthData) :
  Forall (fun a => da_closingMonth a <> None) aggregates ->
  exists pushed,
    pushAggregates aggregates data = Some pushed
    /\ forall k,
        dget k pushed
        = match omap (pointFor k) aggregates with
          | [] => dget k data
          | news => Some (default [] (dget k data) ++ news)
          end.
Proof.
  revert data. induction aggregates as [|a aggregates IH]; intros data Ha.
  - exists data. auto.
  - apply Forall_cons in Ha. destruct Ha as [Hc Ha].
    rewrite pushAggregates_cons.
    destruct (da_closingMonth a) as [c|] eqn:Ec; [|contradiction].
    match goal with
    | |- context [pushAggregates aggregates ?d] => set (data' := d)
    end.
    destruct (IH data' Ha) as (pushed & Ep & Vp).
    exists pushed. split; [exact Ep|].
    intros k. rewrite Vp. cbn [omap list_omap]. unfold pointFor at 2.
    rewrite Ec. subst data'.
    destruct (String.eqb (monthKeyOf c) k) eqn:E.
    + apply String.eqb_eq in E. subst k. rewrite dget_dset_eq.
      cbn [default from_option id].
      destruct (omap (pointFor (monthKeyOf c)) aggregates) as [|x l];
        [reflexivity|].
      now rewrite <- app_assoc.
    + apply String.eqb_neq in E. rewrite dget_dset_ne by exact E.
      reflexivity.
Qed.

End AggregationPasses.

(* ================================================================== *)
(** ** Well-formed observations and their keys *)

Section WellFormed.
Context `{N : Number} `{H : Host}.
Import JsString JsDate.

Lemma Date_parse_toISOString (t : Z) :
  Z.abs t <= 8640000000000000 -> Date_parse (toISOString t) = Some t.
Proof. intros Ht. unfold Date_parse. now rewrite parseISO_toISOString. Qed.

Lemma Date_parse_range (s : string) (t : Z) :
  hostTimeValues -> Date_parse s = Some t -> Z.abs t <= 8640000000000000.
Proof.
  intros Hh. unfold Date_parse.
  destruct (parseISO s) as [t'|] eqn:E.
  - intros [= <-]. exact (parseISO_range s t' E).
  - apply Hh.
Qed.

(** The observations of [processRawData] are well formed. *)
Lemma processRawData_wellFormed (rawData : list RawCSVRow) :
  hostTimeValues -> Forall wellFormed (processRawData rawData).
Proof.
  intros Hh. apply Stdlib.Lists.List.Forall_forall. intros p Hp.
  unfold processRawData in Hp. apply In_omap in Hp.
  destruct Hp as (row & _ & E).
  pose proof (processRow_inv row) as K. rewrite E in K.
  destruct K as (_ & _ & _ & _ & Ks & _ & Ky & Kd & Kr & _).
  split; [exact (Date_parse_range _ _ Hh Ks)|]. auto.
Qed.

Lemma toISOString_inj (s t : Z) :
  Z.abs s <= 8640000000000000 -> Z.abs t <= 8640000000000000 ->
  toISOString s = toISOString t -> s = t.
Proof.
  intros Hs Ht E. apply (f_equal parseISO) in E.
  rewrite !parseISO_toISOString in E by assumption. now injection E.
Qed.

Lemma keyOf_split (p : ProcessedRow) :
  split "|" (keyOf p)
  = [toISOString (p_snapshotDate p); monthKeyOf (p_closingMonth p)].
Proof.
  unfold keyOf. apply split_key.
  - apply includes_bar_toISOString.
  - apply includes_bar_monthKeyOf.
Qed.

Lemma entrySnapshot_keyOf (p : ProcessedRow) :
  wellFormed p -> entrySnapshot (keyOf p) = Some (p_snapshotDate p).
Proof.
  intros (Hs & _). unfold entrySnapshot. rewrite keyOf_split. cbn [nth].
  now apply Date_parse_toISOString.
Qed.

Lemma entryMonth_keyOf (p : ProcessedRow) :
  entryMonth (keyOf p) = monthKeyOf (p_closingMonth p).
Proof. unfold entryMonth. rewrite keyOf_split. reflexivity. Qed.

Lemma keyOf_eq (p q : ProcessedRow) :
  wellFormed p -> wellFormed q ->
  String.eqb (keyOf q) (keyOf p)
  = sameSnapshot (p_snapshotDate p) (monthKeyOf (p_closingMonth p)) q.
Proof.
  intros (Hp & _) (Hq & _). unfold sameSnapshot.
  destruct (String.eqb (keyOf q) (keyOf p)) eqn:E.
  - apply String.eqb_eq in E. apply (f_equal (split "|")) in E.
    rewrite !keyOf_split in E. injection E as E1 E2.
    apply toISOString_inj in E1; [|assumption..].
    rewrite E1, E2, Z.eqb_refl, String.eqb_refl. reflexivity.
  - destruct (p_snapshotDate q =? p_snapshotDate p) eqn:E1; [|reflexivity].
    destruct (String.eqb (monthKeyOf (p_closingMonth q))
                         (monthKeyOf (p_closingMonth p))) eqn:E2;
      [|reflexivity].
    apply Z.eqb_eq in E1. apply String.eqb_eq in E2.
    apply String.eqb_neq in E. exfalso. apply E.
    unfold keyOf. now rewrite E1, E2.
Qed.

Lemma dailyKeyOf_iso (s : Z) (monthKey : string) :
  dailyKeyOf s monthKey = append (isoDate s) (append "|" monthKey).
Proof. unfold dailyKeyOf. now rewrite isoDay_toISOString. Qed.

Lemma dailyKeyOf_inj (s s' : Z) (a a' : ProcessedRow) :
  dailyKeyOf s (monthKeyOf (p_closingMonth a))
  = dailyKeyOf s' (monthKeyOf (p_closingMonth a')) ->
  isoDate s = isoDate s'
  /\ monthKeyOf (p_closingMonth a) = monthKeyOf (p_closingMonth a').
Proof.
  rewrite !dailyKeyOf_iso. apply key_inj.
  - now apply includes_isoDate.
  - apply includes_bar_monthKeyOf.
  - now apply includes_isoDate.
  - apply includes_bar_monthKeyOf.
Qed.

(** The closing month that the second pass reads back from the key of
    a well-formed observation. *)
Lemma closingMonth_keyOf (p : ProcessedRow) :
  wellFormed p ->
  exists c,
    Date_parse (append (monthKeyOf (p_closingMonth p)) "-01T00:00:00.000Z")
    = Some c
    /\ monthKeyOf c = monthKeyOf (p_closingMonth p)
    /\ getUTCFullYear c = 2025
    /\ getUTCMonth c = getUTCMonth (p_closingMonth p).
Proof.
  intros (_ & Hy & _).
  destruct (monthKeyOf_2025 _ Hy) as [Ek Hm]. rewrite Ek.
  destruct (parseISO_firstOfMonth (getUTCMonth (p_closingMonth p) + 1))
    as (P1 & P2 & P3 & P4); [lia|].
  exists (firstOfMonth (getUTCMonth (p_closingMonth p) + 1)).
  unfold Date_parse. rewrite P1. split; [reflexivity|].
  split; [exact P4|]. split; [exact P2|]. lia.
Qed.

End WellFormed.

(* ================================================================== *)
(** ** What [aggregateDataByMonth] computes *)

Section AggregationSpec.
Context `{N : Number} `{H : Host}.
Import JsString JsDate.

(** The entries of the second table, read in terms of observations. *)
Lemma daily_entry (rows : list ProcessedRow) (dk : string)
      (agg : DailyAggregate) :
  Forall wellFormed rows ->
  fold_left (dailyView dk) (dataBySnapshotAndMonth rows) None = Some agg ->
  exists p,
    In p rows
    /\ dk = dailyKeyOf (p_snapshotDate p) (monthKeyOf (p_closingMonth p))
    /\ agg = aggregateOf
               (totalsOf
                  (List.filter
                     (sameSnapshot (p_snapshotDate p)
                                   (monthKeyOf (p_closingMonth p))) rows))
               (p_snapshotDate p) (monthKeyOf (p_closingMonth p))
    /\ forall q, In q rows ->
                 dailyKeyOf (p_snapshotDate q) (monthKeyOf (p_closingMonth q))
                 = dk ->
                 p_snapshotDate q <= p_snapshotDate p.
Proof.
  intros Hw E.
  pose proof (proj1 (Stdlib.Lists.List.Forall_forall _ _) Hw) as W.
  destruct (dailyView_fold (dataBySnapshotAndMonth rows) dk None)
    as (D1 & _ & D3).
  cbv zeta in D1, D3. rewrite E in D1, D3.
  destruct D1 as [D1 | ([key vals] & s & He & Es & Ek & Ea)]; [discriminate|].
  cbn [fst snd] in *.
  assert (Hkey : In key (keys (dataBySnapshotAndMonth rows))).
  { unfold keys. change key with (fst (key, vals)). now apply in_map. }
  apply first_keys in Hkey. destruct Hkey as (p & Hp & <-).
  rewrite (entrySnapshot_keyOf p (W p Hp)) in Es. injection Es as <-.
  rewrite entryMonth_keyOf in Ek, Ea.
  pose proof (In_dget _ _ _ (first_NoDup rows) He) as Ev.
  rewrite first_entry in Ev.
  assert (F : List.filter (fun r => String.eqb (keyOf r) (keyOf p)) rows
              = List.filter (sameSnapshot (p_snapshotDate p)
                               (monthKeyOf (p_closingMonth p))) rows).
  { apply filter_ext_in. intros q Hq. apply keyOf_eq; auto. }
  rewrite F in Ev.
  exists p. split; [exact Hp|]. split; [now symmetry|]. split.
  - injection Ea as ->.
    destruct (List.filter _ rows) as [|x l] eqn:Fl.
    + discriminate.
    + now injection Ev as <-.
  - intros q Hq Eq.
    assert (Hkq : In (keyOf q) (keys (dataBySnapshotAndMonth rows)))
      by (apply first_keys; eauto).
    unfold keys in Hkq. apply in_map_iff in Hkq.
    destruct Hkq as ([key' vals'] & Ek' & He'). cbn [fst] in Ek'. subst key'.
    destruct (D3 (keyOf q, vals') (p_snapshotDate q) He') as (agg' & Ea' & L).
    + cbn [fst]. now apply entrySnapshot_keyOf, W.
    + cbn [fst]. now rewrite entryMonth_keyOf.
    + injection Ea' as <-. injection Ea as ->.
      cbn [aggregateOf da_snapshotDate] in L. exact L.
Qed.

(** Every observation has an entry for its day and month. *)
Lemma daily_covered (rows : list ProcessedRow) (p : ProcessedRow) :
  Forall wellFormed rows -> In p rows ->
  exists agg,
    fold_left (dailyView (dailyKeyOf (p_snapshotDate p)
                                     (monthKeyOf (p_closingMonth p))))
              (dataBySnapshotAndMonth rows) None = Some agg.
Proof.
  intros Hw Hp.
  pose proof (proj1 (Stdlib.Lists.List.Forall_forall _ _) Hw) as W.
  assert (Hk : In (keyOf p) (keys (dataBySnapshotAndMonth rows)))
    by (apply first_keys; eauto).
  unfold keys in Hk. apply in_map_iff in Hk.
  destruct Hk as ([key vals] & Ek & He). cbn [fst] in Ek. subst key.
  destruct (dailyView_fold (dataBySnapshotAndMonth rows)
              (dailyKeyOf (p_snapshotDate p) (monthKeyOf (p_closingMonth p)))
              None) as (_ & _ & D3).
  destruct (D3 (keyOf p, vals) (p_snapshotDate p) He) as (agg & Ea & _).
  - cbn [fst]. now apply entrySnapshot_keyOf, W.
  - cbn [fst]. now rewrite entryMonth_keyOf.
  - eauto.
Qed.

(** The three passes succeed on well-formed observations. *)
Lemma aggregate_passes (rows : list ProcessedRow) (data : MonthData) :
  Forall wellFormed rows ->
  exists d2 pushed,
    List.NoDup (keys d2)
    /\ (forall dk, dget dk d2
                   = fold_left (dailyView dk) (dataBySnapshotAndMonth rows) None)
    /\ (forall k,
           dget k pushed
           = match omap (pointFor k) (values d2) with
             | [] => dget k data
             | news => Some (default [] (dget k data) ++ news)
             end)
    /\ aggregateDataByMonth rows data
       = Some (map (fun kv =>
                      (fst kv,
                       sort (fun a b =>
                               daysBeforeClose b - daysBeforeClose a >? 0)
                            (snd kv)))
                   pushed).
Proof.
  intros Hw.
  pose proof (proj1 (Stdlib.Lists.List.Forall_forall _ _) Hw) as W.
  destruct (daily_view (dataBySnapshotAndMonth rows) []) as (d2 & E2 & V2 & N2).
  { apply Stdlib.Lists.List.Forall_forall. intros [key vals] He.
    assert (Hkey : In key (keys (dataBySnapshotAndMonth rows))).
    { unfold keys. change key with (fst (key, vals)). now apply in_map. }
    apply first_keys in Hkey. destruct Hkey as (p & Hp & <-).
    cbn [fst]. rewrite (entrySnapshot_keyOf p (W p Hp)). discriminate. }
  assert (Hn : List.NoDup (keys d2)) by (apply N2; constructor).
  destruct (push_view (values d2) data) as (pushed & Ep & Vp).
  { apply Stdlib.Lists.List.Forall_forall. intros agg Ha.
    apply (In_values_dget _ _ Hn) in Ha. destruct Ha as (dk & Ea).
    rewrite V2 in Ea. cbn [dget] in Ea.
    destruct (daily_entry rows dk agg Hw Ea) as (p & Hp & _ & -> & _).
    cbn [aggregateOf da_closingMonth].
    destruct (closingMonth_keyOf p (W p Hp)) as (c & Ec & _).
    rewrite Ec. discriminate. }
  exists d2, pushed. split; [exact Hn|]. split; [exact V2|].
  split; [exact Vp|].
  unfold aggregateDataByMonth. rewrite E2, Ep. reflexivity.
Qed.

Lemma pointFor_aggregateOf (k : string) (vals : Totals) (s : Z)
      (monthKey : string) (c : Z) :
  Date_parse (append monthKey "-01T00:00:00.000Z") = Some c ->
  pointFor k (aggregateOf vals s monthKey)
  = if String.eqb (monthKeyOf c) k
    then Some {| snapshotDate := s;
                 daysBeforeClose :=
                   daysUntil (lastDayOfMonth (getUTCFullYear c) (getUTCMonth c))
                             s;
                 rawPipeline := raw vals;
                 weightedPipeline := weighted vals |}
    else None.
Proof.
  intros E. unfold pointFor. cbn [aggregateOf da_closingMonth].
  rewrite E. reflexivity.
Qed.

(** The point pushed for the entry of an observation. *)
Lemma pointFor_entry (rows : list ProcessedRow) (dk k : string)
      (agg : DailyAggregate) (pt : AggregatedSnapshot) :
  Forall wellFormed rows ->
  fold_left (dailyView dk) (dataBySnapshotAndMonth rows) None = Some agg ->
  pointFor k agg = Some pt ->
  pointOfRows rows k pt
  /\ dk = append (isoDate (snapshotDate pt)) (append "|" k)
  /\ -5 <= daysBeforeClose pt <= 89.
Proof.
  intros Hw Ea Ept.
  pose proof (proj1 (Stdlib.Lists.List.Forall_forall _ _) Hw) as W.
  destruct (daily_entry rows dk agg Hw Ea) as (p & Hp & Edk & Eagg & Hmax).
  destruct (closingMonth_keyOf p (W p Hp)) as (c & Ec & Ek & Ey & Em).
  rewrite Eagg, (pointFor_aggregateOf _ _ _ _ c Ec), Ek, Ey, Em in Ept.
  destruct (W p Hp) as (_ & _ & Hd & Hr). rewrite <- Hd in Ept.
  destruct (String.eqb (monthKeyOf (p_closingMonth p)) k) eqn:E;
    [|discriminate].
  apply String.eqb_eq in E. injection Ept as <-.
  cbn [snapshotDate daysBeforeClose rawPipeline weightedPipeline].
  split; [|split].
  - exists p.
    cbn [snapshotDate daysBeforeClose rawPipeline weightedPipeline].
    split; [exact Hp|]. split; [exact E|].
    split; [reflexivity|]. split; [reflexivity|]. rewrite <- E.
    split; [|split; reflexivity].
    intros q Hq Eq Eday. apply Hmax; [exact Hq|].
    rewrite Edk, !dailyKeyOf_iso, Eq, Eday. reflexivity.
  - rewrite Edk, dailyKeyOf_iso, E. reflexivity.
  - exact Hr.
Qed.

End AggregationSpec.

(* ================================================================== *)
(** ** The aggregated trajectories *)

Section AggregatedTrajectories.
Context `{N : Number} `{H : Host}.
Import JsString JsDate.

Lemma aggregated_entry (pushed : MonthData) (k : string)
      (traj : list AggregatedSnapshot) :
  dget k (map (fun kv =>
                 (fst kv,
                  sort (fun a b => daysBeforeClose b - daysBeforeClose a >? 0)
                       (snd kv)))
              pushed) = Some traj ->
  exists l, dget k pushed = Some l /\ Permutation traj l.
Proof.
  rewrite dget_map. destruct (dget k pushed) as [l|]; [|discriminate].
  intros [= <-]. exists l. split; [reflexivity | apply sort_perm].
Qed.

(** The days of the points pushed for a month are pairwise distinct. *)
Lemma pushed_days_NoDup (k : string) (d2 : dict DailyAggregate) :
  List.NoDup (keys d2) ->
  (forall dk agg pt,
      In (dk, agg) d2 -> pointFor k agg = Some pt ->
      dk = append (isoDate (snapshotDate pt)) (append "|" k)) ->
  List.NoDup (map (fun pt => isoDate (snapshotDate pt))
                  (omap (pointFor k) (values d2))).
Proof.
  induction d2 as [|[dk agg] d2 IH]; intros Hn Hk; [constructor|].
  cbn [keys map fst] in Hn. apply List.NoDup_cons_iff in Hn.
  destruct Hn as [Hdk Hn].
  assert (IH' : List.NoDup (map (fun pt => isoDate (snapshotDate pt))
                                (omap (pointFor k) (values d2)))).
  { apply IH; [exact Hn|]. intros dk' agg' pt' Hin. apply Hk. now right. }
  cbn [values map snd omap list_omap]. fold (values d2).
  destruct (pointFor k agg) as [pt|] eqn:Ept; [|exact IH'].
  cbn [map]. apply List.NoDup_cons_iff. split; [|exact IH'].
  intros Hin. apply in_map_iff in Hin. destruct Hin as (pt' & Eday & Hpt').
  apply In_omap in Hpt'. destruct Hpt' as (agg' & Hagg' & Ept').
  unfold values in Hagg'. apply in_map_iff in Hagg'.
  destruct Hagg' as ([dk' agg''] & E' & Hin'). cbn [snd] in E'. subst agg''.
  apply Hdk.
  rewrite (Hk dk agg pt (or_introl eq_refl) Ept).
  rewrite <- Eday.
  rewrite <- (Hk dk' agg' pt' (or_intror Hin') Ept').
  change dk' with (fst (dk', agg')). now apply in_map.
Qed.

(** X19.  Every point of an aggregated trajectory either was there
    before, or stands for the observations of one calendar day for that
    closing month. *)
Theorem aggregated_points_from_rows
        (rows : list ProcessedRow) (data out : MonthData)
        (k : string) (traj : list AggregatedSnapshot)
        (pt : AggregatedSnapshot) :
  Forall wellFormed rows ->
  aggregateDataByMonth rows data = Some out ->
  dget k out = Some traj ->
  In pt traj ->
  In pt (default [] (dget k data))
  \/ (pointOfRows rows k pt /\ -5 <= daysBeforeClose pt <= 89).
Proof.
  intros Hw Eout Ek Hpt.
  destruct (aggregate_passes rows data Hw) as (d2 & pushed & Hn & V2 & Vp & E).
  rewrite E in Eout. injection Eout as <-.
  apply aggregated_entry in Ek. destruct Ek as (l & El & P).
  apply (Permutation_in _ P) in Hpt.
  rewrite Vp in El.
  assert (Hnew : In pt (omap (pointFor k) (values d2)) ->
                 pointOfRows rows k pt /\ -5 <= daysBeforeClose pt <= 89).
  { intros Hin. apply In_omap in Hin. destruct Hin as (agg & Hagg & Ept).
    apply (In_values_dget _ _ Hn) in Hagg. destruct Hagg as (dk & Edk).
    rewrite V2 in Edk.
    destruct (pointFor_entry rows dk k agg pt Hw Edk Ept) as (K1 & _ & K2).
    auto. }
  destruct (omap (pointFor k) (values d2)) as [|x news].
  - left. rewrite El. exact Hpt.
  - injection El as <-. apply in_app_iff in Hpt.
    destruct Hpt as [Hold | Hin]; [now left | right; now apply Hnew].
Qed.

(** A month that had no trajectory before. *)
Lemma fresh_trajectory (rows : list ProcessedRow) (data out : MonthData)
      (k : string) (traj : list AggregatedSnapshot) :
  Forall wellFormed rows ->
  aggregateDataByMonth rows data = Some out ->
  dget k data = None -> dget k out = Some traj ->
  traj <> []
  /\ List.NoDup (map (fun pt => isoDate (snapshotDate pt)) traj)
  /\ Forall (fun pt => pointOfRows rows k pt
                       /\ -5 <= daysBeforeClose pt <= 89) traj.
Proof.
  intros Hw Eout Ed Ek.
  destruct (aggregate_passes rows data Hw) as (d2 & pushed & Hn & V2 & Vp & E).
  rewrite E in Eout. injection Eout as <-.
  apply aggregated_entry in Ek. destruct Ek as (l & El & P).
  rewrite Vp, Ed in El. cbn [default from_option id app] in El.
  assert (Hkeys : forall dk agg pt,
             In (dk, agg) d2 -> pointFor k agg = Some pt ->
             pointOfRows rows k pt
             /\ dk = append (isoDate (snapshotDate pt)) (append "|" k)
             /\ -5 <= daysBeforeClose pt <= 89).
  { intros dk agg pt Hin Ept.
    apply (In_dget _ _ _ Hn) in Hin. rewrite V2 in Hin.
    exact (pointFor_entry rows dk k agg pt Hw Hin Ept). }
  pose proof (pushed_days_NoDup k d2 Hn
                (fun dk agg pt Hin Ept =>
                   proj1 (proj2 (Hkeys dk agg pt Hin Ept)))) as Hnd.
  assert (Hall : Forall (fun pt => pointOfRows rows k pt
                                   /\ -5 <= daysBeforeClose pt <= 89)
                        (omap (pointFor k) (values d2))).
  { apply Stdlib.Lists.List.Forall_forall. intros pt Hin.
    apply In_omap in Hin. destruct Hin as (agg & Hagg & Ept).
    unfold values in Hagg. apply in_map_iff in Hagg.
    destruct Hagg as ([dk agg'] & E' & Hin'). cbn [snd] in E'. subst agg'.
    destruct (Hkeys dk agg pt Hin' Ept) as (K1 & _ & K2). auto. }
  destruct (omap (pointFor k) (values d2)) as [|x news]; [discriminate|].
  injection El as <-. split; [|split].
  - intros ->. apply Permutation_nil in P. discriminate P.
  - revert Hnd. apply Permutation_NoDup, Permutation_map.
    now symmetry.
  - revert Hall. apply Permutation_Forall. now symmetry.
Qed.

(** Every observation has its point. *)
Lemma row_point (rows : list ProcessedRow) (data out : MonthData)
      (p : ProcessedRow) :
  Forall wellFormed rows ->
  aggregateDataByMonth rows data = Some out ->
  In p rows ->
  exists traj pt,
    dget (monthKeyOf (p_closingMonth p)) out = Some traj
    /\ In pt traj
    /\ isoDate (snapshotDate pt) = isoDate (p_snapshotDate p)
    /\ pointOfRows rows (monthKeyOf (p_closingMonth p)) pt.
Proof.
  intros Hw Eout Hp.
  pose proof (proj1 (Stdlib.Lists.List.Forall_forall _ _) Hw) as W.
  destruct (aggregate_passes rows data Hw) as (d2 & pushed & Hn & V2 & Vp & E).
  rewrite E in Eout. injection Eout as <-.
  destruct (daily_covered rows p Hw Hp) as (agg & Ea).
  destruct (daily_entry rows _ agg Hw Ea) as (p' & Hp' & Edk & Eagg & _).
  apply dailyKeyOf_inj in Edk. destruct Edk as [Eday Emk].
  destruct (closingMonth_keyOf p' (W p' Hp')) as (c & Ec & Ek & _).
  pose proof (pointFor_aggregateOf (monthKeyOf (p_closingMonth p))
                (totalsOf (List.filter
                   (sameSnapshot (p_snapshotDate p')
                      (monthKeyOf (p_closingMonth p'))) rows))
                (p_snapshotDate p') _ c Ec) as Ept.
  rewrite <- Eagg, Ek, <- Emk, String.eqb_refl in Ept.
  match type of Ept with _ = Some ?x => set (pt := x) in * end.
  destruct (pointFor_entry rows _ _ agg pt Hw Ea Ept) as (K1 & _ & _).
  assert (Hin : In pt (omap (pointFor (monthKeyOf (p_closingMonth p)))
                            (values d2))).
  { apply In_omap. exists agg. split; [|exact Ept].
    apply (dget_In_values
             (dailyKeyOf (p_snapshotDate p) (monthKeyOf (p_closingMonth p)))).
    now rewrite V2. }
  pose proof (Vp (monthKeyOf (p_closingMonth p))) as El.
  destruct (omap (pointFor (monthKeyOf (p_closingMonth p))) (values d2))
    as [|x news] eqn:En; [destruct Hin|].
  rewrite dget_map, El. cbn [option_map].
  eexists _, pt. split; [reflexivity|]. split.
  - apply (Permutation_in _ (Permutation_sym (sort_perm _ _))).
    apply in_app_iff. now right.
  - split; [|exact K1]. subst pt. cbn [snapshotDate]. now symmetry.
Qed.

(** X20.  In a month that had no trajectory before, the aggregation
    leaves exactly one point for each calendar day on which the month
    has an observation: the days of the points are pairwise distinct,
    they are the days of the observations of the month, and every point
    is the point of its day, between -5 and 89 days before the close.
    Whatever was there before, every observation finds the point of its
    day in the trajectory of its month. *)
Theorem aggregated_one_point_per_day
        (rows : list ProcessedRow) (data out : MonthData)
        (k : string) (traj : list AggregatedSnapshot) :
  Forall wellFormed rows ->
  aggregateDataByMonth rows data = Some out ->
  dget k out = Some traj ->
  (forall p, In p rows -> monthKeyOf (p_closingMonth p) = k ->
     exists pt, In pt traj
                /\ isoDate (snapshotDate pt) = isoDate (p_snapshotDate p)
                /\ pointOfRows rows k pt)
  /\ (dget k data = None ->
      traj <> []
      /\ List.NoDup (map (fun pt => isoDate (snapshotDate pt)) traj)
      /\ (forall day,
             In day (map (fun pt => isoDate (snapshotDate pt)) traj)
             <-> exists p, In p rows /\ monthKeyOf (p_closingMonth p) = k
                           /\ isoDate (p_snapshotDate p) = day)
      /\ Forall (fun pt => pointOfRows rows k pt
                           /\ -5 <= daysBeforeClose pt <= 89) traj).
Proof.
  intros Hw Eout Ek.
  assert (Hcov : forall p, In p rows -> monthKeyOf (p_closingMonth p) = k ->
            exists pt, In pt traj
                       /\ isoDate (snapshotDate pt) = isoDate (p_snapshotDate p)
                       /\ pointOfRows rows k pt).
  { intros p Hp Emk.
    destruct (row_point rows data out p Hw Eout Hp)
      as (traj' & pt & Et & Hpt & Eday & Hrows).
    rewrite Emk, Ek in Et. injection Et as <-.
    rewrite Emk in Hrows. eauto. }
  split; [exact Hcov|].
  intros Ed.
  destruct (fresh_trajectory rows data out k traj Hw Eout Ed Ek)
    as (Hne & Hnd & Hall).
  split; [exact Hne|]. split; [exact Hnd|]. split; [|exact Hall].
  intros day. rewrite in_map_iff. split.
  - intros (pt & <- & Hpt).
    rewrite Stdlib.Lists.List.Forall_forall in Hall.
    destruct (Hall pt Hpt) as [(p & Hp & Emk & Es & _) _].
    exists p. rewrite Es. auto.
  - intros (p & Hp & Emk & <-).
    destruct (Hcov p Hp Emk) as (pt & Hpt & Eday & _). eauto.
Qed.

(** X21.  [loadData] never throws on the rows that the CSV reader
    delivers, whatever the analyzer held before.  Every snapshot kept
    by the parser is a valid date, so [toISOString] does not throw in
    the first pass of the aggregation; the second pass reads each
    snapshot and each closing month back from the key they were written
    to and finds the same valid dates, so that [toISOString] throws
    neither there nor in the third pass.  The analyzer then holds the
    parsed rows. *)
Theorem loadData_never_rejects (a : Analyzer) (rawData : list RawCSVRow) :
  hostTimeValues ->
  (exists out,
      aggregateDataByMonth (processRawData rawData) (aggregatedDataByMonth a)
      = Some out)
  /\ exists a', loadData a rawData = Some a'
                /\ allData a' = processRawData rawData.
Proof.
  intros Hh.
  destruct (aggregate_passes (processRawData rawData)
              (aggregatedDataByMonth a)
              (processRawData_wellFormed rawData Hh))
    as (d2 & pushed & _ & _ & _ & E).
  split; [eauto|].
  assert (L : exists a', loadData a rawData = Some a').
  { unfold loadData.
    destruct (length (processRawData rawData) =? 0)%nat; [eauto|].
    rewrite E.
    destruct (categorizeMonths _ _) as [historical current].
    destruct (calculateGrowthRates _ historical) as [a2 smoothed].
    eauto. }
  destruct L as [a' L]. exists a'. split; [exact L|].
  exact (loadData_allData a a' rawData L).
Qed.

(** X22.  On an analyzer loaded once, every result of [getForecast] has
    a forecast: its month has a trajectory, the latest snapshot of it
    stands for observations of the input, at most 89 and at least -5
    days before the close. *)
Theorem fresh_load_forecasts
        (a' : Analyzer) (rawData : list RawCSVRow) (r : NewAnalysisResult) :
  hostTimeValues ->
  loadData newAnalyzer rawData = Some a' ->
  In r (getForecast a') ->
  exists (latest : AggregatedSnapshot) (f : num),
    In (month r) (currentMonths a')
    /\ latestSnapshotOf
         (default [] (dget (month r) (aggregatedDataByMonth a')))
       = Some latest
    /\ pointOfRows (processRawData rawData) (month r) latest
    /\ daysToClose r = daysBeforeClose latest
    /\ -5 <= daysToClose r <= 89
    /\ currentWeightedValue r = weightedPipeline latest
    /\ trajectory r <> []
    /\ forecast r = Some f.
Proof.
  intros Hh L Hr.
  unfold getForecast in Hr. apply in_map_iff in Hr.
  destruct Hr as (k & <- & Hk).
  destruct (processRawData rawData) as [|p0 rows0] eqn:Er.
  { unfold loadData in L. rewrite Er in L. cbn in L.
    injection L as <-. destruct Hk. }
  destruct (loadData_fields newAnalyzer a' rawData L) as
      (_ & Ed & Ea & _ & Ecat & _); [congruence|].
  cbn [aggregatedDataByMonth newAnalyzer] in Ea.
  rewrite forecastMonth_month.
  assert (Hc : In k (snd (categorizeMonths (aggregatedDataByMonth a')
                                           (actualClosingValues a'))))
    by (rewrite <- Ecat; exact Hk).
  apply categorizeMonths_current in Hc. destruct Hc as [Hkeys _].
  apply dget_In_keys in Hkeys. destruct Hkeys as [traj Et].
  rewrite Ed in Ea. rewrite <- Er.
  destruct (fresh_trajectory (processRawData rawData) [] _ k traj
              (processRawData_wellFormed rawData Hh) Ea eq_refl Et)
    as (Hne & _ & Hall).
  destruct traj as [|x l]; [congruence|]. clear Hne.
  pose proof (latest_fold snapshotDate l x) as K. cbv zeta in K.
  destruct K as [K1 _].
  set (latest := fold_left _ l x) in K1.
  assert (El : latestSnapshotOf (x :: l) = Some latest) by reflexivity.
  pose proof (proj1 (Stdlib.Lists.List.Forall_forall _ _) Hall latest K1)
    as [Hpt Hrange].
  assert (G : (daysBeforeClose latest >? 89) = false)
    by (rewrite Z.gtb_ltb; apply Z.ltb_ge; lia).
  unfold forecastMonth. rewrite Et, El, G.
  destruct (fold_left (projectStep _) _ _) as [[f t] tr].
  cbn [daysToClose currentWeightedValue trajectory forecast].
  exists latest, f. split; [exact Hk|]. split; [exact El|].
  split; [exact Hpt|]. split; [reflexivity|]. split; [exact Hrange|].
  split; [reflexivity|]. split; [discriminate | reflexivity].
Qed.

End AggregatedTrajectories.

(* ================================================================== *)
(** ** The dates of the appendix and the historical trajectories *)

Section AppendixDates.
Context `{N : Number} `{H : Host}.
Import JsString JsDate.

Lemma breakdown_dates (rateOf : Z -> num) (ds : list Z) (v : num) (t : Z)
      (acc : list ForecastDay) :
  exists news,
    snd (fold_left (breakdownStep rateOf) ds (v, t, acc)) = acc ++ news
    /\ map fd_date news = map isoDate (daysAfter t (length ds)).
Proof.
  revert v t acc. induction ds as [|d ds IH]; intros v t acc.
  - exists []. cbn. now rewrite app_nil_r.
  - cbn [fold_left breakdownStep].
    destruct (IH (v * (ofZ 1 + rateOf d))%num (t + msPerDay)
                 (acc ++ [{| fd_date :=
                               nth 0 (split "T" (toISOString (t + msPerDay)))
                                   EmptyString;
                             fd_daysBefore := d;
                             fd_startValue := v;
                             fd_growthRate := rateOf d;
                             fd_endValue := (v * (ofZ 1 + rateOf d))%num |}]))
      as (news & E & D).
    eexists (_ :: news). rewrite E. split.
    + now rewrite <- app_assoc.
    + cbn [map fd_date length]. rewrite daysAfter_shift. cbn [map].
      now rewrite D, isoDay_toISOString.
Qed.

(** A month that is forecast. *)
Lemma forecastMonth_inv (a : Analyzer) (monthKey : string) :
  match forecast (forecastMonth a monthKey) with
  | Some f =>
      exists first rest latest,
        dget monthKey (aggregatedDataByMonth a) = Some (first :: rest)
        /\ latestSnapshotOf (first :: rest) = Some latest
        /\ trajectory (forecastMonth a monthKey)
           = map toTrajectoryPoint (first :: rest)
        /\ daysToClose (forecastMonth a monthKey) = daysBeforeClose latest
        /\ map t_snapshotDate (forecastTrajectory (forecastMonth a monthKey))
           = daysAfter (snapshotDate latest)
                       (Z.to_nat (daysBeforeClose latest))
  | None => True
  end.
Proof.
  unfold forecastMonth.
  destruct (dget monthKey (aggregatedDataByMonth a)) as [[|p rest]|];
    [exact I| |exact I].
  destruct (latestSnapshotOf (p :: rest)) as [latest|] eqn:El; [|exact I].
  destruct (daysBeforeClose latest >? 89); [exact I|].
  destruct (projectStep_fold (rateAt (forecastGrowthRates a))
                             (countdown (daysBeforeClose latest))
                             (weightedPipeline latest)
                             (snapshotDate latest) [])
    as (news & E & _ & S & _).
  rewrite E. cbn [forecast trajectory daysToClose forecastTrajectory app].
  exists p, rest, latest. rewrite S, countdown_length. auto.
Qed.

(** X23.  The daily breakdown of the appendix is dated from the first
    point of the month's trajectory: its entries, from the day after
    that point on, carry the calendar days 1, 2, ... days after it,
    whereas the points of the forecast trajectory are dated from the
    latest snapshot. *)
Theorem appendix_dates (a : Analyzer) (fc : ForecastCalculation) :
  In fc (forecastCalculations (getAppendixData a)) ->
  exists first rest latest,
    dget (fc_month fc) (aggregatedDataByMonth a) = Some (first :: rest)
    /\ latestSnapshotOf (first :: rest) = Some latest
    /\ fc_daysToClose fc = daysBeforeClose latest
    /\ map fd_date (rev (dailyBreakdown fc))
       = map isoDate (daysAfter (snapshotDate first)
                                (Z.to_nat (fc_daysToClose fc)))
    /\ map t_snapshotDate
           (forecastTrajectory (forecastMonth a (fc_month fc)))
       = daysAfter (snapshotDate latest) (Z.to_nat (fc_daysToClose fc)).
Proof.
  unfold getAppendixData. cbn [forecastCalculations]. intros Hin.
  apply filter_In in Hin. destruct Hin as [Hin _].
  apply In_omap in Hin. destruct Hin as (r & Hr & E).
  unfold getForecast in Hr. apply in_map_iff in Hr.
  destruct Hr as (monthKey & <- & _).
  unfold forecastCalculationOf in E.
  pose proof (forecastMonth_inv a monthKey) as K.
  destruct (forecast (forecastMonth a monthKey)) as [f|]; [|discriminate].
  destruct (truthy f); [|discriminate]. cbv [negb] in E.
  destruct K as (first & rest & latest & Ed & El & Et & Ec & Es).
  rewrite Et, Ec in E. cbn [map toTrajectoryPoint t_snapshotDate] in E.
  destruct (breakdown_dates
              (rateAt (forecastGrowthRates a))
              (countdown (daysBeforeClose latest))
              (currentWeightedValue (forecastMonth a monthKey))
              (snapshotDate first) [])
    as (news & Eb & D).
  destruct (fold_left _ _ _) as [[v t] days]. cbn [snd app] in Eb. subst days.
  injection E as <-.
  cbn [fc_month fc_daysToClose dailyBreakdown].
  rewrite forecastMonth_month, rev_involutive, D, countdown_length.
  exists first, rest, latest. auto.
Qed.

Lemma historical_fold (data : MonthData) (ks : list string)
      (acc : dict (list NewTrajectoryPoint)) (k : string) :
  dget k
    (fold_left
       (fun acc monthKey =>
          match dget monthKey data with
          | Some monthData =>
              dset monthKey (map toTrajectoryPoint monthData) acc
          | None => acc
          end) ks acc)
  = if existsb (String.eqb k) ks then
      match dget k data with
      | Some monthData => Some (map toTrajectoryPoint monthData)
      | None => dget k acc
      end
    else dget k acc.
Proof.
  revert acc. induction ks as [|k0 ks IH]; intros acc; cbn [fold_left existsb];
    [reflexivity|].
  rewrite IH. clear IH.
  destruct (String.eqb k k0) eqn:E.
  - apply String.eqb_eq in E. subst k0. cbn [orb].
    destruct (dget k data) as [md|]; [|now destruct (existsb _ ks)].
    rewrite dget_dset_eq. now destruct (existsb _ ks).
  - apply String.eqb_neq in E. cbn [orb].
    assert (K : dget k
                  match dget k0 data with
                  | Some monthData =>
                      dset k0 (map toTrajectoryPoint monthData) acc
                  | None => acc
                  end = dget k acc).
    { destruct (dget k0 data); [|reflexivity].
      apply dget_dset_ne. congruence. }
    now rewrite K.
Qed.

(** X24.  [getHistoricalData] holds the trajectory of a month, point
    for point, exactly when the month is historical and has data; no
    other month has an entry. *)
Theorem getHistoricalData_lookup (a : Analyzer) (k : string) :
  dget k (getHistoricalData a)
  = (if existsb (String.eqb k) (allHistoricalMonths a)
     then option_map (map toTrajectoryPoint)
                     (dget k (aggregatedDataByMonth a))
     else None)
  /\ (In k (keys (getHistoricalData a))
      <-> In k (allHistoricalMonths a)
          /\ In k (keys (aggregatedDataByMonth a))).
Proof.
  assert (E : dget k (getHistoricalData a)
              = if existsb (String.eqb k) (allHistoricalMonths a)
                then option_map (map toTrajectoryPoint)
                                (dget k (aggregatedDataByMonth a))
                else None).
  { unfold getHistoricalData. rewrite historical_fold.
    destruct (existsb _ _); [|reflexivity].
    now destruct (dget k (aggregatedDataByMonth a)). }
  split; [exact E|].
  rewrite !dget_In_keys, E, <- existsb_eqb_In.
  destruct (existsb (String.eqb k) (allHistoricalMonths a)).
  - destruct (dget k (aggregatedDataByMonth a)) as [md|]; cbn [option_map].
    + split; eauto.
    + split; [intros [v C]; discriminate | intros [_ [v C]]; discriminate].
  - split; [intros [v C]; discriminate | intros [C _]; discriminate].
Qed.

End AppendixDates.

(* ================================================================== *)
(** ** The peak of a month *)

Section PeakSpec.
Context `{N : Number} `{H : Host}.
Import JsString JsDate.

Lemma inWindow_end (ws we : option Z) (t : Z) :
  inWindow ws we t = true -> exists e, we = Some e.
Proof.
  unfold inWindow. destruct ws; [|discriminate].
  destruct we as [e|]; [eauto | discriminate].
Qed.

Lemma In_setAdd (x y : string) (s : list string) :
  In y (setAdd x s) <-> y = x \/ In y s.
Proof.
  unfold setAdd. destruct (existsb (String.eqb x) s) eqn:E.
  - apply existsb_eqb_In in E. split; [auto | intros [-> | Hy]; auto].
  - rewrite in_app_iff. cbn. split.
    + intros [Hy | [<- | []]]; auto.
    + intros [-> | Hy]; auto.
Qed.

Lemma In_snapshotsBetween (ws we : option Z) (rows : list ProcessedRow)
      (iso : string) :
  In iso (snapshotsBetween ws we rows)
  <-> exists p, In p rows /\ inWindow ws we (p_snapshotDate p) = true
                /\ toISOString (p_snapshotDate p) = iso.
Proof.
  unfold snapshotsBetween.
  assert (G : forall acc,
             In iso (fold_left
                       (fun s row =>
                          if inWindow ws we (p_snapshotDate row)
                          then setAdd (toISOString (p_snapshotDate row)) s
                          else s) rows acc)
             <-> In iso acc
                 \/ exists p, In p rows
                              /\ inWindow ws we (p_snapshotDate p) = true
                              /\ toISOString (p_snapshotDate p) = iso).
  { induction rows as [|row rows IH]; intros acc; cbn [fold_left].
    - split; [auto | intros [Ha | (p & [] & _)]; exact Ha].
    - rewrite IH. clear IH.
      destruct (inWindow ws we (p_snapshotDate row)) eqn:W.
      + rewrite In_setAdd. split.
        * intros [[-> | Ha] | (p & Hp & Wp & Ep)].
          -- right. exists row. split; [now left | auto].
          -- now left.
          -- right. exists p. split; [now right | auto].
        * intros [Ha | (p & [<- | Hp] & Wp & Ep)].
          -- left. now right.
          -- left. left. now symmetry.
          -- right. exists p. auto.
      + split.
        * intros [Ha | (p & Hp & Wp & Ep)].
          -- now left.
          -- right. exists p. split; [now right | auto].
        * intros [Ha | (p & [<- | Hp] & Wp & Ep)].
          -- now left.
          -- congruence.
          -- right. exists p. auto. }
  rewrite G. split; [intros [[] | K]; exact K | auto].
Qed.

(** The search keeps a candidate that no snapshot seen exceeds. *)
Lemma peak_fold `{!NumberCompare N} (rows : list ProcessedRow) (m : string)
      (isos : list string) (init : PeakSnapshot) :
  let final := fold_left (peakStep rows m) isos init in
  (final = init \/ exists iso, In iso isos /\ final = peakOfSnapshot rows m iso)
  /\ (forall x : num, (x >? ps_raw init)%num = false ->
                      (x >? ps_raw final)%num = false)
  /\ (forall iso, In iso isos ->
                  (ps_raw (peakOfSnapshot rows m iso) >? ps_raw final)%num
                  = false).
Proof.
  revert init. induction isos as [|iso isos IH]; intros init; cbn [fold_left].
  - split; [now left|]. split; [auto | intros iso []].
  - destruct (IH (peakStep rows m init iso)) as (I1 & I2 & I3). cbv zeta.
    set (final := fold_left (peakStep rows m) isos (peakStep rows m init iso))
      in *.
    assert (S2 : forall x : num,
               (x >? ps_raw init)%num = false ->
               (x >? ps_raw (peakStep rows m init iso))%num = false).
    { intros x Hx. unfold peakStep.
      destruct (ps_raw (peakOfSnapshot rows m iso) >? ps_raw init)%num eqn:G;
        [|exact Hx].
      destruct (x >? ps_raw (peakOfSnapshot rows m iso))%num eqn:G';
        [|reflexivity].
      rewrite (lt_trans _ _ _ G G') in Hx. discriminate. }
    assert (S3 : (ps_raw (peakOfSnapshot rows m iso)
                  >? ps_raw (peakStep rows m init iso))%num = false).
    { unfold peakStep.
      destruct (ps_raw (peakOfSnapshot rows m iso) >? ps_raw init)%num eqn:G;
        [apply lt_irrefl | exact G]. }
    split; [|split].
    + destruct I1 as [I1 | (iso' & Hi & Ef)].
      * rewrite I1. unfold peakStep.
        destruct (ps_raw (peakOfSnapshot rows m iso) >? ps_raw init)%num;
          [right; exists iso; split; [now left | auto] | now left].
      * right. exists iso'. split; [now right | exact Ef].
    + intros x Hx. apply I2, S2, Hx.
    + intros iso' [<- | Hi]; [apply I2, S3 | now apply I3].
Qed.

Lemma raw_fold (l : list ProcessedRow) (acc : Totals) :
  raw (fold_left addRow l acc)
  = fold_left (fun sum d => (sum + p_amount d)%num) l (raw acc)
  /\ weighted (fold_left addRow l acc)
     = fold_left (fun sum d => (sum + p_weightedAmount d)%num) l (weighted acc).
Proof.
  revert acc. induction l as [|d l IH]; intros acc; [split; reflexivity|].
  cbn [fold_left]. destruct (IH (addRow acc d)) as [I1 I2].
  rewrite I1, I2. split; reflexivity.
Qed.

(** The candidate of the snapshot of a well-formed observation. *)
Lemma peakOfSnapshot_row (rows : list ProcessedRow) (m : string)
      (p : ProcessedRow) :
  Forall wellFormed rows -> wellFormed p ->
  peakOfSnapshot rows m (toISOString (p_snapshotDate p))
  = {| ps_date := Some (p_snapshotDate p);
       ps_raw := rawTotal rows m (p_snapshotDate p);
       ps_weighted := weightedTotal rows m (p_snapshotDate p) |}.
Proof.
  intros Hw (Hp & _).
  pose proof (proj1 (Stdlib.Lists.List.Forall_forall _ _) Hw) as W.
  unfold peakOfSnapshot, rawTotal, weightedTotal, totalsOf.
  rewrite (Date_parse_toISOString _ Hp).
  assert (F : dealsOf rows m (toISOString (p_snapshotDate p))
              = List.filter (sameSnapshot (p_snapshotDate p) m) rows).
  { unfold dealsOf. apply filter_ext_in. intros q Hq.
    unfold sameSnapshot. f_equal.
    destruct (W q Hq) as (Hqs & _).
    destruct (p_snapshotDate q =? p_snapshotDate p) eqn:E.
    - apply Z.eqb_eq in E. rewrite E. apply String.eqb_refl.
    - apply String.eqb_neq. intros C. apply toISOString_inj in C;
        [|assumption..].
      apply Z.eqb_neq in E. contradiction. }
  rewrite F.
  destruct (raw_fold (List.filter (sameSnapshot (p_snapshotDate p) m) rows)
                     {| raw := ofZ 0; weighted := ofZ 0 |}) as [R1 R2].
  rewrite R1, R2. reflexivity.
Qed.

(** X25.  The peak that [analyzePeakAndDecline] reports for a month is
    the snapshot of an observation taken within the two-month window of
    the month; its values are the totals of the amounts of that
    snapshot for the month, no snapshot of the window has a greater raw
    total, and the days before closing are counted from that snapshot
    to the last instant of the month. *)
Theorem peak_of_window `{!NumberCompare N}
        (a : Analyzer) (m : string) (r : NewPeakAnalysis) :
  Forall wellFormed (allData a) ->
  peakOfMonth a m = Some r ->
  exists c e p,
    Date_parse (append m "-01T00:00:00.000Z") = Some c
    /\ peakWindowEnd c = Some e
    /\ In p (allData a)
    /\ inPeakWindow c (p_snapshotDate p) = true
    /\ peakDate r = Some (p_snapshotDate p)
    /\ pk_daysBeforeClosing r = Some (daysUntil e (p_snapshotDate p))
    /\ peakRawValue r = rawTotal (allData a) m (p_snapshotDate p)
    /\ peakWeightedValue r = weightedTotal (allData a) m (p_snapshotDate p)
    /\ forall q, In q (allData a) ->
                 inPeakWindow c (p_snapshotDate q) = true ->
                 (rawTotal (allData a) m (p_snapshotDate q)
                  >? peakRawValue r)%num = false.
Proof.
  intros Hw.
  pose proof (proj1 (Stdlib.Lists.List.Forall_forall _ _) Hw) as W.
  unfold peakOfMonth.
  destruct (Date_parse (append m "-01T00:00:00.000Z")) as [c|]; [|discriminate].
  cbv zeta.
  remember (UTC (Some (getUTCFullYear c)) (Some (getUTCMonth c - 1)) (Some 1)
                0 0 0 0) as ws eqn:Ews.
  remember (UTC (Some (getUTCFullYear c)) (Some (getUTCMonth c + 1)) (Some 0)
                23 59 59 999) as we eqn:Ewe.
  pose proof (In_snapshotsBetween ws we (allData a)) as Hin.
  unfold snapshotsBetween in Hin.
  destruct (fold_left _ (allData a) []) as [|s0 ss]; [discriminate|].
  set (peak := fold_left _ (s0 :: ss) _).
  assert (Epeak : peak = fold_left (peakStep (allData a) m) (s0 :: ss) noPeak)
    by reflexivity.
  clearbody peak.
  destruct (peak_fold (allData a) m (s0 :: ss) noPeak) as (P1 & _ & P3).
  cbv zeta in P1, P3. rewrite <- Epeak in P1, P3. clear Epeak.
  destruct (dget m (actualClosingValues a)) as [v|]; [|discriminate].
  destruct (ps_raw peak =? ofZ 0)%num eqn:Z0; [discriminate|].
  intros [= <-].
  cbn [peakDate pk_daysBeforeClosing peakRawValue peakWeightedValue].
  destruct P1 as [P1 | (iso & Hiso & P1)].
  { rewrite P1 in Z0. cbn [noPeak ps_raw] in Z0. rewrite zero_eq in Z0.
    discriminate. }
  apply Hin in Hiso. destruct Hiso as (p & Hp & Wp & <-).
  rewrite (peakOfSnapshot_row _ _ p Hw (W p Hp)) in P1.
  destruct (inWindow_end _ _ _ Wp) as [e He].
  assert (Ein : forall t, inPeakWindow c t = inWindow ws we t).
  { intros t. unfold inPeakWindow, peakWindowStart, peakWindowEnd.
    now rewrite <- Ews, <- Ewe. }
  exists c, e, p. rewrite P1, Ein. cbn [ps_date ps_raw ps_weighted].
  split; [reflexivity|].
  split; [unfold peakWindowEnd; now rewrite <- Ewe|].
  split; [exact Hp|].
  split; [exact Wp|]. split; [reflexivity|].
  split; [now rewrite He|].
  split; [reflexivity|]. split; [reflexivity|].
  intros q Hq Wq. rewrite Ein in Wq.
  assert (Hiq : In (toISOString (p_snapshotDate q)) (s0 :: ss))
    by (apply Hin; eauto).
  specialize (P3 _ Hiq).
  rewrite (peakOfSnapshot_row _ _ q Hw (W q Hq)), P1 in P3.
  exact P3.
Qed.

End PeakSpec.

(* ================================================================== *)
(** ** The current months of the anomaly analyzer *)

Section AnomalySpec.
Context `{N : Number} `{H : Host}.
Import JsString JsDate.

Lemma In_monthKeysOf (rows : list ProcessedRow) (k : string) :
  In k (Anomaly.monthKeysOf rows)
  <-> exists p, In p rows /\ monthKeyOf (p_closingMonth p) = k.
Proof.
  unfold Anomaly.monthKeysOf.
  assert (G : forall acc,
             In k (fold_left
                     (fun s row => setAdd (monthKeyOf (p_closingMonth row)) s)
                     rows acc)
             <-> In k acc
                 \/ exists p, In p rows /\ monthKeyOf (p_closingMonth p) = k).
  { induction rows as [|row rows IH]; intros acc; cbn [fold_left].
    - split; [auto | intros [Ha | (p & [] & _)]; exact Ha].
    - rewrite IH, In_setAdd. split.
      + intros [[-> | Ha] | (p & Hp & Ep)].
        * right. exists row. split; [now left | reflexivity].
        * now left.
        * right. exists p. split; [now right | exact Ep].
      + intros [Ha | (p & [<- | Hp] & Ep)].
        * left. now right.
        * left. left. now symmetry.
        * right. exists p. auto. }
  rewrite G. split; [intros [[] | K]; exact K | auto].
Qed.

(** The two analyzers compute the same closing day for a month of
    2025. *)
Lemma closing_day_agrees (m : Z) :
  1 <= m <= 12 ->
  exists d,
    Anomaly.lastDayOfClosingMonth (append "2025-" (pad 2 m)) = Some d
    /\ UTC (parseInt (substring 0 4 (append "2025-" (pad 2 m))))
           (parseInt (substring 5 7 (append "2025-" (pad 2 m))))
           (Some 0) 0 0 0 0 = Some d.
Proof.
  intros Hm.
  assert (C : m = 1 \/ m = 2 \/ m = 3 \/ m = 4 \/ m = 5 \/ m = 6 \/ m = 7
              \/ m = 8 \/ m = 9 \/ m = 10 \/ m = 11 \/ m = 12) by lia.
  unfold Anomaly.lastDayOfClosingMonth, Date_parse.
  destruct C as [-> | [-> | [-> | [-> | [-> | [-> | [-> | [-> | [-> | [-> |
                [-> | ->]]]]]]]]]]];
    (destruct (parseISO _) as [c|] eqn:E; vm_compute in E;
     [injection E as <- | discriminate E]);
    eexists; split; vm_compute; reflexivity.
Qed.

(** X26.  Given the same rows and the same clock, every month that the
    anomaly analyzer holds as current is a current month of the
    trajectory analyzer: it is the closing month of an observation and
    its last day has not begun before today. *)
Theorem anomaly_current_months
        (a' : Analyzer) (rawData : list RawCSVRow) (k : string) :
  hostTimeValues ->
  loadData newAnalyzer rawData = Some a' ->
  In k (Anomaly.currentMonths (Anomaly.loadData Anomaly.new rawData)) ->
  In k (currentMonths a')
  /\ (exists p, In p (processRawData rawData)
                /\ monthKeyOf (p_closingMonth p) = k)
  /\ Anomaly.isCurrent now k = true.
Proof.
  intros Hh L Hk. unfold Anomaly.loadData in Hk.
  destruct (processRawData rawData) as [|p0 rows0] eqn:Er; [destruct Hk|].
  cbn [length Nat.eqb Anomaly.currentMonths] in Hk.
  unfold Anomaly.categorizeMonths in Hk.
  apply (Permutation_in _ (sort_perm _ _)) in Hk.
  apply filter_In in Hk. destruct Hk as [Hk Hcur].
  apply (Permutation_in _ (sort_perm _ _)) in Hk.
  apply In_monthKeysOf in Hk. destruct Hk as (p & Hp & Ek).
  rewrite <- Er in Hp.
  split; [|split; [exists p; rewrite <- Er; auto | exact Hcur]].
  destruct (loadData_fields newAnalyzer a' rawData L) as
      (_ & Ed & Ea & _ & Ecat & _); [congruence|].
  cbn [aggregatedDataByMonth newAnalyzer] in Ea. rewrite Ed in Ea.
  pose proof (processRawData_wellFormed rawData Hh) as Hw.
  destruct (row_point _ _ _ p Hw Ea Hp) as (traj & _ & Et & _).
  rewrite Ek in Et.
  assert (Hc : In k (snd (categorizeMonths (aggregatedDataByMonth a')
                                           (actualClosingValues a')))).
  { apply categorizeMonths_current. split.
    - apply dget_In_keys. eauto.
    - rewrite Stdlib.Lists.List.Forall_forall in Hw.
      destruct (Hw p Hp) as (_ & Hy & _).
      destruct (monthKeyOf_2025 _ Hy) as [Emk Hm]. rewrite Ek in Emk.
      destruct (closing_day_agrees (getUTCMonth (p_closingMonth p) + 1))
        as (d & D1 & D2); [lia|].
      rewrite <- Emk in D1, D2.
      unfold Anomaly.isCurrent in Hcur. rewrite D1 in Hcur.
      unfold isHistorical. rewrite D2.
      assert (G : (d <? now) = false) by (apply Z.ltb_ge; lia).
      rewrite G. reflexivity. }
  rewrite <- Ecat in Hc. exact Hc.
Qed.

End AnomalySpec.

(* ================================================================== *)
(** ** The months similar to a goal *)

Section GoalSeekSimilarSpec.
Context `{N : Number} `{H : Host}.

(** X27.  [findSimilarHistoricalMonthsForGoalSeek] returns at most two
    comparisons, and none without peak data.  Each one is about a
    historical month dated January 2025 or later for which the peak
    data hold an entry with a truthy weighted closing value, which the
    comparison carries; it has no similarity points, and its average
    difference and variance are 0. *)
Theorem goalSeek_similar_months_bounds
        (a : Analyzer) (goalValue peakValue daysAtPeak : num) :
  (length (findSimilarHistoricalMonthsForGoalSeek
             a goalValue peakValue daysAtPeak) <= 2)%nat
  /\ (peakData a = [] ->
      findSimilarHistoricalMonthsForGoalSeek a goalValue peakValue daysAtPeak
      = [])
  /\ forall c,
      In c (findSimilarHistoricalMonthsForGoalSeek
              a goalValue peakValue daysAtPeak) ->
      In (historical_month c) (allHistoricalMonths a)
      /\ sinceJanuary (historical_month c) = true
      /\ (exists peak,
             In peak (peakData a)
             /\ pk_month peak = historical_month c
             /\ truthy (actualClosingWeightedValue peak) = true
             /\ historical_closing c = actualClosingWeightedValue peak)
      /\ similarities c = []
      /\ avg_pct_diff c = ofZ 0
      /\ variance c = ofZ 0.
Proof.
  unfold findSimilarHistoricalMonthsForGoalSeek. cbv zeta.
  split; [unfold slice; rewrite length_firstn; lia|].
  split.
  - intros Ep.
    assert (E : omap (goalSeekCandidate a goalValue peakValue daysAtPeak)
                     (List.filter sinceJanuary (allHistoricalMonths a)) = []).
    { induction (List.filter sinceJanuary (allHistoricalMonths a))
        as [|m l IH]; [reflexivity|].
      cbn [omap list_omap]. unfold goalSeekCandidate at 1.
      rewrite Ep. cbn [List.find]. exact IH. }
    rewrite E. reflexivity.
  - intros c Hc. unfold slice in Hc. cbn [skipn] in Hc.
    apply In_firstn_In in Hc.
    apply (Permutation_in _ (sort_perm _ _)) in Hc.
    apply In_omap in Hc. destruct Hc as (m & Hm & E).
    apply filter_In in Hm. destruct Hm as [Hm Hj].
    unfold goalSeekCandidate in E.
    destruct (List.find _ (peakData a)) as [peak|] eqn:Ef; [|discriminate].
    apply List.find_some in Ef. destruct Ef as [Hpeak Epk].
    apply String.eqb_eq in Epk.
    destruct (truthy (actualClosingWeightedValue peak)) eqn:T;
      [|discriminate].
    cbv [negb] in E. injection E as <-.
    cbn [historical_month historical_closing similarities avg_pct_diff
         variance].
    split; [exact Hm|]. split; [exact Hj|].
    split; [exists peak; auto|]. auto.
Qed.

End GoalSeekSimilarSpec.

(* ================================================================== *)
(** ** The months of a loaded analyzer *)

Section LoadedMonths.
Context `{N : Number} `{H : Host}.
Import JsString JsDate.

Lemma pushAggregates_NoDup (aggregates : list DailyAggregate)
      (data pushed : MonthData) :
  List.NoDup (keys data) ->
  pushAggregates aggregates data = Some pushed ->
  List.NoDup (keys pushed).
Proof.
  revert data. induction aggregates as [|a aggregates IH]; intros data Hn E.
  - cbn [pushAggregates] in E. injection E as <-. exact Hn.
  - rewrite pushAggregates_cons in E.
    destruct (da_closingMonth a) as [c|]; [|discriminate].
    eapply IH; [|exact E]. now apply NoDup_dset.
Qed.

Lemma keys_map_values {V W} (f : V -> W) (d : dict V) :
  keys (map (fun kv => (fst kv, f (snd kv))) d) = keys d.
Proof. unfold keys. rewrite map_map. reflexivity. Qed.

Lemma aggregated_keys_NoDup (rows : list ProcessedRow) (data out : MonthData) :
  List.NoDup (keys data) ->
  aggregateDataByMonth rows data = Some out ->
  List.NoDup (keys out).
Proof.
  intros Hn. unfold aggregateDataByMonth.
  destruct (dailyAggregates _ _) as [daily|]; [|discriminate].
  destruct (pushAggregates (values daily) data) as [pushed|] eqn:Ep;
    [|discriminate].
  intros E. injection E as <-. rewrite keys_map_values.
  exact (pushAggregates_NoDup _ _ _ Hn Ep).
Qed.

(** X28.  After [loadData] on a new analyzer, the keys of the
    aggregated data are months of 2025, each one once; and the backtest
    analyzer built on the aggregated data and the closing values, as
    the application builds it, holds its historical months in the order
    of their dates, each earlier than the next. *)
Theorem loaded_months_in_date_order
        (a' : Analyzer) (rawData : list RawCSVRow) :
  hostTimeValues ->
  loadData newAnalyzer rawData = Some a' ->
  monthsOf2025 (aggregatedDataByMonth a')
  /\ StronglySorted (fun k k' => datedBefore k k' = true)
       (Backtest.allHistoricalMonths
          (Backtest.new (aggregatedDataByMonth a') (actualClosingValues a'))).
Proof.
  intros Hh L.
  assert (M : monthsOf2025 (aggregatedDataByMonth a')).
  { destruct (processRawData rawData) as [|p0 rows0] eqn:Er.
    - destruct (loadData_no_rows newAnalyzer rawData Er)
        as (a2 & L2 & _ & Ea & _).
      rewrite L in L2. injection L2 as <-. rewrite Ea.
      split; [apply List.NoDup_nil | intros k []].
    - destruct (loadData_fields newAnalyzer a' rawData L) as
          (_ & Ed & Ea & _); [congruence|].
      cbn [aggregatedDataByMonth newAnalyzer] in Ea. rewrite Ed in Ea.
      pose proof (processRawData_wellFormed rawData Hh) as Hw.
      split; [exact (aggregated_keys_NoDup _ [] _ (List.NoDup_nil _) Ea)|].
      intros k Hk. apply dget_In_keys in Hk. destruct Hk as [traj Et].
      destruct (fresh_trajectory _ _ _ k traj Hw Ea eq_refl Et)
        as (Hne & _ & Hpts).
      destruct traj as [|pt traj]; [contradiction|].
      apply Forall_cons in Hpts. destruct Hpts as [[Hpt _] _].
      destruct Hpt as (p & Hp & Ek & _).
      rewrite Stdlib.Lists.List.Forall_forall in Hw.
      destruct (Hw p Hp) as (_ & Hy & _).
      destruct (monthKeyOf_2025 _ Hy) as [Emk Hm].
      exists (getUTCMonth (p_closingMonth p) + 1).
      split; [lia|]. rewrite <- Ek. exact Emk. }
  split; [exact M|].
  apply historical_in_date_order, M.
Qed.

End LoadedMonths.

(* ================================================================== *)
(** ** The properties of the aggregation on the concrete inputs *)

#[export] Instance QcCompare : NumberCompare QcNumber.
Proof.
  split; cbn.
  - intros a. destruct (QcArith.ltb a a) eqn:E; [|reflexivity].
    apply QcArith_ltb_lt in E. exfalso. exact (Qclt_not_eq _ _ E eq_refl).
  - intros a b c E1 E2. apply QcArith_ltb_lt in E1, E2.
    apply QcArith_ltb_lt. eapply Qclt_trans; eassumption.
  - reflexivity.
Qed.

Lemma isoHost_timeValues (today : Z) : @hostTimeValues (isoHost today).
Proof. intros s t E. discriminate E. Qed.

Lemma pipelineObservations_wellFormed :
  Forall (@wellFormed QcNumber) pipelineObservations.
Proof.
  apply (@processRawData_wellFormed QcNumber februaryHost pipelineRows).
  apply isoHost_timeValues.
Qed.

Lemma pipelineTrajectories_aggregated :
  @aggregateDataByMonth QcNumber februaryHost pipelineObservations []
  = Some pipelineTrajectories.
Proof. apply default_Some. vm_compute. reflexivity. Qed.

(** X19 at the January of [pipelineRows]. *)
Lemma aggregated_points_from_rows_witness :
  @pointOfRows QcNumber pipelineObservations "2025-01"
     (hd (point 0 0) (default [] (dget "2025-01" pipelineTrajectories)))
  /\ -5 <= daysBeforeClose
             (hd (point 0 0) (default [] (dget "2025-01" pipelineTrajectories)))
     <= 89.
Proof.
  destruct (@aggregated_points_from_rows QcNumber februaryHost
              pipelineObservations [] pipelineTrajectories "2025-01"
              (default [] (dget "2025-01" pipelineTrajectories))
              (hd (point 0 0) (default [] (dget "2025-01" pipelineTrajectories)))
              pipelineObservations_wellFormed
              pipelineTrajectories_aggregated)
    as [[] | K].
  - apply default_Some. vm_compute. reflexivity.
  - apply In_hd. vm_compute. reflexivity.
  - exact K.
Defined.

(** X20 at the January of [pipelineRows]. *)
Lemma aggregated_one_point_per_day_witness :
  List.NoDup (map (fun pt => JsDate.isoDate (snapshotDate pt))
                  (default [] (dget "2025-01" pipelineTrajectories))).
Proof.
  destruct (@aggregated_one_point_per_day QcNumber februaryHost
              pipelineObservations [] pipelineTrajectories "2025-01"
              (default [] (dget "2025-01" pipelineTrajectories))
              pipelineObservations_wellFormed
              pipelineTrajectories_aggregated)
    as (_ & K).
  - apply default_Some. vm_compute. reflexivity.
  - exact (proj1 (proj2 (K eq_refl))).
Defined.

(** X21 at [pipelineRows]. *)
Lemma loadData_never_rejects_witness :
  exists a',
    @loadData QcNumber februaryHost newAnalyzer pipelineRows = Some a'
    /\ allData a' = @processRawData QcNumber februaryHost pipelineRows.
Proof.
  apply (@loadData_never_rejects QcNumber februaryHost newAnalyzer pipelineRows).
  apply isoHost_timeValues.
Defined.

(** X22 at the February of [pipelineAnalyzer]. *)
Lemma fresh_load_forecasts_witness :
  exists f,
    forecast (hd noAnalysis (@getForecast QcNumber februaryHost pipelineAnalyzer))
    = Some f.
Proof.
  destruct (@fresh_load_forecasts QcNumber februaryHost pipelineAnalyzer
              pipelineRows
              (hd noAnalysis (@getForecast QcNumber februaryHost pipelineAnalyzer))
              (isoHost_timeValues _) pipelineAnalyzer_loaded)
    as (latest & f & K).
  - apply In_hd. vm_compute. reflexivity.
  - exists f. apply K.
Defined.

(** X23 at the February of [pipelineAnalyzer]. *)
Lemma appendix_dates_witness :
  exists first rest,
    dget (fc_month
            (hd noCalculation
                (forecastCalculations
                   (@getAppendixData QcNumber februaryHost pipelineAnalyzer))))
         (aggregatedDataByMonth pipelineAnalyzer)
    = Some (first :: rest).
Proof.
  destruct (@appendix_dates QcNumber februaryHost pipelineAnalyzer
              (hd noCalculation
                  (forecastCalculations
                     (@getAppendixData QcNumber februaryHost pipelineAnalyzer))))
    as (first & rest & latest & K & _).
  - apply In_hd. vm_compute. reflexivity.
  - exists first, rest. exact K.
Defined.

Lemma pipelineAnalyzer_wellFormed :
  Forall (@wellFormed QcNumber) (allData pipelineAnalyzer).
Proof.
  rewrite (@loadData_allData QcNumber februaryHost newAnalyzer
             pipelineAnalyzer pipelineRows pipelineAnalyzer_loaded).
  apply pipelineObservations_wellFormed.
Qed.

(** X25 at the January of [pipelineAnalyzer]. *)
Lemma peak_of_window_witness :
  exists p,
    In p (allData pipelineAnalyzer)
    /\ peakDate (default noPeakAnalysis
                         (@peakOfMonth QcNumber februaryHost
                                       pipelineAnalyzer "2025-01"))
       = Some (p_snapshotDate p).
Proof.
  destruct (@peak_of_window QcNumber februaryHost QcCompare
              pipelineAnalyzer "2025-01"
              (default noPeakAnalysis
                       (@peakOfMonth QcNumber februaryHost
                                     pipelineAnalyzer "2025-01"))
              pipelineAnalyzer_wellFormed)
    as (c & e & p & _ & _ & K1 & _ & K2 & _).
  - apply default_Some. vm_compute. reflexivity.
  - exists p. exact (conj K1 K2).
Defined.

(** X26 at the February of [pipelineRows]. *)
Lemma anomaly_current_months_witness :
  In "2025-02"%string (currentMonths pipelineAnalyzer).
Proof.
  apply (@anomaly_current_months QcNumber februaryHost pipelineAnalyzer
           pipelineRows "2025-02" (isoHost_timeValues _)
           pipelineAnalyzer_loaded).
  vm_compute. left. reflexivity.
Defined.

(** X28 at [pipelineAnalyzer]. *)
Lemma loaded_months_in_date_order_witness :
  @monthsOf2025 QcNumber (aggregatedDataByMonth pipelineAnalyzer).
Proof.
  apply (@loaded_months_in_date_order QcNumber februaryHost pipelineAnalyzer
           pipelineRows (isoHost_timeValues _) pipelineAnalyzer_loaded).
Defined.
